(** * ebookta: the local development server [server.py]

    A shallow embedding of [server.py] and of the parts of the Python
    standard library it runs on: [server.py] is a subclass of
    [http.server.SimpleHTTPRequestHandler] that overrides [extensions_map]
    and [end_headers] and adds [do_OPTIONS], plus the start-up routine
    [run_server].  Everything a request goes through besides those three
    members is inherited, so the inherited methods of
    [BaseHTTPRequestHandler] and [SimpleHTTPRequestHandler]
    (Lib/http/server.py, CPython 3.11) and the [posixpath] helpers they
    call are embedded too, method by method and under their own names.

    Python [str] values are modelled as [string]: a sequence of code points
    below 256, which is what the request line decoded as iso-8859-1 holds. *)

From Stdlib Require Import String Ascii List ZArith Bool Lia DecimalString.
From Stdlib Require Import Permutation Sorted.
Import ListNotations.
Open Scope string_scope.
Open Scope Z_scope.

Set Implicit Arguments.

(** ** Python [str] methods used by the code *)

Module Py.

Definition code (c : ascii) : N := N_of_ascii c.

(** [str.isspace] on one code point below 256. *)
Definition isspace (c : ascii) : bool :=
  let n := code c in
  ((9 <=? n) && (n <=? 13) || (28 <=? n) && (n <=? 32)
   || (n =? 133) || (n =? 160))%N.

(** [str.lower] on one code point below 256: A-Z, and the capital letters
    of the Latin-1 supplement (U+00C0..U+00DE but the multiplication
    sign). *)
Definition lower_char (c : ascii) : ascii :=
  let n := code c in
  if ((65 <=? n) && (n <=? 90)
      || (192 <=? n) && (n <=? 222) && negb (n =? 215))%N
  then ascii_of_N (n + 32) else c.

Fixpoint lower (s : string) : string :=
  match s with
  | EmptyString => EmptyString
  | String c r => String (lower_char c) (lower r)
  end.

(** [s.startswith(p)] and [s.endswith(p)]. *)
Definition startswith (s p : string) : bool := String.prefix p s.

Fixpoint rev (s : string) : string :=
  match s with
  | EmptyString => EmptyString
  | String c r => rev r ++ String c EmptyString
  end.

Definition endswith (s p : string) : bool := String.prefix (rev p) (rev s).

(** [len(s)]. *)
Definition len (s : string) : Z := Z.of_nat (String.length s).

(** [s[:i]] and [s[i:]] for [0 <= i]. *)
Definition slice_to (s : string) (i : Z) : string :=
  String.substring 0 (Z.to_nat i) s.

Definition slice_from (s : string) (i : Z) : string :=
  String.substring (Z.to_nat i) (String.length s - Z.to_nat i) s.

(** [s[i:i+1]] for [0 <= i]: the empty string past the end. *)
Definition slice1 (s : string) (i : Z) : string :=
  match String.get (Z.to_nat i) s with
  | Some c => String c EmptyString
  | None => EmptyString
  end.

(** [s.find(c)] and [s.rfind(c)] for a one-character [c]; -1 when absent. *)
Fixpoint find_from (c : ascii) (s : string) (i : Z) : Z :=
  match s with
  | EmptyString => -1
  | String d r => if Ascii.eqb d c then i else find_from c r (i + 1)
  end.

Definition find (s : string) (c : ascii) : Z := find_from c s 0.

Fixpoint rfind_from (c : ascii) (s : string) (i : Z) (last : Z) : Z :=
  match s with
  | EmptyString => last
  | String d r => rfind_from c r (i + 1) (if Ascii.eqb d c then i else last)
  end.

Definition rfind (s : string) (c : ascii) : Z := rfind_from c s 0 (-1).

(** [s.split(c)] for a one-character separator: never empty. *)
Fixpoint split (s : string) (c : ascii) : list string :=
  match s with
  | EmptyString => [EmptyString]
  | String d r =>
      if Ascii.eqb d c then EmptyString :: split r c
      else match split r c with
           | w :: ws => String d w :: ws
           | [] => [String d EmptyString]
           end
  end.

(** [s.split(c, 1)]: cut at the first [c] only. *)
Definition split1 (s : string) (c : ascii) : list string :=
  let i := find s c in
  if i <? 0 then [s] else [slice_to s i; slice_from s (i + 1)].

(** [s.split()]: the maximal runs of non-whitespace characters. *)
Fixpoint split_ws_aux (s : string) (cur : string) : list string :=
  match s with
  | EmptyString => if String.eqb cur "" then [] else [rev cur]
  | String d r =>
      if isspace d
      then (if String.eqb cur "" then split_ws_aux r ""
            else rev cur :: split_ws_aux r "")
      else split_ws_aux r (String d cur)
  end.

Definition split_ws (s : string) : list string := split_ws_aux s "".

(** [s.lstrip(chars)], [s.rstrip(chars)] and [s.rstrip()]. *)
Fixpoint lstrip_by (f : ascii -> bool) (s : string) : string :=
  match s with
  | EmptyString => EmptyString
  | String d r => if f d then lstrip_by f r else s
  end.

Definition rstrip_by (f : ascii -> bool) (s : string) : string :=
  rev (lstrip_by f (rev s)).

Definition among (chars : string) (c : ascii) : bool :=
  existsb (Ascii.eqb c) (list_ascii_of_string chars).

Definition lstrip (s chars : string) : string := lstrip_by (among chars) s.
Definition rstrip (s chars : string) : string := rstrip_by (among chars) s.
Definition rstrip_ws (s : string) : string := rstrip_by isspace s.

(** [sep.join(words)]. *)
Definition join (sep : string) (words : list string) : string :=
  String.concat sep words.

(** [str(n)] for an integer. *)
Definition str (n : Z) : string := NilZero.string_of_int (Z.to_int n).

(** [format(s, '<n')]: padded with spaces on the right up to [n]. *)
Definition ljust (s : string) (n : nat) : string :=
  s ++ String.concat "" (List.repeat " " (n - String.length s)).

(** [c * n]: the character repeated. *)
Fixpoint repeat (c : ascii) (n : nat) : string :=
  match n with
  | O => EmptyString
  | S k => String c (repeat c k)
  end.

(** A [dict] literal with [str] keys, in source order; [k in d] and
    [d[k]]. *)
Definition dict := list (string * string).

Fixpoint get (d : dict) (k : string) : option string :=
  match d with
  | [] => None
  | (k', v) :: r => if String.eqb k' k then Some v else get r k
  end.

Definition contains (d : dict) (k : string) : bool :=
  match get d k with Some _ => true | None => false end.

End Py.

(** ** [posixpath] (the [os.path] of the platform) *)

Module posixpath.

Definition sep : ascii := "/"%char.
Definition extsep : ascii := "."%char.
Definition curdir : string := ".".
Definition pardir : string := "..".

(** The [while] loop of [genericpath._splitext]: the first index in
    [filenameIndex, dotIndex) that holds something other than a dot
    decides for an extension. *)
Fixpoint skip_leading_dots (fuel : nat) (p : string)
         (filenameIndex dotIndex : Z) : string * string :=
  match fuel with
  | O => (p, Py.slice_to p 0)
  | S k =>
      if filenameIndex <? dotIndex then
        if negb (String.eqb (Py.slice1 p filenameIndex)
                            (String extsep EmptyString))
        then (Py.slice_to p dotIndex, Py.slice_from p dotIndex)
        else skip_leading_dots k p (filenameIndex + 1) dotIndex
      else (p, Py.slice_to p 0)
  end.

(** [genericpath._splitext(p, sep, None, extsep)]. *)
Definition _splitext (p : string) : string * string :=
  let sepIndex := Py.rfind p sep in
  let dotIndex := Py.rfind p extsep in
  if dotIndex >? sepIndex then
    let filenameIndex := sepIndex + 1 in
    skip_leading_dots (Z.to_nat (dotIndex - filenameIndex)) p
                      filenameIndex dotIndex
  else (p, Py.slice_to p 0).

Definition splitext (p : string) : string * string := _splitext p.

(** [posixpath.join(a, b)]. *)
Definition join (a b : string) : string :=
  if Py.startswith b (String sep EmptyString) then b
  else if String.eqb a "" || Py.endswith a (String sep EmptyString)
       then a ++ b
       else a ++ String sep EmptyString ++ b.

(** [posixpath.dirname(p)]. *)
Definition dirname (p : string) : string :=
  let i := Py.rfind p sep + 1 in
  let head := Py.slice_to p i in
  if negb (String.eqb head "")
     && negb (String.eqb head (Py.repeat sep (String.length head)))
  then Py.rstrip head (String sep EmptyString)
  else head.

(** The loop of [posixpath.normpath] over the components; [new_comps]
    is kept reversed, so its head is [new_comps[-1]]. *)
Fixpoint normpath_comps (initial_slashes : Z) (comps : list string)
         (new_comps : list string) : list string :=
  match comps with
  | [] => List.rev new_comps
  | comp :: rest =>
      if String.eqb comp "" || String.eqb comp curdir
      then normpath_comps initial_slashes rest new_comps
      else if negb (String.eqb comp pardir)
              || ((initial_slashes =? 0)
                  && match new_comps with [] => true | _ => false end)
              || match new_comps with
                 | last :: _ => String.eqb last pardir
                 | [] => false
                 end
      then normpath_comps initial_slashes rest (comp :: new_comps)
      else match new_comps with
           | _ :: popped => normpath_comps initial_slashes rest popped
           | [] => normpath_comps initial_slashes rest new_comps
           end
  end.

(** [posixpath.normpath(path)]. *)
Definition normpath (path : string) : string :=
  if String.eqb path "" then curdir
  else
    let initial_slashes :=
      if Py.startswith path "/" then
        if Py.startswith path "//" && negb (Py.startswith path "///")
        then 2 else 1
      else 0 in
    let comps := normpath_comps initial_slashes (Py.split path sep) [] in
    let path := Py.join "/" comps in
    let path := Py.repeat sep (Z.to_nat initial_slashes) ++ path in
    if String.eqb path "" then curdir else path.

End posixpath.

(** ** What a request handler works with *)

(** An open file as [send_head] uses it: its bytes, and the size and
    modification time [os.fstat] reports for it. *)
Record file_object : Type := {
  f_data : string;
  st_size : Z;
  st_mtime : Z
}.

(** The exceptions that matter to the program.  [UnicodeEncodeError] is
    a [ValueError] in Python; nothing in the program catches either, so the
    two are kept apart here.  [KeyboardInterrupt] is the one that is no
    [Exception]. *)
Inductive exception : Type :=
| OSError
| ValueError
| UnicodeEncodeError
| KeyboardInterrupt.

Definition is_Exception (e : exception) : bool :=
  match e with
  | KeyboardInterrupt => false
  | _ => true
  end.

(** What [open(path, 'rb')] comes to: a file, or an exception. The
    handler catches [OSError] only; a path that holds a NUL character, for
    one, makes [open] raise [ValueError]. *)
Inductive open_result : Type :=
| Opened (f : file_object)
| OpenRaises (e : exception).

(** What the handler asks of the operating system and of library routines
    that are not embedded here.  [None] stands for a raised [OSError]
    ([os_listdir]), [ValueError] ([int_of_str], [urlsplit_path]) or
    [UnicodeEncodeError] ([listing_page]).

    - [unquote] is [urllib.parse.unquote(path, errors='surrogatepass')],
      or [urllib.parse.unquote(path)] when that raises
      [UnicodeDecodeError];
    - [urlsplit_path] is [urllib.parse.urlsplit(path).path]; [urlsplit]
      raises [ValueError] on a malformed URL (an unbalanced bracket in
      the host part, for one);
    - [redirect_url] is [urlunsplit] of the split path with a slash added
      to its path part;
    - [mimetypes_guess_type] is [mimetypes.guess_type(path)[0]];
    - [int_of_str] is [int(s)] and [repr] is ['%r' % s];
    - [version_string] is [server_version + ' ' + sys_version];
    - [date_time_string] is [email.utils.formatdate(timestamp,
      usegmt=True)], of now for [None];
    - [not_modified_since] tells whether an If-Modified-Since value parses
      to a UTC date that is not before a modification time;
    - [error_page] is the encoded error page for a code, a message and an
      explanation;
    - [filesystemencoding] is [sys.getfilesystemencoding()];
    - [listing_page] is the listing page for a request path, the path
      of the directory (which the title shows when the request path
      cannot be unquoted) and the entries, each with its [isdir] and
      [islink] flag, encoded with
      [encode(enc, 'surrogateescape')], which raises [UnicodeEncodeError]
      when the page holds a character the encoding has no code for (a
      lone surrogate unquoted from the request path, for one).

    [mimetypes_guess_type] reads the system's [mime.types] files when it
    is first called, and [os.fstat] is called on the descriptor of a file
    just opened: neither takes a path from the request. *)
Record Env : Type := {
  os_path_isdir : string -> bool;
  os_path_isfile : string -> bool;
  os_path_islink : string -> bool;
  open_rb : string -> open_result;
  os_listdir : string -> option (list string);
  unquote : string -> string;
  urlsplit_path : string -> option string;
  redirect_url : string -> string;
  mimetypes_guess_type : string -> option string;
  int_of_str : string -> option Z;
  repr : string -> string;
  version_string : string;
  date_time_string : option Z -> string;
  not_modified_since : string -> Z -> bool;
  error_page : Z -> string -> string -> string;
  filesystemencoding : string;
  listing_page :
    string -> string -> list (string * bool * bool) -> option string
}.

(** One line of a response head, and what is written to the socket: a
    flushed head (the joined header buffer) or body bytes. *)
Inductive line : Type :=
| StatusLine (protocol : string) (code : Z) (message : string)
| HeaderLine (keyword value : string)
| BlankLine.

Inductive chunk : Type :=
| Head (lines : list line)
| Body (data : string).

Inductive log_entry : Type :=
| LogRequest (code : Z)
| LogError (code : Z) (message : string).

(** The calls the handler makes on the file system with a path of its
    own making: [os.path.isdir], [os.path.isfile], [os.path.islink],
    [open] and [os.listdir]. *)
Inductive fs_event : Type :=
| FsIsdir (p : string)
| FsIsfile (p : string)
| FsIslink (p : string)
| FsOpen (p : string)
| FsListdir (p : string).

(** The instance attributes of a request handler, with the socket's write
    side [wfile], the log, the record of file system calls, and the
    exception, if any, that left a method uncaught. *)
Record handler : Type := {
  directory : string;
  requestline : string;
  command : option string;
  path : string;
  request_version : string;
  headers : list (string * string);
  close_connection : bool;
  _headers_buffer : list line;
  wfile : list chunk;
  log : list log_entry;
  fs_trace : list fs_event;
  uncaught : option exception
}.

Definition set_requestline (v : string) (h : handler) : handler :=
  {| directory := directory h; requestline := v; command := command h;
     path := path h; request_version := request_version h;
     headers := headers h; close_connection := close_connection h;
     _headers_buffer := _headers_buffer h; wfile := wfile h; log := log h;
     fs_trace := fs_trace h; uncaught := uncaught h |}.

Definition set_command (v : option string) (h : handler) : handler :=
  {| directory := directory h; requestline := requestline h; command := v;
     path := path h; request_version := request_version h;
     headers := headers h; close_connection := close_connection h;
     _headers_buffer := _headers_buffer h; wfile := wfile h; log := log h;
     fs_trace := fs_trace h; uncaught := uncaught h |}.

Definition set_path (v : string) (h : handler) : handler :=
  {| directory := directory h; requestline := requestline h;
     command := command h; path := v; request_version := request_version h;
     headers := headers h; close_connection := close_connection h;
     _headers_buffer := _headers_buffer h; wfile := wfile h; log := log h;
     fs_trace := fs_trace h; uncaught := uncaught h |}.

Definition set_request_version (v : string) (h : handler) : handler :=
  {| directory := directory h; requestline := requestline h;
     command := command h; path := path h; request_version := v;
     headers := headers h; close_connection := close_connection h;
     _headers_buffer := _headers_buffer h; wfile := wfile h; log := log h;
     fs_trace := fs_trace h; uncaught := uncaught h |}.

Definition set_headers (v : list (string * string)) (h : handler) : handler :=
  {| directory := directory h; requestline := requestline h;
     command := command h; path := path h;
     request_version := request_version h; headers := v;
     close_connection := close_connection h;
     _headers_buffer := _headers_buffer h; wfile := wfile h; log := log h;
     fs_trace := fs_trace h; uncaught := uncaught h |}.

Definition set_close_connection (v : bool) (h : handler) : handler :=
  {| directory := directory h; requestline := requestline h;
     command := command h; path := path h;
     request_version := request_version h; headers := headers h;
     close_connection := v; _headers_buffer := _headers_buffer h;
     wfile := wfile h; log := log h; fs_trace := fs_trace h; uncaught := uncaught h |}.

Definition set_headers_buffer (v : list line) (h : handler) : handler :=
  {| directory := directory h; requestline := requestline h;
     command := command h; path := path h;
     request_version := request_version h; headers := headers h;
     close_connection := close_connection h; _headers_buffer := v;
     wfile := wfile h; log := log h; fs_trace := fs_trace h; uncaught := uncaught h |}.

(** [self.wfile.write(...)], a log message, a file system call. *)
Definition wfile_write (c : chunk) (h : handler) : handler :=
  {| directory := directory h; requestline := requestline h;
     command := command h; path := path h;
     request_version := request_version h; headers := headers h;
     close_connection := close_connection h;
     _headers_buffer := _headers_buffer h; wfile := wfile h ++ [c];
     log := log h; fs_trace := fs_trace h; uncaught := uncaught h |}.

Definition log_message (e : log_entry) (h : handler) : handler :=
  {| directory := directory h; requestline := requestline h;
     command := command h; path := path h;
     request_version := request_version h; headers := headers h;
     close_connection := close_connection h;
     _headers_buffer := _headers_buffer h; wfile := wfile h;
     log := log h ++ [e]; fs_trace := fs_trace h; uncaught := uncaught h |}.

Definition fs_call (e : fs_event) (h : handler) : handler :=
  {| directory := directory h; requestline := requestline h;
     command := command h; path := path h;
     request_version := request_version h; headers := headers h;
     close_connection := close_connection h;
     _headers_buffer := _headers_buffer h; wfile := wfile h; log := log h;
     fs_trace := fs_trace h ++ [e]; uncaught := uncaught h |}.

(** An exception is raised and nothing in the handler catches it. *)
Definition raise_uncaught (e : exception) (h : handler) : handler :=
  {| directory := directory h; requestline := requestline h;
     command := command h; path := path h;
     request_version := request_version h; headers := headers h;
     close_connection := close_connection h;
     _headers_buffer := _headers_buffer h; wfile := wfile h; log := log h;
     fs_trace := fs_trace h; uncaught := Some e |}.

(** The handler as [__init__] leaves it before [handle] runs: [directory]
    set, nothing parsed, nothing written. *)
Definition new_handler (dir : string) : handler :=
  {| directory := dir; requestline := ""; command := None; path := "";
     request_version := ""; headers := []; close_connection := true;
     _headers_buffer := []; wfile := []; log := []; fs_trace := [];
     uncaught := None |}.

(** What [rfile] yields for one request: the request line as
    [readline(65537)] returns it, and the outcome of
    [http.client.parse_headers] on what follows. *)
Inductive parsed_headers : Type :=
| HeadersOk (fields : list (string * string))
| LineTooLong (err : string)
| HTTPException (err : string).

Record request : Type := {
  raw_requestline : string;
  rfile_headers : parsed_headers
}.

(** [self.headers.get(name, "")] and [name in self.headers]: field names
    compare without case, the first match wins. *)
Fixpoint headers_get (fields : list (string * string)) (name : string)
  : option string :=
  match fields with
  | [] => None
  | (k, v) :: r =>
      if String.eqb (Py.lower k) (Py.lower name) then Some v
      else headers_get r name
  end.

Definition headers_get_default (fields : list (string * string))
           (name default : string) : string :=
  match headers_get fields name with Some v => v | None => default end.

Definition headers_contains (fields : list (string * string))
           (name : string) : bool :=
  match headers_get fields name with Some _ => true | None => false end.

Definition NUL : ascii := ascii_of_nat 0.
Definition CR : ascii := ascii_of_nat 13.
Definition LF : ascii := ascii_of_nat 10.
Definition CRLF : string := String CR (String LF EmptyString).

(** ** [http.server.BaseHTTPRequestHandler] *)

Module BaseHTTPRequestHandler.

Definition default_request_version : string := "HTTP/0.9".
Definition protocol_version : string := "HTTP/1.0".
Definition error_content_type : string := "text/html;charset=utf-8".

(** [responses]: phrase and description of the [http.HTTPStatus] members
    this handler refers to. *)
Definition responses (code : Z) : option (string * string) :=
  if code =? 100 then Some ("Continue", "Request received, please continue")
  else if code =? 200 then Some ("OK", "Request fulfilled, document follows")
  else if code =? 204
       then Some ("No Content", "Request fulfilled, nothing follows")
  else if code =? 205
       then Some ("Reset Content", "Clear input form for further input")
  else if code =? 301
       then Some ("Moved Permanently",
                  "Object moved permanently -- see URI list")
  else if code =? 304
       then Some ("Not Modified",
                  "Document has not changed since given time")
  else if code =? 400
       then Some ("Bad Request", "Bad request syntax or unsupported method")
  else if code =? 404
       then Some ("Not Found", "Nothing matches the given URI")
  else if code =? 414 then Some ("Request-URI Too Long", "URI is too long")
  else if code =? 431
       then Some ("Request Header Fields Too Large",
                  "The server is unwilling to process the request because its header fields are too large")
  else if code =? 501
       then Some ("Not Implemented",
                  "Server does not support this operation")
  else if code =? 505
       then Some ("HTTP Version Not Supported", "Cannot fulfill request")
  else None.

(** [a >= b] on version tuples and on strings. *)
Definition tuple_ge (a b : Z * Z) : bool :=
  (fst b <? fst a) || ((fst a =? fst b) && (snd b <=? snd a)).

Definition str_ge (a b : string) : bool := String.leb b a.

Section Methods.

Variable env : Env.

(** [self.end_headers] and [getattr(self, mname)]: looked up on the
    instance, so they are whatever the most derived class defines. *)
Variable self_end_headers : handler -> handler.
Variable self_getattr : string -> option (handler -> handler).

Definition log_request (code : Z) (st : handler) : handler :=
  log_message (LogRequest code) st.

Definition log_error (code : Z) (message : string) (st : handler)
  : handler :=
  log_message (LogError code message) st.

Definition send_response_only (code : Z) (message : option string)
           (st : handler) : handler :=
  if negb (String.eqb (request_version st) "HTTP/0.9") then
    let message :=
      match message with
      | Some m => m
      | None => match responses code with
                | Some (phrase, _) => phrase
                | None => ""
                end
      end in
    set_headers_buffer
      (_headers_buffer st ++ [StatusLine protocol_version code message])
      st
  else st.

Definition send_header (keyword value : string) (st : handler)
  : handler :=
  let st :=
    if negb (String.eqb (request_version st) "HTTP/0.9")
    then set_headers_buffer
           (_headers_buffer st ++ [HeaderLine keyword value]) st
    else st in
  if String.eqb (Py.lower keyword) "connection" then
    if String.eqb (Py.lower value) "close"
    then set_close_connection true st
    else if String.eqb (Py.lower value) "keep-alive"
         then set_close_connection false st
         else st
  else st.

(** The buffer is joined and written in one piece, then emptied. *)
Definition flush_headers (st : handler) : handler :=
  set_headers_buffer [] (wfile_write (Head (_headers_buffer st)) st).

Definition end_headers (st : handler) : handler :=
  if negb (String.eqb (request_version st) "HTTP/0.9") then
    flush_headers
      (set_headers_buffer (_headers_buffer st ++ [BlankLine]) st)
  else st.

Definition send_response (code : Z) (message : option string)
           (st : handler) : handler :=
  let st := log_request code st in
  let st := send_response_only code message st in
  let st := send_header "Server" (version_string env) st in
  send_header "Date" (date_time_string env None) st.

Definition send_error (code : Z) (message explain : option string)
           (st : handler) : handler :=
  let '(shortmsg, longmsg) :=
    match responses code with
    | Some p => p
    | None => ("???", "???")
    end in
  let message := match message with Some m => m | None => shortmsg end in
  let explain := match explain with Some e => e | None => longmsg end in
  let st := log_error code message st in
  let st := send_response code (Some message) st in
  let st := send_header "Connection" "close" st in
  let body :=
    if (200 <=? code)
       && negb ((code =? 204) || (code =? 205) || (code =? 304))
    then Some (error_page env code message explain)
    else None in
  let st :=
    match body with
    | Some b =>
        let st := send_header "Content-Type" error_content_type st in
        send_header "Content-Length" (Py.str (Py.len b)) st
    | None => st
    end in
  let st := self_end_headers st in
  match body with
  | Some b =>
      if negb (match command st with
               | Some c => String.eqb c "HEAD"
               | None => false
               end)
         && negb (String.eqb b "")
      then wfile_write (Body b) st
      else st
  | None => st
  end.

Definition handle_expect_100 (st : handler) : bool * handler :=
  let st := send_response_only 100 None st in
  let st := self_end_headers st in
  (true, st).

(** The [try] block of [parse_request]: the version string of a request
    line to its base number and its pair of integers; [None] when
    [ValueError] or [IndexError] is raised. *)
Definition parse_version (version : string)
  : option (string * (Z * Z)) :=
  if negb (Py.startswith version "HTTP/") then None
  else
    match Py.split1 version "/" with
    | [_; base_version_number] =>
        match Py.split base_version_number "." with
        | [major; minor] =>
            match int_of_str env major, int_of_str env minor with
            | Some x, Some y => Some (base_version_number, (x, y))
            | _, _ => None
            end
        | _ => None
        end
    | _ => None
    end.

(** [parse_request], first part: [if len(words) >= 3]. *)
Definition parse_request_version (words : list string) (st : handler)
  : bool * handler :=
  if (3 <=? List.length words)%nat then
    let version := List.last words "" in
    match parse_version version with
    | None =>
        (false,
         send_error 400
           (Some ("Bad request version (" ++ repr env version ++ ")"))
           None st)
    | Some (base_version_number, version_number) =>
        let st :=
          if tuple_ge version_number (1, 1)
             && str_ge protocol_version "HTTP/1.1"
          then set_close_connection false st
          else st in
        if tuple_ge version_number (2, 0) then
          (false,
           send_error 505
             (Some ("Invalid HTTP version (" ++ base_version_number
                    ++ ")"))
             None st)
        else (true, set_request_version version st)
    end
  else (true, st).

(** [parse_request], last part: from [parse_headers] on. *)
Definition parse_request_headers (fields : parsed_headers)
           (st : handler) : bool * handler :=
  match fields with
  | LineTooLong err =>
      (false, send_error 431 (Some "Line too long") (Some err) st)
  | HTTPException err =>
      (false, send_error 431 (Some "Too many headers") (Some err) st)
  | HeadersOk fields =>
      let st := set_headers fields st in
      let conntype := headers_get_default fields "Connection" "" in
      let st :=
        if String.eqb (Py.lower conntype) "close"
        then set_close_connection true st
        else if String.eqb (Py.lower conntype) "keep-alive"
                && str_ge protocol_version "HTTP/1.1"
             then set_close_connection false st
             else st in
      let expect := headers_get_default fields "Expect" "" in
      if String.eqb (Py.lower expect) "100-continue"
         && str_ge protocol_version "HTTP/1.1"
         && str_ge (request_version st) "HTTP/1.1"
      then
        let '(ok, st) := handle_expect_100 st in
        if negb ok then (false, st) else (true, st)
      else (true, st)
  end.

Definition parse_request (req : request) (st : handler)
  : bool * handler :=
  let st := set_command None st in
  let st := set_request_version default_request_version st in
  let st := set_close_connection true st in
  let requestline := Py.rstrip (raw_requestline req) CRLF in
  let st := set_requestline requestline st in
  let words := Py.split_ws requestline in
  if (List.length words =? 0)%nat then (false, st)
  else
    let '(ok, st) := parse_request_version words st in
    if negb ok then (false, st)
    else if negb ((2 <=? List.length words)%nat
                  && (List.length words <=? 3)%nat)
    then
      (false,
       send_error 400
         (Some ("Bad request syntax (" ++ repr env requestline ++ ")"))
         None st)
    else
      let command := List.nth 0 words "" in
      let path := List.nth 1 words "" in
      let st :=
        if (List.length words =? 2)%nat
        then set_close_connection true st
        else st in
      if (List.length words =? 2)%nat && negb (String.eqb command "GET")
      then
        (false,
         send_error 400
           (Some ("Bad HTTP/0.9 request type (" ++ repr env command
                  ++ ")"))
           None st)
      else
        let st := set_command (Some command) st in
        let st := set_path path st in
        let st :=
          if Py.startswith path "//"
          then set_path ("/" ++ Py.lstrip path "/") st
          else st in
        parse_request_headers (rfile_headers req) st.

(** A read or write that times out is not part of the model. *)
Definition handle_one_request (req : request) (st : handler)
  : handler :=
  if 65536 <? Py.len (raw_requestline req) then
    let st := set_requestline "" st in
    let st := set_request_version "" st in
    let st := set_command (Some "") st in
    send_error 414 None None st
  else if String.eqb (raw_requestline req) "" then
    set_close_connection true st
  else
    let '(ok, st) := parse_request req st in
    if negb ok then st
    else
      match command st with
      | None => st
      | Some c =>
          let mname := "do_" ++ c in
          match self_getattr mname with
          | None =>
              send_error 501
                (Some ("Unsupported method (" ++ repr env c ++ ")"))
                None st
          | Some method => method st
          end
      end.

End Methods.

End BaseHTTPRequestHandler.

(** ** [http.server.SimpleHTTPRequestHandler] *)

(** What [send_head] hands back to be copied: the file it opened (with the
    path it was opened under) or the in-memory listing page. *)
Inductive stream : Type :=
| FileStream (name : string) (f : file_object)
| BytesIO (data : string).

Definition read (s : stream) : string :=
  match s with
  | FileStream _ f => f_data f
  | BytesIO data => data
  end.

(** [self.path], for the methods that also hold a local [path]. *)
Definition handler_path (st : handler) : string := path st.

Module SimpleHTTPRequestHandler.

Section Methods.

Variable env : Env.

(** Looked up on the instance: the subclass overrides both. *)
Variable self_end_headers : handler -> handler.
Variable self_extensions_map : Py.dict.

Local Abbreviation send_response :=
  (BaseHTTPRequestHandler.send_response env).
Local Abbreviation send_header := BaseHTTPRequestHandler.send_header.
Local Abbreviation send_error :=
  (BaseHTTPRequestHandler.send_error env self_end_headers).

Definition guess_type (path : string) : string :=
  let '(base, ext) := posixpath.splitext path in
  if Py.contains self_extensions_map ext then
    match Py.get self_extensions_map ext with
    | Some t => t
    | None => ""
    end
  else
    let ext := Py.lower ext in
    if Py.contains self_extensions_map ext then
      match Py.get self_extensions_map ext with
      | Some t => t
      | None => ""
      end
    else
      match mimetypes_guess_type env path with
      | Some guess =>
          if negb (String.eqb guess "") then guess
          else "application/octet-stream"
      | None => "application/octet-stream"
      end.

(** The [for word in words] loop of [translate_path]. *)
Fixpoint translate_words (words : list string) (path : string)
  : string :=
  match words with
  | [] => path
  | word :: rest =>
      if negb (String.eqb (posixpath.dirname word) "")
         || String.eqb word posixpath.curdir
         || String.eqb word posixpath.pardir
      then translate_words rest path
      else translate_words rest (posixpath.join path word)
  end.

Definition translate_path (directory path : string) : string :=
  let path := List.nth 0 (Py.split1 path "?") "" in
  let path := List.nth 0 (Py.split1 path "#") "" in
  let trailing_slash := Py.endswith (Py.rstrip_ws path) "/" in
  let path := unquote env path in
  let path := posixpath.normpath path in
  let words := Py.split path "/" in
  let words := List.filter (fun w => negb (String.eqb w "")) words in
  let path := translate_words words directory in
  if trailing_slash then path ++ "/" else path.

(** [list.sort(key=lambda a: a.lower())]: by the code points of the
    keys, and stable: names with equal keys keep their order.  A name is
    put before the first name of the sorted rest whose key is not below
    its own. *)
Fixpoint insert_by_lower (a : string) (l : list string) : list string :=
  match l with
  | [] => [a]
  | b :: r =>
      if String.ltb (Py.lower b) (Py.lower a) then b :: insert_by_lower a r
      else a :: l
  end.

Definition sort_by_lower (l : list string) : list string :=
  List.fold_right insert_by_lower [] l.

(** The [for name in list] loop of [list_directory]: every entry is
    probed with [isdir] and [islink]. *)
Fixpoint probe_entries (path : string) (names : list string)
         (st : handler) : list (string * bool * bool) * handler :=
  match names with
  | [] => ([], st)
  | name :: rest =>
      let fullname := posixpath.join path name in
      let st := fs_call (FsIsdir fullname) st in
      let st := fs_call (FsIslink fullname) st in
      let '(entries, st) := probe_entries path rest st in
      ((name, os_path_isdir env fullname, os_path_islink env fullname)
         :: entries, st)
  end.

Definition list_directory (path : string) (st : handler)
  : option stream * handler :=
  let st := fs_call (FsListdir path) st in
  match os_listdir env path with
  | None =>
      (None,
       send_error 404 (Some "No permission to list directory") None st)
  | Some list =>
      let list := sort_by_lower list in
      let '(entries, st) := probe_entries path list st in
      let enc := filesystemencoding env in
      match listing_page env (handler_path st) path entries with
      | None => (None, raise_uncaught UnicodeEncodeError st)
      | Some encoded =>
          let st := send_response 200 None st in
          let st :=
            send_header "Content-type" ("text/html; charset=" ++ enc) st in
          let st :=
            send_header "Content-Length" (Py.str (Py.len encoded)) st in
          let st := self_end_headers st in
          (Some (BytesIO encoded), st)
      end
  end.

(** The [for index in "index.html", "index.htm"] loop of [send_head];
    [None] is its [else] branch. *)
Fixpoint find_index (names : list string) (path : string)
         (st : handler) : option string * handler :=
  match names with
  | [] => (None, st)
  | index :: rest =>
      let index := posixpath.join path index in
      let st := fs_call (FsIsfile index) st in
      if os_path_isfile env index then (Some index, st)
      else find_index rest path st
  end.

(** [send_head] from [ctype = self.guess_type(path)] on. *)
Definition send_head_file (path : string) (st : handler)
  : option stream * handler :=
  let ctype := guess_type path in
  if Py.endswith path "/" then
    (None, send_error 404 (Some "File not found") None st)
  else
    let st := fs_call (FsOpen path) st in
    match open_rb env path with
    | OpenRaises OSError =>
        (None, send_error 404 (Some "File not found") None st)
    | OpenRaises e => (None, raise_uncaught e st)
    | Opened f =>
        if headers_contains (headers st) "If-Modified-Since"
           && negb (headers_contains (headers st) "If-None-Match")
           && not_modified_since env
                (headers_get_default (headers st) "If-Modified-Since" "")
                (st_mtime f)
        then
          let st := send_response 304 None st in
          let st := self_end_headers st in
          (None, st)
        else
          let st := send_response 200 None st in
          let st := send_header "Content-type" ctype st in
          let st := send_header "Content-Length" (Py.str (st_size f)) st in
          let st :=
            send_header "Last-Modified"
              (date_time_string env (Some (st_mtime f))) st in
          let st := self_end_headers st in
          (Some (FileStream path f), st)
    end.

Definition send_head (st : handler) : option stream * handler :=
  let path := translate_path (directory st) (handler_path st) in
  let st := fs_call (FsIsdir path) st in
  if os_path_isdir env path then
    match urlsplit_path env (handler_path st) with
    | None => (None, raise_uncaught ValueError st)
    | Some parts_path =>
        if negb (Py.endswith parts_path "/") then
          let st := send_response 301 None st in
          let new_url := redirect_url env (handler_path st) in
          let st := send_header "Location" new_url st in
          let st := send_header "Content-Length" "0" st in
          let st := self_end_headers st in
          (None, st)
        else
          match find_index ["index.html"; "index.htm"] path st with
          | (Some index, st) => send_head_file index st
          | (None, st) => list_directory path st
          end
    end
  else send_head_file path st.

(** [copyfile(f, self.wfile)]: all of the source is written out.  The
    [Body] chunk stands for the bytes of the writes [shutil.copyfileobj]
    makes, one for each block read: none at all for an empty source. *)
Definition copyfile (source : stream) (st : handler) : handler :=
  wfile_write (Body (read source)) st.

Definition do_GET (st : handler) : handler :=
  match send_head st with
  | (Some f, st) => copyfile f st
  | (None, st) => st
  end.

Definition do_HEAD (st : handler) : handler :=
  match send_head st with
  | (Some f, st) => st
  | (None, st) => st
  end.

End Methods.

End SimpleHTTPRequestHandler.

(** ** [server.py] *)

Module CORSHTTPRequestHandler.

Definition extensions_map : Py.dict :=
  [ ("", "application/octet-stream");
    (".html", "text/html");
    (".js", "application/javascript");
    (".mjs", "application/javascript");
    (".css", "text/css");
    (".json", "application/json");
    (".png", "image/png");
    (".jpg", "image/jpeg");
    (".gif", "image/gif");
    (".svg", "image/svg+xml");
    (".wav", "audio/wav");
    (".mp3", "audio/mpeg");
    (".wasm", "application/wasm");
    (".epub", "application/epub+zip");
    (".onnx", "application/octet-stream") ].

Local Abbreviation send_header := BaseHTTPRequestHandler.send_header.

Definition end_headers (st : handler) : handler :=
  let st := send_header "Access-Control-Allow-Origin" "*" st in
  let st :=
    send_header "Access-Control-Allow-Methods" "GET, POST, OPTIONS" st in
  let st := send_header "Access-Control-Allow-Headers" "*" st in
  BaseHTTPRequestHandler.end_headers st.

Section Methods.

Variable env : Env.

(** The inherited methods, with [self] an instance of this class. *)
Definition send_response :=
  BaseHTTPRequestHandler.send_response env.
Definition send_error :=
  BaseHTTPRequestHandler.send_error env end_headers.
Definition guess_type :=
  SimpleHTTPRequestHandler.guess_type env extensions_map.
Definition translate_path := SimpleHTTPRequestHandler.translate_path env.
Definition send_head :=
  SimpleHTTPRequestHandler.send_head env end_headers extensions_map.
Definition do_GET :=
  SimpleHTTPRequestHandler.do_GET env end_headers extensions_map.
Definition do_HEAD :=
  SimpleHTTPRequestHandler.do_HEAD env end_headers extensions_map.

Definition do_OPTIONS (st : handler) : handler :=
  let st := send_response 200 None st in
  end_headers st.

(** [getattr(self, mname)] for the [do_*] names: the class and its
    bases define these three. *)
Definition getattr (mname : string) : option (handler -> handler) :=
  if String.eqb mname "do_GET" then Some do_GET
  else if String.eqb mname "do_HEAD" then Some do_HEAD
  else if String.eqb mname "do_OPTIONS" then Some do_OPTIONS
  else None.

Definition parse_request :=
  BaseHTTPRequestHandler.parse_request env end_headers.
Definition handle_one_request :=
  BaseHTTPRequestHandler.handle_one_request env end_headers getattr.

(** [handle]: the requests of one connection in turn, while the
    connection is kept open and no exception leaves [handle_one_request];
    when [rfile] is exhausted [readline] returns the empty line. *)
Fixpoint handle_loop (rfile : list request) (st : handler) : handler :=
  match rfile with
  | [] =>
      handle_one_request
        {| raw_requestline := ""; rfile_headers := HeadersOk [] |} st
  | req :: rest =>
      let st := handle_one_request req st in
      match uncaught st with
      | Some _ => st
      | None =>
          if negb (close_connection st) then handle_loop rest st else st
      end
  end.

Definition handle (rfile : list request) (st : handler) : handler :=
  let st := set_close_connection true st in
  handle_loop rfile st.

End Methods.

End CORSHTTPRequestHandler.

(** What the process meets while it runs, besides the requests' own
    environment: where the script is, whether [os.chdir] and the
    construction of the [TCPServer] (bind and listen) succeed or raise
    [OSError], what standard output takes, the connections clients make,
    in order, each with the environment it is handled in, and whether the
    operator then interrupts.

    - [stdout_accepts text] tells whether [print(text)] returns: it
      raises [UnicodeEncodeError] when the encoding of standard output has
      no code for a character of the text;
    - [stdout_flushes] tells whether the flush of standard output
      succeeds when the interpreter shuts down: it fails when what was
      printed is still buffered and the pipe it goes to has been closed.

    An interrupt that arrives while a connection is handled shows as a
    [KeyboardInterrupt] that leaves the handler. *)
Inductive serve_end : Type :=
| StillServing
| CtrlC.

Record World : Type := {
  abspath_file : string;
  os_chdir : string -> bool;
  server_bind : string -> Z -> bool;
  stdout_accepts : string -> bool;
  stdout_flushes : bool;
  accepted : list (Env * list request);
  interrupt : serve_end
}.

(** What the process does, in order; [Stdout] is a text printed, [Serve]
    one connection handled, with everything written to its socket,
    [HandleError] the server's report of an exception that left the
    handler, [WebbrowserOpen] the call of [webbrowser.open], whatever
    comes of it. *)
Inductive event : Type :=
| Chdir (dir : string)
| Bind (host : string) (port : Z)
| Stdout (text : string)
| WebbrowserOpen (url : string)
| ServeForever
| Serve (response : list chunk)
| HandleError (e : exception)
| ServerClose.

Inductive outcome : Type :=
| Returned
| Raised (e : exception)
| Blocked.

Definition PORT : Z := 8090.

Definition DIRECTORY (w : World) : string :=
  posixpath.dirname (posixpath.dirname (abspath_file w)).

(** The text of the start-up banner around the URL, and the farewell. The
    strings printed hold the UTF-8 bytes of the source text. *)
Definition banner (url : string) : string :=
  "
╔══════════════════════════════════════════════════════════════════╗
║                                                                  ║
║   📚 EPUB to Audiobook Converter                                 ║
║                                                                  ║
║   Server running at: " ++ Py.ljust url 40 ++ " ║
║                                                                  ║
║   Press Ctrl+C to stop the server                               ║
║                                                                  ║
╚══════════════════════════════════════════════════════════════════╝
        ".

Definition farewell : string :=
  String LF (String LF "👋 Server stopped. Goodbye!").

(** One connection in [socketserver]'s loop ([_handle_request_noblock]):
    a new handler instance, constructed with [directory=DIRECTORY]; an
    [Exception] that leaves the handler is reported by [handle_error] and
    the loop goes on; any other exception is raised again.  The result is
    what happened and the exception raised again, if any. *)
Definition process_request (dir : string) (conn : Env * list request)
  : list event * option exception :=
  let '(env, rfile) := conn in
  let st := CORSHTTPRequestHandler.handle env rfile (new_handler dir) in
  match uncaught st with
  | None => ([Serve (wfile st)], None)
  | Some e =>
      if is_Exception e then ([Serve (wfile st); HandleError e], None)
      else ([Serve (wfile st)], Some e)
  end.

(** [serve_forever] on the connections that come in, in order: the loop
    ends with the first exception a connection raises again. *)
Fixpoint serve_forever (dir : string) (conns : list (Env * list request))
  : list event * option exception :=
  match conns with
  | [] => ([], None)
  | conn :: rest =>
      match process_request dir conn with
      | (events, Some e) => (events, Some e)
      | (events, None) =>
          let '(more, raised) := serve_forever dir rest in
          ((events ++ more)%list, raised)
      end
  end.

(** The [with] block closes the server however it is left; the
    constructor of [TCPServer] closes it when the bind fails. *)
Definition run_server (w : World) : list event * outcome :=
  let dir := DIRECTORY w in
  if negb (os_chdir w dir) then ([Chdir dir], Raised OSError)
  else if negb (server_bind w "" PORT)
  then ([Chdir dir; Bind "" PORT; ServerClose], Raised OSError)
  else
    let url := "http://localhost:" ++ Py.str PORT ++ "/web/" in
    if negb (stdout_accepts w (banner url))
    then ([Chdir dir; Bind "" PORT; ServerClose], Raised UnicodeEncodeError)
    else
      let '(served, raised) := serve_forever dir (accepted w) in
      let trace :=
        ([Chdir dir; Bind "" PORT; Stdout (banner url); WebbrowserOpen url;
          ServeForever] ++ served)%list in
      let goodbye :=
        if stdout_accepts w farewell
        then ((trace ++ [Stdout farewell; ServerClose])%list, Returned)
        else ((trace ++ [ServerClose])%list, Raised UnicodeEncodeError) in
      match raised with
      | Some KeyboardInterrupt => goodbye
      | Some e => ((trace ++ [ServerClose])%list, Raised e)
      | None =>
          match interrupt w with
          | CtrlC => goodbye
          | StillServing => (trace, Blocked)
          end
      end.

(** [if __name__ == "__main__": run_server()]: the exit status of the
    process, if it exits.  An exception that reaches the top level ends
    the process with status 1, but for [KeyboardInterrupt], on which the
    interpreter kills itself with the signal.  When the interpreter shuts
    down it flushes standard output, and the status is 120 when that
    fails. *)
Definition exit_status (o : outcome) : option Z :=
  match o with
  | Returned => Some 0
  | Raised KeyboardInterrupt => None
  | Raised _ => Some 1
  | Blocked => None
  end.

Definition is_stdout (e : event) : bool :=
  match e with Stdout _ => true | _ => false end.

Definition finalize (w : World) (trace : list event) (status : option Z)
  : option Z :=
  match status with
  | Some code =>
      if existsb is_stdout trace && negb (stdout_flushes w) then Some 120
      else Some code
  | None => None
  end.

Definition main (w : World) : list event * option Z :=
  let '(trace, o) := run_server w in (trace, finalize w trace (exit_status o)).

(** ** A concrete environment

    A project root [/srv/ebookta] that holds [web/index.html],
    [web/app.js], [web/Guide.HTML], [web/.html], [notes.txt] and
    [LICENSE], and next to it, outside the root, [/srv/secret.txt]. *)

Module Sample.

Definition root : string := "/srv/ebookta".

Definition index_html : file_object :=
  {| f_data := "<html></html>"; st_size := 13; st_mtime := 1700000000 |}.
Definition app_js : file_object :=
  {| f_data := "export {};"; st_size := 10; st_mtime := 1700000001 |}.
Definition guide_html : file_object :=
  {| f_data := "<p>guide</p>"; st_size := 12; st_mtime := 1700000002 |}.
Definition notes_txt : file_object :=
  {| f_data := "notes"; st_size := 5; st_mtime := 1700000003 |}.
Definition secret_txt : file_object :=
  {| f_data := "secret"; st_size := 6; st_mtime := 1700000004 |}.
Definition dot_html : file_object :=
  {| f_data := "<p>hidden</p>"; st_size := 13; st_mtime := 1700000005 |}.
Definition license : file_object :=
  {| f_data := "MIT"; st_size := 3; st_mtime := 1700000006 |}.

Definition files : list (string * file_object) :=
  [ ("/srv/ebookta/web/index.html", index_html);
    ("/srv/ebookta/web/app.js", app_js);
    ("/srv/ebookta/web/Guide.HTML", guide_html);
    ("/srv/ebookta/web/.html", dot_html);
    ("/srv/ebookta/notes.txt", notes_txt);
    ("/srv/ebookta/LICENSE", license);
    ("/srv/secret.txt", secret_txt) ].

Definition dirs : list (string * list string) :=
  [ ("/srv", ["ebookta"; "secret.txt"]);
    ("/srv/ebookta", ["web"; "notes.txt"; "LICENSE"]);
    ("/srv/ebookta/", ["web"; "notes.txt"; "LICENSE"]);
    ("/srv/ebookta/web", ["index.html"; "app.js"; "Guide.HTML"; ".html"]);
    ("/srv/ebookta/web/", ["index.html"; "app.js"; "Guide.HTML"; ".html"]) ].

Fixpoint lookup {A : Type} (l : list (string * A)) (k : string)
  : option A :=
  match l with
  | [] => None
  | (k', v) :: r => if String.eqb k' k then Some v else lookup r k
  end.

Definition is_digit (c : ascii) : bool :=
  (48 <=? Py.code c)%N && (Py.code c <=? 57)%N.

Fixpoint digits_value (s : string) (acc : Z) : option Z :=
  match s with
  | EmptyString => Some acc
  | String c r =>
      if is_digit c
      then digits_value r (10 * acc + Z.of_N (Py.code c) - 48)
      else None
  end.

(** [int] on plain decimal numerals. *)
Definition int (s : string) : option Z :=
  if String.eqb s "" then None else digits_value s 0.

(** [mimetypes] knowing one type, for [.txt]. *)
Definition guess (p : string) : option string :=
  if String.eqb (Py.lower (snd (posixpath.splitext p))) ".txt"
  then Some "text/plain" else None.

Definition env : Env :=
  {| os_path_isdir := fun p =>
       match lookup dirs p with Some _ => true | None => false end;
     os_path_isfile := fun p =>
       match lookup files p with Some _ => true | None => false end;
     os_path_islink := fun _ => false;
     open_rb := fun p =>
       if Py.among p NUL then OpenRaises ValueError
       else match lookup files p with
            | Some f => Opened f
            | None => OpenRaises OSError
            end;
     os_listdir := lookup dirs;
     unquote := fun p => p;
     urlsplit_path := fun p => Some (List.nth 0 (Py.split1 p "?") "");
     redirect_url := fun p => p ++ "/";
     mimetypes_guess_type := guess;
     int_of_str := int;
     repr := fun s => "'" ++ s ++ "'";
     version_string := "SimpleHTTP/0.6 Python/3.11.2";
     date_time_string := fun _ => "Thu, 01 Jan 2026 00:00:00 GMT";
     not_modified_since := fun _ _ => false;
     error_page := fun code message _ =>
       "Error code: " ++ Py.str code ++ ", message: " ++ message;
     filesystemencoding := "utf-8";
     listing_page := fun p _ entries =>
       Some ("Directory listing for " ++ p ++ ": "
             ++ Py.join ", " (List.map (fun e => fst (fst e)) entries)) |}.

(** The bytes of a request line as a client sends it. *)
Definition request_of (requestline : string) : request :=
  {| raw_requestline := requestline ++ CRLF;
     rfile_headers := HeadersOk [("Host", "localhost:8090")] |}.

(** A request for the path that is a slash and a NUL character. *)
Definition nul_request : request :=
  request_of ("GET /" ++ String NUL "" ++ " HTTP/1.1").

(** The handler after [parse_request] on a request line. *)
Definition parsed (requestline : string) : handler :=
  snd (CORSHTTPRequestHandler.parse_request env (request_of requestline)
         (new_handler root)).

(** The script at [/srv/ebookta/web/server.py], a start-up that succeeds,
    three connections and then the interrupt. *)
Definition connections : list (Env * list request) :=
  [ (env, [request_of "GET /web/missing.xyz HTTP/1.1"]);
    (env, [request_of "OPTIONS /anything HTTP/1.1"]);
    (env, [request_of "GET /web/index.html HTTP/1.1"]) ].

Definition world : World :=
  {| abspath_file := "/srv/ebookta/web/server.py";
     os_chdir := fun _ => true;
     server_bind := fun _ _ => true;
     stdout_accepts := fun _ => true;
     stdout_flushes := true;
     accepted := connections;
     interrupt := CtrlC |}.


(** The same, with no directory to change to. *)
Definition world_no_root : World :=
  {| abspath_file := "/srv/ebookta/web/server.py";
     os_chdir := fun _ => false;
     server_bind := fun _ _ => true;
     stdout_accepts := fun _ => true;
     stdout_flushes := true;
     accepted := connections;
     interrupt := CtrlC |}.




(** The tree with a symbolic link in the root: [link.txt] there names
    [/srv/secret.txt], the file next to the root.  The operating system
    follows the link when the path is tested or opened, so the path and
    the path it resolves to ([os.path.realpath]) give the same file. *)
Definition links : list (string * string) :=
  [ ("/srv/ebookta/link.txt", "/srv/secret.txt") ].

Definition realpath (p : string) : string :=
  match lookup links p with
  | Some target => target
  | None => p
  end.

Definition env_linked : Env :=
  {| os_path_isdir := fun p => os_path_isdir env (realpath p);
     os_path_isfile := fun p => os_path_isfile env (realpath p);
     os_path_islink := fun p =>
       match lookup links p with Some _ => true | None => false end;
     open_rb := fun p => open_rb env (realpath p);
     os_listdir := fun p =>
       if String.eqb p "/srv/ebookta" || String.eqb p "/srv/ebookta/"
       then Some ["web"; "notes.txt"; "LICENSE"; "link.txt"]
       else os_listdir env p;
     unquote := unquote env;
     urlsplit_path := urlsplit_path env;
     redirect_url := redirect_url env;
     mimetypes_guess_type := mimetypes_guess_type env;
     int_of_str := int_of_str env;
     repr := repr env;
     version_string := version_string env;
     date_time_string := date_time_string env;
     not_modified_since := not_modified_since env;
     error_page := error_page env;
     filesystemencoding := filesystemencoding env;
     listing_page := listing_page env |}.

End Sample.

(** ** What the claims speak of *)

(** The three headers [end_headers] adds, as lines of a head. *)
Definition cors_headers : list line :=
  [ HeaderLine "Access-Control-Allow-Origin" "*";
    HeaderLine "Access-Control-Allow-Methods" "GET, POST, OPTIONS";
    HeaderLine "Access-Control-Allow-Headers" "*" ].

(** The heads among what was written to a socket. *)
Fixpoint heads (out : list chunk) : list (list line) :=
  match out with
  | [] => []
  | Head ls :: r => ls :: heads r
  | Body _ :: r => heads r
  end.

(** A head holds the three headers. *)
Definition has_cors (ls : list line) : Prop :=
  forall l, In l cors_headers -> In l ls.

(** A head ends with the three headers and the blank line: whatever else
    it holds stands before them. *)
Definition ends_with_cors (ls : list line) : Prop :=
  exists before, ls = (before ++ cors_headers ++ [BlankLine])%list.

(** A head starts with the three headers, before any other header; the
    status line alone may stand before them. *)
Definition starts_with_cors (ls : list line) : Prop :=
  exists status rest,
    (status = [] \/ exists p c m, status = [StatusLine p c m])
    /\ ls = (status ++ cors_headers ++ rest)%list.

(** The first value of a header in a head, field names compared without
    case as HTTP does. *)
Fixpoint header_value (ls : list line) (name : string) : option string :=
  match ls with
  | [] => None
  | HeaderLine k v :: r =>
      if String.eqb (Py.lower k) (Py.lower name) then Some v
      else header_value r name
  | _ :: r => header_value r name
  end.

(** The status code of a head. *)
Definition status_of (ls : list line) : option Z :=
  match ls with
  | StatusLine _ code _ :: _ => Some code
  | _ => None
  end.

(** A plain file or directory name: not empty, not [.] or [..], no
    separator in it. *)
Definition simple_name (w : string) : Prop :=
  w <> "" /\ w <> "." /\ w <> ".."
  /\ ~ In posixpath.sep (list_ascii_of_string w).

(** The paths reached from the root by stepping down only: the root, a
    plain name joined to such a path, such a path with a slash added. *)
Inductive within (root : string) : string -> Prop :=
| within_root : within root root
| within_child p w :
    within root p -> simple_name w -> within root (posixpath.join p w)
| within_slash p : within root p -> within root (p ++ "/").

(** A request path has a [../] segment. *)
Fixpoint has_dotdot_segment (p : string) : bool :=
  match p with
  | EmptyString => false
  | String _ r => Py.startswith p "../" || has_dotdot_segment r
  end.

(** A request the handler accepts: short enough, and [parse_request]
    succeeds on a fresh handler and leaves it as [st]. *)
Definition accepts (env : Env) (dir : string) (req : request)
           (st : handler) : Prop :=
  Py.len (raw_requestline req) <= 65536
  /\ CORSHTTPRequestHandler.parse_request env req (new_handler dir)
     = (true, st).

(** Every head written so far ends with the three headers and the blank
    line. *)
Definition heads_ok (st : handler) : Prop :=
  Forall ends_with_cors (heads (wfile st)).

(** The request was read as HTTP/0.9, the version whose replies have no
    status line and no headers. *)
Definition v09 (st : handler) : bool :=
  String.eqb (request_version st) "HTTP/0.9".

(** The status line and the two headers [send_response] starts every head
    with. *)
Definition response_start (env : Env) (code : Z) (message : string)
  : list line :=
  [ StatusLine "HTTP/1.0" code message;
    HeaderLine "Server" (version_string env);
    HeaderLine "Date" (date_time_string env None) ].

(** Nothing was written, buffered, logged or asked of the file system
    between two states of a handler. *)
Definition same_io (st st' : handler) : Prop :=
  wfile st' = wfile st /\ _headers_buffer st' = _headers_buffer st
  /\ fs_trace st' = fs_trace st /\ log st' = log st
  /\ directory st' = directory st /\ uncaught st' = uncaught st.

(** The error page [send_error] writes and the head it comes with. *)
Definition error_head (env : Env) (code : Z) (message page : string)
  : list line :=
  (response_start env code message
   ++ [ HeaderLine "Connection" "close";
        HeaderLine "Content-Type" "text/html;charset=utf-8";
        HeaderLine "Content-Length" (Py.str (Py.len page)) ]
   ++ cors_headers ++ [BlankLine])%list.

(** The head [send_head] writes for a file it serves. *)
Definition file_head (env : Env) (ctype : string) (f : file_object)
  : list line :=
  (response_start env 200 "OK"
   ++ [ HeaderLine "Content-type" ctype;
        HeaderLine "Content-Length" (Py.str (st_size f));
        HeaderLine "Last-Modified"
          (date_time_string env (Some (st_mtime f))) ]
   ++ cors_headers ++ [BlankLine])%list.

(** A body, unless it is empty. *)
Definition body_of (page : string) : list chunk :=
  if String.eqb page "" then [] else [Body page].

(** Several file system calls in a row. *)
Definition fs_calls (evs : list fs_event) (st : handler) : handler :=
  List.fold_left (fun s e => fs_call e s) evs st.

Definition is_open (e : fs_event) : bool :=
  match e with FsOpen _ => true | _ => false end.

(** The table of the specification, section 6, row by row. *)
Definition spec_mime_table : list (string * string) :=
  [ ("", "application/octet-stream");
    (".html", "text/html");
    (".js", "application/javascript");
    (".mjs", "application/javascript");
    (".css", "text/css");
    (".json", "application/json");
    (".png", "image/png");
    (".jpg", "image/jpeg");
    (".gif", "image/gif");
    (".svg", "image/svg+xml");
    (".wav", "audio/wav");
    (".mp3", "audio/mpeg");
    (".wasm", "application/wasm");
    (".epub", "application/epub+zip");
    (".onnx", "application/octet-stream") ].

(** The Content-Type of a response: that of its first head. *)
Definition content_type_of (out : list chunk) : option string :=
  match heads out with
  | ls :: _ => header_value ls "Content-Type"
  | [] => None
  end.

(** The status of a response: that of its first head. *)
Definition status_of_response (out : list chunk) : option Z :=
  match heads out with
  | ls :: _ => status_of ls
  | [] => None
  end.

(** A response carries the three headers. *)
Definition response_has_cors (out : list chunk) : Prop :=
  exists ls, In ls (heads out) /\ has_cors ls.

(** A body is the bytes of a file opened within the root, or a page the
    handler makes up itself: an error page or a directory listing. *)
Definition served_ok (env : Env) (dir data : string) : Prop :=
  (exists q f, within dir q /\ open_rb env q = Opened f /\ data = f_data f)
  \/ (exists code message explain,
        data = error_page env code message explain)
  \/ (exists p d entries, listing_page env p d entries = Some data).

(** Every file opened so far is within the root, and so is the source of
    every body written so far. *)
Definition safe (env : Env) (dir : string) (st : handler) : Prop :=
  (forall q, In (FsOpen q) (fs_trace st) -> within dir q)
  /\ (forall data, In (Body data) (wfile st) -> served_ok env dir data).

(** What [send_head] hands back to be copied is within the root. *)
Definition stream_ok (env : Env) (dir : string) (r : option stream)
  : Prop :=
  match r with
  | Some s => served_ok env dir (read s)
  | None => True
  end.

(** The responses among the events of a run: what was written to each
    connection. *)
Definition responses_of (trace : list event) : list (list chunk) :=
  List.flat_map
    (fun e => match e with Serve r => [r] | _ => [] end) trace.



(** ** What the further properties speak of *)

(** A string without the character [c]. *)
Definition lacks (c : ascii) (s : string) : Prop :=
  ~ In c (list_ascii_of_string s).

(** A name of dots only. *)
Fixpoint all_dots (s : string) : bool :=
  match s with
  | EmptyString => true
  | String c r => Ascii.eqb c "." && all_dots r
  end.

(** The test of [send_head] for a reply from the client's cache: an
    If-Modified-Since header, no If-None-Match header, and a date that is
    not before the file's last change. *)
Definition not_modified (env : Env) (st : handler) (f : file_object)
  : bool :=
  headers_contains (headers st) "If-Modified-Since"
  && negb (headers_contains (headers st) "If-None-Match")
  && not_modified_since env
       (headers_get_default (headers st) "If-Modified-Since" "")
       (st_mtime f).

(** The error [parse_request] finds in the version of a request line, with
    its message: 400 for a version that does not parse, 505 for 2.0 and
    above, none otherwise. *)
Definition version_error (env : Env) (version : string)
  : option (Z * string) :=
  match BaseHTTPRequestHandler.parse_version env version with
  | None =>
      Some (400, "Bad request version (" ++ repr env version ++ ")")
  | Some (base_version_number, version_number) =>
      if BaseHTTPRequestHandler.tuple_ge version_number (2, 0)
      then Some (505, "Invalid HTTP version (" ++ base_version_number ++ ")")
      else None
  end.

(** The entries [list_directory] shows for the names of a directory: each
    name with its [isdir] and [islink] flag. *)
Definition entries_of (env : Env) (path : string) (names : list string)
  : list (string * bool * bool) :=
  List.map
    (fun name =>
       (name, os_path_isdir env (posixpath.join path name),
        os_path_islink env (posixpath.join path name)))
    names.





(** The connection is to be closed after the request. *)
Definition closing (st : handler) : Prop := close_connection st = true.

(** The request was read as HTTP/0.9 and nothing written so far is a
    head. *)
Definition headless (st : handler) : Prop :=
  v09 st = true /\ heads (wfile st) = [].

(** A chunk of body bytes. *)
Definition is_body (c : chunk) : bool :=
  match c with
  | Body _ => true
  | Head _ => false
  end.

(** The command is HEAD and no body was written so far. *)
Definition bodiless (st : handler) : Prop :=
  command st = Some "HEAD" /\ existsb is_body (wfile st) = false.

(** A header whose name starts with [Access-Control-]. *)
Definition is_cors_header (l : line) : bool :=
  match l with
  | HeaderLine k _ => Py.startswith (Py.lower k) "access-control-"
  | _ => false
  end.

(** A reply with a version: one head, first, that starts with the status
    line, goes on with headers none of which is a CORS header, and ends
    with the three CORS headers and the blank line; what follows is body
    bytes. *)
Definition well_formed_response (out : list chunk) : Prop :=
  exists code message headers bodies,
    out = Head (StatusLine "HTTP/1.0" code message
                :: headers ++ cors_headers ++ [BlankLine])%list
          :: bodies
    /\ existsb is_cors_header headers = false
    /\ heads bodies = [].

(** Nothing written, nothing buffered, no exception: the handler before
    it replies, whatever the version of the request. *)
Definition pristine (st : handler) : Prop :=
  wfile st = [] /\ _headers_buffer st = [] /\ uncaught st = None.

(** The three stages of a reply: nothing sent or buffered; the status
    line buffered, with headers after it; the head written. *)
Definition unanswered (st : handler) : Prop :=
  v09 st = false /\ wfile st = [] /\ _headers_buffer st = []
  /\ uncaught st = None.

Definition started (st : handler) : Prop :=
  v09 st = false /\ wfile st = [] /\ uncaught st = None
  /\ exists code message headers,
       _headers_buffer st = StatusLine "HTTP/1.0" code message :: headers
       /\ existsb is_cors_header headers = false.

Definition answered (st : handler) : Prop :=
  uncaught st = None /\ well_formed_response (wfile st).

(** What handling a request ends in: one reply, or nothing written and an
    exception that left the handler. *)
Definition replied (st : handler) : Prop :=
  answered st \/ (wfile st = [] /\ uncaught st <> None).

(** The server socket is bound. *)
Definition is_bind (e : event) : bool :=
  match e with Bind _ _ => true | _ => false end.

(** ** Further cases of the concrete environment *)

Module Cases.

(** [Sample.env] with a cache validator that holds for one date, and a
    request that sends that date. *)
Definition env_validating : Env :=
  {| os_path_isdir := os_path_isdir Sample.env;
     os_path_isfile := os_path_isfile Sample.env;
     os_path_islink := os_path_islink Sample.env;
     open_rb := open_rb Sample.env;
     os_listdir := os_listdir Sample.env;
     unquote := unquote Sample.env;
     urlsplit_path := urlsplit_path Sample.env;
     redirect_url := redirect_url Sample.env;
     mimetypes_guess_type := mimetypes_guess_type Sample.env;
     int_of_str := int_of_str Sample.env;
     repr := repr Sample.env;
     version_string := version_string Sample.env;
     date_time_string := date_time_string Sample.env;
     not_modified_since := fun since _ =>
       String.eqb since "Thu, 01 Jan 2026 00:00:00 GMT";
     error_page := error_page Sample.env;
     filesystemencoding := filesystemencoding Sample.env;
     listing_page := listing_page Sample.env |}.

Definition revalidation : request :=
  {| raw_requestline := "GET /web/app.js HTTP/1.1" ++ CRLF;
     rfile_headers :=
       HeadersOk
         [ ("Host", "localhost:8090");
           ("If-Modified-Since", "Thu, 01 Jan 2026 00:00:00 GMT") ] |}.

(** [Sample.env] with directories that cannot be listed. *)
Definition env_unlistable : Env :=
  {| os_path_isdir := os_path_isdir Sample.env;
     os_path_isfile := os_path_isfile Sample.env;
     os_path_islink := os_path_islink Sample.env;
     open_rb := open_rb Sample.env;
     os_listdir := fun _ => None;
     unquote := unquote Sample.env;
     urlsplit_path := urlsplit_path Sample.env;
     redirect_url := redirect_url Sample.env;
     mimetypes_guess_type := mimetypes_guess_type Sample.env;
     int_of_str := int_of_str Sample.env;
     repr := repr Sample.env;
     version_string := version_string Sample.env;
     date_time_string := date_time_string Sample.env;
     not_modified_since := not_modified_since Sample.env;
     error_page := error_page Sample.env;
     filesystemencoding := filesystemencoding Sample.env;
     listing_page := listing_page Sample.env |}.

(** [Sample.env] with a [urlsplit] that refuses a URL with an opening
    bracket, and a listing page that cannot be encoded when the request
    path holds the escape of a lone surrogate. *)
Fixpoint occurs (needle s : string) : bool :=
  Py.startswith s needle
  || match s with
     | EmptyString => false
     | String _ r => occurs needle r
     end.

Definition env_strict : Env :=
  {| os_path_isdir := os_path_isdir Sample.env;
     os_path_isfile := os_path_isfile Sample.env;
     os_path_islink := os_path_islink Sample.env;
     open_rb := open_rb Sample.env;
     os_listdir := os_listdir Sample.env;
     unquote := unquote Sample.env;
     urlsplit_path := fun p =>
       if occurs "[" p then None else urlsplit_path Sample.env p;
     redirect_url := redirect_url Sample.env;
     mimetypes_guess_type := mimetypes_guess_type Sample.env;
     int_of_str := int_of_str Sample.env;
     repr := repr Sample.env;
     version_string := version_string Sample.env;
     date_time_string := date_time_string Sample.env;
     not_modified_since := not_modified_since Sample.env;
     error_page := error_page Sample.env;
     filesystemencoding := filesystemencoding Sample.env;
     listing_page := fun p d entries =>
       if occurs "%ED%A0%80" p then None
       else listing_page Sample.env p d entries |}.

(** [Sample.env] at the time of an interrupt: the [open] of a file is
    where the [KeyboardInterrupt] is raised.  And a run in which the
    second of three connections is handled at that time, and no interrupt
    comes after them. *)
Definition env_interrupted : Env :=
  {| os_path_isdir := os_path_isdir Sample.env;
     os_path_isfile := os_path_isfile Sample.env;
     os_path_islink := os_path_islink Sample.env;
     open_rb := fun _ => OpenRaises KeyboardInterrupt;
     os_listdir := os_listdir Sample.env;
     unquote := unquote Sample.env;
     urlsplit_path := urlsplit_path Sample.env;
     redirect_url := redirect_url Sample.env;
     mimetypes_guess_type := mimetypes_guess_type Sample.env;
     int_of_str := int_of_str Sample.env;
     repr := repr Sample.env;
     version_string := version_string Sample.env;
     date_time_string := date_time_string Sample.env;
     not_modified_since := not_modified_since Sample.env;
     error_page := error_page Sample.env;
     filesystemencoding := filesystemencoding Sample.env;
     listing_page := listing_page Sample.env |}.

Definition world_interrupted : World :=
  {| abspath_file := "/srv/ebookta/web/server.py";
     os_chdir := fun _ => true;
     server_bind := fun _ _ => true;
     stdout_accepts := fun _ => true;
     stdout_flushes := true;
     accepted :=
       [ (Sample.env, [Sample.request_of "GET /web/index.html HTTP/1.1"]);
         (env_interrupted, [Sample.request_of "GET /web/app.js HTTP/1.1"]);
         (Sample.env, [Sample.request_of "GET /LICENSE HTTP/1.1"]) ];
     interrupt := StillServing |}.

(** The handler after [parse_request] on a request, in an environment. *)
Definition parsed_in (env : Env) (req : request) : handler :=
  snd (CORSHTTPRequestHandler.parse_request env req
         (new_handler Sample.root)).

(** A request line of 65537 characters, which is as much as
    [readline(65537)] returns, and a blank one. *)
Definition long_request : request :=
  {| raw_requestline := "GET /" ++ Py.repeat "a" (Z.to_nat 65532);
     rfile_headers := HeadersOk [] |}.

Definition blank_request : request :=
  {| raw_requestline := CRLF; rfile_headers := HeadersOk [] |}.

End Cases.

(** ** Proofs *)

Ltac destr :=
  repeat match goal with
         | |- context [if ?b then _ else _] => destruct b eqn:?
         | |- context [match ?x with _ => _ end] => destruct x eqn:?
         end.

Ltac destr2 :=
  repeat (cbn beta iota zeta;
          match goal with
          | |- context [if ?b then _ else _] => destruct b eqn:?
          | |- context [match ?x with _ => _ end] => destruct x eqn:?
          end).

Ltac dead_branches :=
  repeat match goal with
         | H : _ && false = true |- _ =>
             rewrite andb_false_r in H; discriminate H
         | H : _ && false && _ = true |- _ =>
             rewrite andb_false_r in H; discriminate H
         end.

(** Reduction of the record operations only. *)
Ltac fields :=
  cbn [directory requestline command path request_version headers
       close_connection _headers_buffer wfile log fs_trace uncaught
       set_requestline set_command set_path set_request_version
       set_headers set_close_connection set_headers_buffer
       wfile_write log_message fs_call raise_uncaught handler_path
       new_handler] in *.

(** *** What the header primitives change *)

Lemma heads_app a b : heads (a ++ b) = (heads a ++ heads b)%list.
Proof. induction a as [|[ls|d] a IH]; simpl; rewrite ?IH; reflexivity. Qed.

Lemma send_response_only_wfile code message st :
  wfile (BaseHTTPRequestHandler.send_response_only code message st)
  = wfile st.
Proof.
  unfold BaseHTTPRequestHandler.send_response_only. destr; reflexivity.
Qed.

Lemma send_header_wfile keyword value st :
  wfile (BaseHTTPRequestHandler.send_header keyword value st) = wfile st.
Proof. unfold BaseHTTPRequestHandler.send_header. destr; reflexivity. Qed.

Lemma send_response_wfile env code message st :
  wfile (BaseHTTPRequestHandler.send_response env code message st)
  = wfile st.
Proof.
  unfold BaseHTTPRequestHandler.send_response.
  rewrite !send_header_wfile, send_response_only_wfile. reflexivity.
Qed.

Lemma send_header_version k v st :
  request_version (BaseHTTPRequestHandler.send_header k v st)
  = request_version st.
Proof. unfold BaseHTTPRequestHandler.send_header. destr; reflexivity. Qed.

Lemma send_header_buffer k v st :
  _headers_buffer (BaseHTTPRequestHandler.send_header k v st)
  = if v09 st then _headers_buffer st
    else (_headers_buffer st ++ [HeaderLine k v])%list.
Proof.
  unfold BaseHTTPRequestHandler.send_header, v09.
  destruct (String.eqb (request_version st) "HTTP/0.9"); cbn [negb];
    destr; reflexivity.
Qed.

(** What the overridden [end_headers] writes: nothing for HTTP/0.9, else
    the buffer followed by the three headers and the blank line. *)
Lemma end_headers_wfile st :
  wfile (CORSHTTPRequestHandler.end_headers st)
  = if v09 st then wfile st
    else (wfile st
          ++ [Head (_headers_buffer st ++ cors_headers ++ [BlankLine])])%list.
Proof.
  unfold CORSHTTPRequestHandler.end_headers,
    BaseHTTPRequestHandler.end_headers, BaseHTTPRequestHandler.flush_headers.
  rewrite !send_header_version. unfold v09.
  destruct (String.eqb (request_version st) "HTTP/0.9") eqn:E; cbn [negb].
  - rewrite !send_header_wfile. reflexivity.
  - fields.
    rewrite !send_header_wfile, !send_header_buffer. unfold v09.
    rewrite !send_header_version, E.
    rewrite <- !app_assoc. reflexivity.
Qed.

(** *** Every head ends with the three headers *)

Lemma heads_ok_wfile st st' : wfile st' = wfile st -> heads_ok st -> heads_ok st'.
Proof. unfold heads_ok. intros ->. auto. Qed.

Lemma heads_ok_body b st : heads_ok st -> heads_ok (wfile_write (Body b) st).
Proof.
  unfold heads_ok. fields. rewrite heads_app. simpl. rewrite app_nil_r. auto.
Qed.

Lemma heads_ok_end_headers st :
  heads_ok st -> heads_ok (CORSHTTPRequestHandler.end_headers st).
Proof.
  unfold heads_ok. rewrite end_headers_wfile. destruct (v09 st); auto.
  intros H. rewrite heads_app. apply Forall_app. split; auto.
  simpl. constructor; [|constructor]. eexists. reflexivity.
Qed.

Lemma heads_ok_send_header k v st :
  heads_ok st -> heads_ok (BaseHTTPRequestHandler.send_header k v st).
Proof. apply heads_ok_wfile, send_header_wfile. Qed.

Lemma heads_ok_send_response_only c m st :
  heads_ok st -> heads_ok (BaseHTTPRequestHandler.send_response_only c m st).
Proof. apply heads_ok_wfile, send_response_only_wfile. Qed.

Lemma heads_ok_send_response env c m st :
  heads_ok st -> heads_ok (BaseHTTPRequestHandler.send_response env c m st).
Proof. apply heads_ok_wfile, send_response_wfile. Qed.

Lemma heads_ok_set_requestline v st : heads_ok st -> heads_ok (set_requestline v st).
Proof. exact (fun H => H). Qed.
Lemma heads_ok_set_command v st : heads_ok st -> heads_ok (set_command v st).
Proof. exact (fun H => H). Qed.
Lemma heads_ok_set_path v st : heads_ok st -> heads_ok (set_path v st).
Proof. exact (fun H => H). Qed.
Lemma heads_ok_set_request_version v st :
  heads_ok st -> heads_ok (set_request_version v st).
Proof. exact (fun H => H). Qed.
Lemma heads_ok_set_headers v st : heads_ok st -> heads_ok (set_headers v st).
Proof. exact (fun H => H). Qed.
Lemma heads_ok_set_close_connection v st :
  heads_ok st -> heads_ok (set_close_connection v st).
Proof. exact (fun H => H). Qed.
Lemma heads_ok_set_headers_buffer v st :
  heads_ok st -> heads_ok (set_headers_buffer v st).
Proof. exact (fun H => H). Qed.
Lemma heads_ok_log_message e st : heads_ok st -> heads_ok (log_message e st).
Proof. exact (fun H => H). Qed.
Lemma heads_ok_fs_call e st : heads_ok st -> heads_ok (fs_call e st).
Proof. exact (fun H => H). Qed.
Lemma heads_ok_raise_uncaught e st :
  heads_ok st -> heads_ok (raise_uncaught e st).
Proof. exact (fun H => H). Qed.

Create HintDb cors.
#[local] Hint Resolve heads_ok_body heads_ok_end_headers heads_ok_send_header
  heads_ok_send_response_only heads_ok_send_response heads_ok_set_requestline
  heads_ok_set_command heads_ok_set_path heads_ok_set_request_version
  heads_ok_set_headers heads_ok_set_close_connection
  heads_ok_set_headers_buffer heads_ok_log_message heads_ok_fs_call
  heads_ok_raise_uncaught : cors.

Section HeadsOfTheHandler.

Variable env : Env.

Local Abbreviation eh := CORSHTTPRequestHandler.end_headers.
Local Abbreviation emap := CORSHTTPRequestHandler.extensions_map.

Lemma heads_ok_send_error code message explain st :
  heads_ok st ->
  heads_ok (BaseHTTPRequestHandler.send_error env eh code message explain st).
Proof.
  intros H. unfold BaseHTTPRequestHandler.send_error,
    BaseHTTPRequestHandler.log_error.
  destr; auto 12 with cors.
Qed.

Hint Resolve heads_ok_send_error : cors.

Lemma heads_ok_parse_request_version words st ok st' :
  BaseHTTPRequestHandler.parse_request_version env eh words st = (ok, st') ->
  heads_ok st -> heads_ok st'.
Proof.
  unfold BaseHTTPRequestHandler.parse_request_version. intros E H.
  revert E. destr; intros E; inversion E; subst; auto 6 with cors.
Qed.

Lemma heads_ok_parse_request_headers fields st ok st' :
  BaseHTTPRequestHandler.parse_request_headers env eh fields st = (ok, st') ->
  heads_ok st -> heads_ok st'.
Proof.
  unfold BaseHTTPRequestHandler.parse_request_headers,
    BaseHTTPRequestHandler.handle_expect_100. intros E H.
  revert E. destr; intros E; inversion E; subst;
    repeat match goal with
           | X : (_, _) = (_, _) |- _ => inversion X; subst; clear X
           end; auto 8 with cors.
Qed.

Lemma heads_ok_parse_request req st ok st' :
  BaseHTTPRequestHandler.parse_request env eh req st = (ok, st') ->
  heads_ok st -> heads_ok st'.
Proof.
  unfold BaseHTTPRequestHandler.parse_request. intros E H.
  revert E. destr; intros E;
    try (apply heads_ok_parse_request_headers in E; auto 8 with cors);
    try (inversion E; subst; auto 8 with cors);
    match goal with
    | X : BaseHTTPRequestHandler.parse_request_version _ _ _ _ = _ |- _ =>
        apply heads_ok_parse_request_version in X; auto 8 with cors
    end.
Qed.

Lemma heads_ok_probe_entries p names st entries st' :
  SimpleHTTPRequestHandler.probe_entries env p names st = (entries, st') ->
  heads_ok st -> heads_ok st'.
Proof.
  revert st entries st'. induction names as [|n names IH]; simpl; intros st entries st' E H.
  - inversion E; subst; auto.
  - destruct (SimpleHTTPRequestHandler.probe_entries env p names _) as [es s1] eqn:E1.
    inversion E; subst. eapply IH; eauto with cors.
Qed.

Lemma heads_ok_list_directory p st r st' :
  SimpleHTTPRequestHandler.list_directory env eh p st = (r, st') ->
  heads_ok st -> heads_ok st'.
Proof.
  unfold SimpleHTTPRequestHandler.list_directory. intros E H.
  revert E. destr; intros E; inversion E; subst; auto 8 with cors;
    match goal with
    | X : SimpleHTTPRequestHandler.probe_entries _ _ _ _ = _ |- _ =>
        apply heads_ok_probe_entries in X; auto 8 with cors
    end.
Qed.

Lemma heads_ok_find_index names p st r st' :
  SimpleHTTPRequestHandler.find_index env names p st = (r, st') ->
  heads_ok st -> heads_ok st'.
Proof.
  revert st. induction names as [|n names IH]; simpl; intros st E H.
  - inversion E; subst; auto.
  - destruct (os_path_isfile env _).
    + inversion E; subst; auto with cors.
    + eapply IH; eauto with cors.
Qed.

Lemma heads_ok_send_head_file p st r st' :
  SimpleHTTPRequestHandler.send_head_file env eh emap p st = (r, st') ->
  heads_ok st -> heads_ok st'.
Proof.
  unfold SimpleHTTPRequestHandler.send_head_file. intros E H.
  revert E. destr; intros E; inversion E; subst; auto 10 with cors.
Qed.

Lemma heads_ok_send_head st r st' :
  SimpleHTTPRequestHandler.send_head env eh emap st = (r, st') ->
  heads_ok st -> heads_ok st'.
Proof.
  unfold SimpleHTTPRequestHandler.send_head. intros E H.
  revert E. destr; intros E.
  - inversion E; subst; auto 10 with cors.
  - apply heads_ok_send_head_file in E; auto.
    eapply heads_ok_find_index; eauto with cors.
  - apply heads_ok_list_directory in E; auto.
    eapply heads_ok_find_index; eauto with cors.
  - inversion E; subst; auto with cors.
  - apply heads_ok_send_head_file in E; auto with cors.
Qed.

Lemma heads_ok_do_GET st :
  heads_ok st -> heads_ok (CORSHTTPRequestHandler.do_GET env st).
Proof.
  unfold CORSHTTPRequestHandler.do_GET, SimpleHTTPRequestHandler.do_GET,
    SimpleHTTPRequestHandler.copyfile. intros H.
  destruct (SimpleHTTPRequestHandler.send_head env eh emap st) as [[f|] s1] eqn:E;
    apply heads_ok_send_head in E; auto with cors.
Qed.

Lemma heads_ok_do_HEAD st :
  heads_ok st -> heads_ok (CORSHTTPRequestHandler.do_HEAD env st).
Proof.
  unfold CORSHTTPRequestHandler.do_HEAD, SimpleHTTPRequestHandler.do_HEAD.
  intros H.
  destruct (SimpleHTTPRequestHandler.send_head env eh emap st) as [[f|] s1] eqn:E;
    apply heads_ok_send_head in E; auto with cors.
Qed.

Lemma heads_ok_do_OPTIONS st :
  heads_ok st -> heads_ok (CORSHTTPRequestHandler.do_OPTIONS env st).
Proof.
  unfold CORSHTTPRequestHandler.do_OPTIONS, CORSHTTPRequestHandler.send_response.
  auto with cors.
Qed.

Lemma heads_ok_getattr mname method st :
  CORSHTTPRequestHandler.getattr env mname = Some method ->
  heads_ok st -> heads_ok (method st).
Proof.
  unfold CORSHTTPRequestHandler.getattr.
  destr; intros E; inversion E; subst;
    auto using heads_ok_do_GET, heads_ok_do_HEAD, heads_ok_do_OPTIONS.
Qed.

Lemma heads_ok_handle_one_request req st :
  heads_ok st ->
  heads_ok (CORSHTTPRequestHandler.handle_one_request env req st).
Proof.
  unfold CORSHTTPRequestHandler.handle_one_request,
    BaseHTTPRequestHandler.handle_one_request. intros H.
  destruct (65536 <? Py.len (raw_requestline req)); [auto 8 with cors|].
  destruct (String.eqb (raw_requestline req) ""); [auto with cors|].
  destruct (BaseHTTPRequestHandler.parse_request env eh req st)
    as [ok s1] eqn:E.
  apply heads_ok_parse_request in E; auto.
  destruct ok; cbn [negb]; auto.
  destruct (command s1); auto.
  destruct (CORSHTTPRequestHandler.getattr env _) eqn:G.
  - eapply heads_ok_getattr; eauto.
  - auto with cors.
Qed.

Lemma heads_ok_handle_loop rfile st :
  heads_ok st -> heads_ok (CORSHTTPRequestHandler.handle_loop env rfile st).
Proof.
  revert st. induction rfile as [|req rest IH]; simpl; intros st H.
  - apply heads_ok_handle_one_request; auto.
  - destruct (uncaught _); [|destruct (negb _)];
      auto using heads_ok_handle_one_request.
Qed.

Lemma heads_ok_handle rfile dir :
  heads_ok (CORSHTTPRequestHandler.handle env rfile (new_handler dir)).
Proof.
  unfold CORSHTTPRequestHandler.handle. apply heads_ok_handle_loop.
  constructor.
Qed.

End HeadsOfTheHandler.

(** *** The primitives on a request read with a version other than
    HTTP/0.9 *)

Lemma send_header_eq k v st :
  String.eqb (Py.lower k) "connection" = false ->
  v09 st = false ->
  BaseHTTPRequestHandler.send_header k v st
  = set_headers_buffer (_headers_buffer st ++ [HeaderLine k v]) st.
Proof.
  unfold BaseHTTPRequestHandler.send_header, v09. intros -> ->. reflexivity.
Qed.

Lemma send_header_connection_close st :
  v09 st = false ->
  BaseHTTPRequestHandler.send_header "Connection" "close" st
  = set_close_connection true
      (set_headers_buffer
         (_headers_buffer st ++ [HeaderLine "Connection" "close"]) st).
Proof.
  unfold BaseHTTPRequestHandler.send_header, v09. intros ->. reflexivity.
Qed.

Lemma send_response_only_eq code message st :
  v09 st = false ->
  BaseHTTPRequestHandler.send_response_only code (Some message) st
  = set_headers_buffer
      (_headers_buffer st
       ++ [StatusLine BaseHTTPRequestHandler.protocol_version code message])
      st.
Proof.
  unfold BaseHTTPRequestHandler.send_response_only, v09. intros ->.
  reflexivity.
Qed.

Lemma send_response_only_default code phrase description st :
  v09 st = false ->
  BaseHTTPRequestHandler.responses code = Some (phrase, description) ->
  BaseHTTPRequestHandler.send_response_only code None st
  = set_headers_buffer
      (_headers_buffer st
       ++ [StatusLine BaseHTTPRequestHandler.protocol_version code phrase])
      st.
Proof.
  unfold BaseHTTPRequestHandler.send_response_only, v09. intros -> ->.
  reflexivity.
Qed.

Lemma v09_send_header k v st :
  v09 (BaseHTTPRequestHandler.send_header k v st) = v09 st.
Proof. unfold v09. rewrite send_header_version. reflexivity. Qed.

Ltac v09_side H :=
  try reflexivity; rewrite ?v09_send_header; fields; exact H.

Lemma end_headers_eq st :
  v09 st = false ->
  CORSHTTPRequestHandler.end_headers st
  = set_headers_buffer []
      (wfile_write
         (Head (_headers_buffer st ++ cors_headers ++ [BlankLine])%list) st).
Proof.
  intros H. unfold CORSHTTPRequestHandler.end_headers.
  rewrite !send_header_eq by v09_side H.
  unfold BaseHTTPRequestHandler.end_headers,
    BaseHTTPRequestHandler.flush_headers. unfold v09 in H. fields.
  rewrite H. cbn [negb]. fields. rewrite <- !app_assoc. reflexivity.
Qed.

Lemma send_header_09 k v st :
  String.eqb (Py.lower k) "connection" = false ->
  v09 st = true ->
  BaseHTTPRequestHandler.send_header k v st = st.
Proof.
  unfold BaseHTTPRequestHandler.send_header, v09. intros -> ->. reflexivity.
Qed.

Lemma end_headers_09 st :
  v09 st = true -> CORSHTTPRequestHandler.end_headers st = st.
Proof.
  intros H. unfold CORSHTTPRequestHandler.end_headers.
  rewrite !send_header_09 by v09_side H.
  unfold BaseHTTPRequestHandler.end_headers. unfold v09 in H. rewrite H.
  reflexivity.
Qed.

Section ResponsesOfTheHandler.

Variable env : Env.

Local Abbreviation eh := CORSHTTPRequestHandler.end_headers.
Local Abbreviation emap := CORSHTTPRequestHandler.extensions_map.

Lemma send_response_eq code message st :
  v09 st = false ->
  BaseHTTPRequestHandler.send_response env code (Some message) st
  = set_headers_buffer (_headers_buffer st ++ response_start env code message)
      (log_message (LogRequest code) st).
Proof.
  intros H. unfold BaseHTTPRequestHandler.send_response,
    BaseHTTPRequestHandler.log_request.
  rewrite send_response_only_eq by exact H.
  rewrite !send_header_eq by v09_side H.
  fields. rewrite <- !app_assoc. reflexivity.
Qed.

Lemma send_response_default code phrase description st :
  v09 st = false ->
  BaseHTTPRequestHandler.responses code = Some (phrase, description) ->
  BaseHTTPRequestHandler.send_response env code None st
  = set_headers_buffer (_headers_buffer st ++ response_start env code phrase)
      (log_message (LogRequest code) st).
Proof.
  intros H R. unfold BaseHTTPRequestHandler.send_response,
    BaseHTTPRequestHandler.log_request.
  rewrite (@send_response_only_default code phrase description) by auto.
  rewrite !send_header_eq by v09_side H.
  fields. rewrite <- !app_assoc. reflexivity.
Qed.

End ResponsesOfTheHandler.

(** *** What an accepted request leaves behind *)

Section Accepted.

Variable env : Env.

Local Abbreviation eh := CORSHTTPRequestHandler.end_headers.
Local Abbreviation emap := CORSHTTPRequestHandler.extensions_map.

(** The class speaks HTTP/1.0: the branches that keep a connection open or
    answer [Expect: 100-continue] are never taken. *)
Lemma protocol_below_11 :
  BaseHTTPRequestHandler.str_ge BaseHTTPRequestHandler.protocol_version
    "HTTP/1.1" = false.
Proof. reflexivity. Qed.

Lemma parse_request_version_ok words st st' :
  BaseHTTPRequestHandler.parse_request_version env eh words st = (true, st') ->
  same_io st st' /\ close_connection st' = close_connection st
  /\ command st' = command st.
Proof.
  unfold BaseHTTPRequestHandler.parse_request_version, same_io.
  rewrite protocol_below_11.
  destr2; intros E; try discriminate E; dead_branches;
    inversion E; subst; fields; repeat split; reflexivity.
Qed.

Lemma parse_request_headers_ok fields st st' :
  BaseHTTPRequestHandler.parse_request_headers env eh fields st = (true, st') ->
  same_io st st' /\ command st' = command st
  /\ (close_connection st = true -> close_connection st' = true).
Proof.
  unfold BaseHTTPRequestHandler.parse_request_headers, same_io.
  rewrite protocol_below_11.
  destr2; intros E; try discriminate E; dead_branches;
    inversion E; subst; fields; repeat split; auto.
Qed.

Lemma parse_request_frame req st0 st1 :
  BaseHTTPRequestHandler.parse_request env eh req st0 = (true, st1) ->
  same_io st0 st1 /\ close_connection st1 = true
  /\ exists c, command st1 = Some c.
Proof.
  unfold BaseHTTPRequestHandler.parse_request.
  cbn beta iota zeta.
  destruct (_ =? 0)%nat; [discriminate|].
  destruct (BaseHTTPRequestHandler.parse_request_version _ _ _ _)
    as [ok s1] eqn:V.
  destruct ok; cbn [negb]; [|discriminate].
  apply parse_request_version_ok in V. destruct V as (V1 & V2 & V3).
  destruct (negb _); [discriminate|].
  destruct (_ && _); [discriminate|].
  unfold same_io in *.
  destruct (Py.startswith _ _); destruct (_ =? 2)%nat; intros E;
    apply parse_request_headers_ok in E; unfold same_io in E; fields;
    destruct E as ((E1 & E2 & E3 & E4 & E5 & E8) & E6 & E7);
    destruct V1 as (V1 & V4 & V5 & V6 & V7 & V8);
    (repeat split; [congruence .. | auto | rewrite E6; eauto]).
Qed.

(** An accepted request starts from a clean slate, in the directory the
    handler was made for. *)
Lemma accepts_clean dir req st :
  accepts env dir req st ->
  wfile st = [] /\ _headers_buffer st = [] /\ fs_trace st = []
  /\ directory st = dir /\ close_connection st = true
  /\ uncaught st = None.
Proof.
  intros [_ E]. apply parse_request_frame in E.
  destruct E as ((E1 & E2 & E3 & E4 & E5 & E8) & E6 & E7).
  repeat split; assumption.
Qed.

(** An accepted request is handed to the method named after its
    command. *)
Lemma handle_one_request_accepted dir req st c :
  accepts env dir req st ->
  command st = Some c ->
  CORSHTTPRequestHandler.handle_one_request env req (new_handler dir)
  = match CORSHTTPRequestHandler.getattr env ("do_" ++ c) with
    | Some method => method st
    | None =>
        BaseHTTPRequestHandler.send_error env eh 501
          (Some ("Unsupported method (" ++ repr env c ++ ")")) None st
    end.
Proof.
  intros [L E] C. unfold CORSHTTPRequestHandler.handle_one_request,
    BaseHTTPRequestHandler.handle_one_request.
  unfold CORSHTTPRequestHandler.parse_request in E.
  destruct (65536 <? _) eqn:T; [apply Z.ltb_lt in T; lia|].
  destruct (String.eqb (raw_requestline req) "") eqn:R.
  - apply String.eqb_eq in R.
    unfold BaseHTTPRequestHandler.parse_request in E. rewrite R in E.
    change (Py.split_ws (Py.rstrip "" CRLF)) with (@nil string) in E.
    discriminate E.
  - rewrite E. cbn [negb]. rewrite C. reflexivity.
Qed.

End Accepted.

(** *** The responses, line by line *)

Section Exact.

Variable env : Env.

Local Abbreviation eh := CORSHTTPRequestHandler.end_headers.
Local Abbreviation emap := CORSHTTPRequestHandler.extensions_map.

Lemma do_OPTIONS_eq st :
  v09 st = false ->
  CORSHTTPRequestHandler.do_OPTIONS env st
  = set_headers_buffer []
      (wfile_write
         (Head (_headers_buffer st ++ response_start env 200 "OK"
                ++ cors_headers ++ [BlankLine])%list)
         (log_message (LogRequest 200) st)).
Proof.
  intros H. unfold CORSHTTPRequestHandler.do_OPTIONS,
    CORSHTTPRequestHandler.send_response.
  rewrite (@send_response_default env 200 "OK" "Request fulfilled, document follows")
    by (exact H || reflexivity).
  rewrite end_headers_eq by exact H.
  fields. rewrite <- !app_assoc. reflexivity.
Qed.

Lemma send_error_eq code short long m st :
  BaseHTTPRequestHandler.responses code = Some (short, long) ->
  (200 <=? code) && negb ((code =? 204) || (code =? 205) || (code =? 304)) = true ->
  v09 st = false ->
  BaseHTTPRequestHandler.send_error env eh code (Some m) None st
  = let page := error_page env code m long in
    let st' :=
      set_headers_buffer []
        (wfile_write (Head (_headers_buffer st ++ error_head env code m page)%list)
           (set_close_connection true
              (log_message (LogRequest code)
                 (log_message (LogError code m) st)))) in
    if negb (match command st with
             | Some c => String.eqb c "HEAD"
             | None => false
             end) && negb (String.eqb page "")
    then wfile_write (Body page) st' else st'.
Proof.
  intros R C H. unfold BaseHTTPRequestHandler.send_error.
  rewrite R, C. cbn beta iota zeta. unfold BaseHTTPRequestHandler.log_error.
  rewrite send_response_eq by exact H.
  rewrite send_header_connection_close by exact H.
  rewrite !send_header_eq by v09_side H.
  rewrite end_headers_eq by exact H.
  fields. unfold error_head, BaseHTTPRequestHandler.error_content_type.
  rewrite <- !app_assoc. cbn [app]. reflexivity.
Qed.

Lemma fs_calls_app evs e st :
  fs_calls (evs ++ [e]) st = fs_call e (fs_calls evs st).
Proof. unfold fs_calls. rewrite fold_left_app. reflexivity. Qed.

Lemma fs_calls_frame evs st :
  wfile (fs_calls evs st) = wfile st
  /\ _headers_buffer (fs_calls evs st) = _headers_buffer st
  /\ request_version (fs_calls evs st) = request_version st
  /\ command (fs_calls evs st) = command st
  /\ headers (fs_calls evs st) = headers st
  /\ log (fs_calls evs st) = log st
  /\ fs_trace (fs_calls evs st) = (fs_trace st ++ evs)%list
  /\ uncaught (fs_calls evs st) = uncaught st.
Proof.
  revert st. induction evs as [|e evs IH]; intros st.
  - cbn. rewrite app_nil_r. repeat split.
  - change (fs_calls (e :: evs) st) with (fs_calls evs (fs_call e st)).
    destruct (IH (fs_call e st)) as (A & B & C & D & E & F & G & U).
    rewrite A, B, C, D, E, F, G, U. fields. rewrite <- app_assoc.
    repeat split.
Qed.

Lemma find_index_calls names p st r st' :
  SimpleHTTPRequestHandler.find_index env names p st = (r, st') ->
  exists evs,
    st' = fs_calls evs st /\ existsb is_open evs = false
    /\ match r with
       | Some index => exists n, In n names /\ index = posixpath.join p n
       | None => True
       end.
Proof.
  revert st. induction names as [|n names IH]; simpl; intros st E.
  - inversion E; subst. exists []. repeat split.
  - destruct (os_path_isfile env _).
    + inversion E; subst. exists [FsIsfile (posixpath.join p n)].
      repeat split. eauto.
    + apply IH in E. destruct E as (evs & E1 & E2 & E3).
      exists (FsIsfile (posixpath.join p n) :: evs). repeat split; auto.
      destruct r; auto. destruct E3 as (m & M1 & M2). eauto.
Qed.

(** [send_head_file] hands back a file only from its last branch. *)
Lemma send_head_file_served p st q f st' :
  SimpleHTTPRequestHandler.send_head_file env eh emap p st
  = (Some (FileStream q f), st') ->
  v09 st = false ->
  q = p /\ open_rb env p = Opened f /\ Py.endswith p "/" = false
  /\ st' = set_headers_buffer []
             (wfile_write
                (Head (_headers_buffer st
                       ++ file_head env
                            (SimpleHTTPRequestHandler.guess_type env emap p)
                            f)%list)
                (log_message (LogRequest 200) (fs_call (FsOpen p) st))).
Proof.
  unfold SimpleHTTPRequestHandler.send_head_file. intros E H.
  destruct (Py.endswith p "/"); [discriminate E|].
  destruct (open_rb env p) as [f0|[]]; try discriminate E.
  destruct (_ && _); [discriminate E|].
  inversion E; subst. repeat split.
  rewrite (@send_response_default env 200 "OK"
             "Request fulfilled, document follows")
    by (exact H || reflexivity).
  rewrite !send_header_eq by v09_side H.
  rewrite end_headers_eq by exact H.
  fields. unfold file_head. rewrite <- !app_assoc. reflexivity.
Qed.

(** [list_directory] never hands back a file. *)
Lemma list_directory_no_file p st q f st' :
  SimpleHTTPRequestHandler.list_directory env eh p st
  <> (Some (FileStream q f), st').
Proof.
  unfold SimpleHTTPRequestHandler.list_directory. destr; congruence.
Qed.

(** When [send_head] hands back a file, it is the translated path or an
    index file in it, it was opened, and the head is written. *)
Lemma send_head_served st q f st' :
  SimpleHTTPRequestHandler.send_head env eh emap st
  = (Some (FileStream q f), st') ->
  v09 st = false ->
  exists evs,
    existsb is_open evs = false
    /\ open_rb env q = Opened f /\ Py.endswith q "/" = false
    /\ st' = set_headers_buffer []
               (wfile_write
                  (Head (_headers_buffer st
                         ++ file_head env
                              (SimpleHTTPRequestHandler.guess_type env emap q)
                              f)%list)
                  (log_message (LogRequest 200)
                     (fs_call (FsOpen q) (fs_calls evs st)))).
Proof.
  unfold SimpleHTTPRequestHandler.send_head. intros E H.
  destruct (os_path_isdir env _).
  - destruct (urlsplit_path env _) as [parts_path|]; [|discriminate E].
    destruct (negb _); [discriminate E|].
    destruct (SimpleHTTPRequestHandler.find_index env _ _ _)
      as [[index|] s1] eqn:F.
    + apply find_index_calls in F. destruct F as (evs & F1 & F2 & _).
      subst s1. apply send_head_file_served in E.
      * destruct E as (-> & O & S & ->).
        exists (FsIsdir
                  (SimpleHTTPRequestHandler.translate_path env (directory st)
                     (handler_path st)) :: evs).
        destruct (fs_calls_frame evs
                    (fs_call (FsIsdir
                      (SimpleHTTPRequestHandler.translate_path env
                         (directory st) (handler_path st))) st))
          as (A & B & _).
        rewrite B. repeat split; auto.
      * destruct (fs_calls_frame evs
                    (fs_call (FsIsdir
                      (SimpleHTTPRequestHandler.translate_path env
                         (directory st) (handler_path st))) st))
          as (_ & _ & C & _).
        unfold v09 in *. rewrite C. exact H.
    + exfalso. eapply list_directory_no_file; eauto.
  - apply send_head_file_served in E; [|exact H].
    destruct E as (-> & O & S & ->).
    exists [FsIsdir
              (SimpleHTTPRequestHandler.translate_path env (directory st)
                 (handler_path st))].
    repeat split; auto.
Qed.

End Exact.

(** *** Serving a file, and finding none *)

Section Serving.

Variable env : Env.

Local Abbreviation eh := CORSHTTPRequestHandler.end_headers.
Local Abbreviation emap := CORSHTTPRequestHandler.extensions_map.

Lemma guess_type_listed q E M :
  In (E, M) emap -> snd (posixpath.splitext q) = E ->
  CORSHTTPRequestHandler.guess_type env q = M.
Proof.
  unfold CORSHTTPRequestHandler.guess_type, SimpleHTTPRequestHandler.guess_type.
  destruct (posixpath.splitext q) as [base ext]. cbn [snd]. intros I ->.
  unfold emap in I. cbn [In] in I.
  repeat (destruct I as [I|I]; [inversion I; subst; reflexivity|]).
  destruct I.
Qed.


Lemma do_GET_served st q f st' :
  SimpleHTTPRequestHandler.send_head env eh emap st
  = (Some (FileStream q f), st') ->
  v09 st = false ->
  wfile (CORSHTTPRequestHandler.do_GET env st)
  = (wfile st
     ++ [Head (_headers_buffer st
               ++ file_head env (CORSHTTPRequestHandler.guess_type env q) f);
         Body (f_data f)])%list.
Proof.
  intros E H. unfold CORSHTTPRequestHandler.do_GET,
    SimpleHTTPRequestHandler.do_GET, SimpleHTTPRequestHandler.copyfile.
  rewrite E. apply send_head_served in E; [|exact H].
  destruct E as (evs & _ & _ & _ & ->).
  destruct (fs_calls_frame evs st) as (A & B & _).
  fields. rewrite A. rewrite <- app_assoc. reflexivity.
Qed.



End Serving.

(** *** Staying within the root *)

Lemma split_no_sep s c :
  Forall (fun w => ~ In c (list_ascii_of_string w)) (Py.split s c).
Proof.
  induction s as [|d r IH]; simpl.
  - constructor; [intros []|constructor].
  - destruct (Ascii.eqb d c) eqn:E.
    + constructor; [intros []|exact IH].
    + destruct (Py.split r c) as [|w ws].
      * constructor; [|constructor]. simpl. intros [H|[]].
        subst. rewrite Ascii.eqb_refl in E. discriminate.
      * inversion IH; subst. constructor; auto. simpl. intros [H|H]; auto.
        subst. rewrite Ascii.eqb_refl in E. discriminate.
Qed.

Section Within.

Variable env : Env.

Local Abbreviation eh := CORSHTTPRequestHandler.end_headers.
Local Abbreviation emap := CORSHTTPRequestHandler.extensions_map.

Lemma translate_words_within dir words p :
  Forall (fun w => w <> "" /\ ~ In posixpath.sep (list_ascii_of_string w)) words ->
  within dir p ->
  within dir (SimpleHTTPRequestHandler.translate_words words p).
Proof.
  intros F. revert p. induction F as [|w ws [N S] F IH]; simpl; intros p W.
  - exact W.
  - destruct (negb (String.eqb (posixpath.dirname w) "")
              || String.eqb w posixpath.curdir
              || String.eqb w posixpath.pardir) eqn:G.
    + apply IH, W.
    + apply IH. apply within_child; [exact W|].
      apply orb_false_iff in G. destruct G as [G G3].
      apply orb_false_iff in G. destruct G as [G1 G2].
      apply String.eqb_neq in G2, G3. repeat split; auto.
Qed.

Lemma translate_path_within dir p :
  within dir (SimpleHTTPRequestHandler.translate_path env dir p).
Proof.
  unfold SimpleHTTPRequestHandler.translate_path.
  match goal with
  | |- within _ (if _ then ?x ++ _ else ?x) =>
      assert (W : within dir x)
  end.
  { apply translate_words_within; [|constructor].
    apply Forall_forall. intros w I. apply filter_In in I. destruct I as [I N].
    split.
    - apply negb_true_iff, String.eqb_neq in N. exact N.
    - pose proof (split_no_sep (posixpath.normpath
          (unquote env (nth 0 (Py.split1 (nth 0 (Py.split1 p "?") "") "#") "")))
          "/") as S.
      rewrite Forall_forall in S. apply S. exact I. }
  destruct (Py.endswith _ _); [apply within_slash|]; exact W.
Qed.


Lemma send_response_only_fs_trace code message st :
  fs_trace (BaseHTTPRequestHandler.send_response_only code message st)
  = fs_trace st.
Proof.
  unfold BaseHTTPRequestHandler.send_response_only. destr; reflexivity.
Qed.

Lemma send_header_fs_trace k v st :
  fs_trace (BaseHTTPRequestHandler.send_header k v st) = fs_trace st.
Proof. unfold BaseHTTPRequestHandler.send_header. destr; reflexivity. Qed.

Lemma send_response_fs_trace code message st :
  fs_trace (BaseHTTPRequestHandler.send_response env code message st)
  = fs_trace st.
Proof.
  unfold BaseHTTPRequestHandler.send_response.
  rewrite !send_header_fs_trace, send_response_only_fs_trace. reflexivity.
Qed.

Lemma end_headers_fs_trace st : fs_trace (eh st) = fs_trace st.
Proof.
  unfold CORSHTTPRequestHandler.end_headers,
    BaseHTTPRequestHandler.end_headers, BaseHTTPRequestHandler.flush_headers.
  destr; fields; rewrite !send_header_fs_trace; reflexivity.
Qed.

Lemma end_headers_bodies st d :
  In (Body d) (wfile (eh st)) -> In (Body d) (wfile st).
Proof.
  rewrite end_headers_wfile. destruct (v09 st); auto.
  intros I. apply in_app_or in I. destruct I as [I|[I|[]]]; auto.
  discriminate I.
Qed.

Lemma safe_frame dir st st' :
  fs_trace st' = fs_trace st ->
  (forall d, In (Body d) (wfile st') -> In (Body d) (wfile st)) ->
  safe env dir st -> safe env dir st'.
Proof.
  intros F W [S1 S2]. split.
  - rewrite F. exact S1.
  - intros d I. apply S2, W, I.
Qed.

Lemma safe_end_headers dir st : safe env dir st -> safe env dir (eh st).
Proof.
  apply safe_frame; [apply end_headers_fs_trace|apply end_headers_bodies].
Qed.

Lemma safe_send_header dir k v st :
  safe env dir st -> safe env dir (BaseHTTPRequestHandler.send_header k v st).
Proof.
  apply safe_frame; [apply send_header_fs_trace|].
  rewrite send_header_wfile. auto.
Qed.

Lemma safe_send_response dir c m st :
  safe env dir st ->
  safe env dir (BaseHTTPRequestHandler.send_response env c m st).
Proof.
  apply safe_frame; [apply send_response_fs_trace|].
  rewrite send_response_wfile. auto.
Qed.

Lemma safe_body dir data st :
  served_ok env dir data -> safe env dir st ->
  safe env dir (wfile_write (Body data) st).
Proof.
  intros D [S1 S2]. split; [exact S1|]. fields. intros d I.
  apply in_app_or in I. destruct I as [I|[I|[]]]; auto.
  inversion I; subst. exact D.
Qed.

Lemma safe_log dir e st : safe env dir st -> safe env dir (log_message e st).
Proof. exact (fun H => H). Qed.

Lemma safe_fs_call dir e st :
  match e with FsOpen q => within dir q | _ => True end ->
  safe env dir st -> safe env dir (fs_call e st).
Proof.
  intros E [S1 S2]. split; [|exact S2]. fields. intros q I.
  apply in_app_or in I. destruct I as [I|[I|[]]]; auto.
  subst. exact E.
Qed.

Ltac safe_steps :=
  repeat match goal with
         | |- safe _ _ (wfile_write (Body (error_page _ _ _ _)) _) =>
             apply safe_body; [right; left; eauto|]
         | |- safe _ _ (CORSHTTPRequestHandler.end_headers _) =>
             apply safe_end_headers
         | |- safe _ _ (BaseHTTPRequestHandler.send_header _ _ _) =>
             apply safe_send_header
         | |- safe _ _ (BaseHTTPRequestHandler.send_response _ _ _ _) =>
             apply safe_send_response
         | |- safe _ _ (log_message _ _) => apply safe_log
         | |- safe _ _ (fs_call (FsOpen _) _) => apply safe_fs_call
         | |- safe _ _ (fs_call _ _) => apply safe_fs_call; [exact I|]
         end.

Lemma safe_send_error dir code message explain st :
  safe env dir st ->
  safe env dir (BaseHTTPRequestHandler.send_error env eh code message explain st).
Proof.
  intros H. unfold BaseHTTPRequestHandler.send_error,
    BaseHTTPRequestHandler.log_error.
  destr; safe_steps; exact H.
Qed.

Lemma safe_probe_entries dir p names st entries st' :
  SimpleHTTPRequestHandler.probe_entries env p names st = (entries, st') ->
  safe env dir st -> safe env dir st'.
Proof.
  revert st entries st'. induction names as [|n names IH]; simpl;
    intros st entries st' E H.
  - inversion E; subst; auto.
  - destruct (SimpleHTTPRequestHandler.probe_entries env p names _)
      as [es s1] eqn:E1.
    inversion E; subst. eapply IH; [exact E1|].
    repeat (apply safe_fs_call; [exact I|]). exact H.
Qed.

Lemma safe_list_directory dir p st r st' :
  SimpleHTTPRequestHandler.list_directory env eh p st = (r, st') ->
  safe env dir st -> safe env dir st' /\ stream_ok env dir r.
Proof.
  unfold SimpleHTTPRequestHandler.list_directory. intros E H.
  destruct (os_listdir env p).
  - destruct (SimpleHTTPRequestHandler.probe_entries env p _ _)
      as [es s1] eqn:E1.
    apply (@safe_probe_entries dir) in E1;
      [|apply safe_fs_call; [exact I|exact H]].
    destruct (listing_page env _ _ es) as [encoded|] eqn:L;
      inversion E; subst; split.
    + safe_steps. exact E1.
    + right. right. do 3 eexists. exact L.
    + exact E1.
    + exact I.
  - inversion E; subst. split; [|exact I].
    apply safe_send_error. safe_steps. exact H.
Qed.

Lemma safe_find_index dir names p st r st' :
  SimpleHTTPRequestHandler.find_index env names p st = (r, st') ->
  safe env dir st -> safe env dir st'.
Proof.
  revert st. induction names as [|n names IH]; simpl; intros st E H.
  - inversion E; subst; auto.
  - destruct (os_path_isfile env _).
    + inversion E; subst. apply safe_fs_call; [exact I|exact H].
    + eapply IH; [exact E|]. apply safe_fs_call; [exact I|exact H].
Qed.

Lemma safe_send_head_file dir p st r st' :
  within dir p ->
  SimpleHTTPRequestHandler.send_head_file env eh emap p st = (r, st') ->
  safe env dir st -> safe env dir st' /\ stream_ok env dir r.
Proof.
  unfold SimpleHTTPRequestHandler.send_head_file. intros W E H.
  destruct (Py.endswith p "/").
  { inversion E; subst. split; [|exact I]. apply safe_send_error, H. }
  assert (H1 : safe env dir (fs_call (FsOpen p) st))
    by (apply safe_fs_call; [exact W|exact H]).
  destruct (open_rb env p) as [f|e] eqn:O.
  - destruct (_ && _); inversion E; subst; (split; [|cbn]).
    + safe_steps; [exact W|exact H].
    + exact I.
    + safe_steps; [exact W|exact H].
    + left. do 2 eexists. repeat split; eauto.
  - destruct e; inversion E; subst; (split; [|exact I]);
      [apply safe_send_error|..]; exact H1.
Qed.

Lemma index_names_simple n :
  In n ["index.html"; "index.htm"] -> simple_name n.
Proof.
  intros [<-|[<-|[]]]; repeat split; try discriminate;
    cbn; intros H; repeat (destruct H as [H|H]; [discriminate H|]);
    exact H.
Qed.

Lemma safe_send_head st r st' :
  SimpleHTTPRequestHandler.send_head env eh emap st = (r, st') ->
  safe env (directory st) st ->
  safe env (directory st) st' /\ stream_ok env (directory st) r.
Proof.
  unfold SimpleHTTPRequestHandler.send_head. intros E H.
  pose proof (translate_path_within (directory st) (handler_path st)) as W.
  assert (H1 : safe env (directory st)
                 (fs_call (FsIsdir (SimpleHTTPRequestHandler.translate_path env
                                      (directory st) (handler_path st))) st))
    by (apply safe_fs_call; [exact I|exact H]).
  destruct (os_path_isdir env _).
  - destruct (urlsplit_path env _) as [parts_path|];
      [|inversion E; subst; split; [exact H1|exact I]].
    destruct (negb _).
    + inversion E; subst. split; [|exact I].
      safe_steps. exact H.
    + destruct (SimpleHTTPRequestHandler.find_index env _ _ _)
        as [[index|] s1] eqn:F.
      * assert (H2 : safe env (directory st) s1)
          by (eapply safe_find_index; [exact F|exact H1]).
        apply find_index_calls in F. destruct F as (evs & _ & _ & n & N & ->).
        eapply safe_send_head_file; [|exact E|exact H2].
        apply within_child; [exact W|apply index_names_simple, N].
      * assert (H2 : safe env (directory st) s1)
          by (eapply safe_find_index; [exact F|exact H1]).
        eapply safe_list_directory; [exact E|exact H2].
  - eapply safe_send_head_file; [exact W|exact E|exact H1].
Qed.

Lemma safe_do_GET st :
  safe env (directory st) st ->
  safe env (directory st) (CORSHTTPRequestHandler.do_GET env st).
Proof.
  intros H. unfold CORSHTTPRequestHandler.do_GET,
    SimpleHTTPRequestHandler.do_GET, SimpleHTTPRequestHandler.copyfile.
  destruct (SimpleHTTPRequestHandler.send_head env eh emap st)
    as [[f|] s1] eqn:E; apply safe_send_head in E; auto; destruct E as [E1 E2].
  - apply safe_body; assumption.
  - exact E1.
Qed.

End Within.

(** *** The run of the server *)

Lemma ends_with_cors_has_cors ls : ends_with_cors ls -> has_cors ls.
Proof.
  intros [before ->] l I. apply in_or_app. right. apply in_or_app. left.
  exact I.
Qed.

Lemma responses_of_app a b :
  responses_of (a ++ b) = (responses_of a ++ responses_of b)%list.
Proof. unfold responses_of. apply flat_map_app. Qed.

Lemma process_request_responses dir env rfile :
  responses_of (fst (process_request dir (env, rfile)))
  = [wfile (CORSHTTPRequestHandler.handle env rfile (new_handler dir))].
Proof.
  unfold process_request. destruct (uncaught _) as [e|]; [|reflexivity].
  destruct (is_Exception e); reflexivity.
Qed.

(** The loop on one more connection, when the first does not end it. *)
Lemma serve_forever_cons dir conn rest events :
  process_request dir conn = (events, None) ->
  serve_forever dir (conn :: rest)
  = ((events ++ fst (serve_forever dir rest))%list,
     snd (serve_forever dir rest)).
Proof.
  intros E. cbn [serve_forever]. rewrite E.
  destruct (serve_forever dir rest); reflexivity.
Qed.

(** The loop on connections that follow others, when none of the others
    ends it. *)
Lemma serve_forever_app dir before after :
  snd (serve_forever dir before) = None ->
  serve_forever dir (before ++ after)
  = ((fst (serve_forever dir before) ++ fst (serve_forever dir after))%list,
     snd (serve_forever dir after)).
Proof.
  induction before as [|conn before IH]; cbn [app serve_forever].
  - intros _. destruct (serve_forever dir after); reflexivity.
  - destruct (process_request dir conn) as [events [e|]];
      [intros X; discriminate X|].
    destruct (serve_forever dir before) as [more raised]. cbn [fst snd] in *.
    intros R. rewrite (IH R). rewrite app_assoc. reflexivity.
Qed.

(** What the loop serves is what [handle] wrote for connections that came
    in, on a handler made for the directory. *)
Lemma responses_of_serve_forever dir conns r :
  In r (responses_of (fst (serve_forever dir conns))) ->
  exists env rfile,
    In (env, rfile) conns
    /\ r = wfile (CORSHTTPRequestHandler.handle env rfile (new_handler dir)).
Proof.
  induction conns as [|[env rfile] conns IH]; [intros []|].
  cbn [serve_forever].
  pose proof (process_request_responses dir env rfile) as P.
  destruct (process_request dir (env, rfile)) as [events [e|]];
    cbn [fst] in P.
  - cbn [fst]. rewrite P. intros [<-|[]]. exists env, rfile.
    split; [left|]; reflexivity.
  - destruct (serve_forever dir conns) as [more raised]. cbn [fst] in *.
    rewrite responses_of_app, P. intros [<-|I].
    + exists env, rfile. split; [left|]; reflexivity.
    + destruct (IH I) as (env' & rfile' & I' & ->).
      exists env', rfile'. split; [right; exact I'|reflexivity].
Qed.

(** The events of a run: the change of directory alone; that, the bind
    and the close of a server that could not be set up or announced; or
    the whole start-up, what the loop serves, and an end. *)
Lemma run_server_trace w :
  let dir := DIRECTORY w in
  let url := "http://localhost:8090/web/" in
  fst (run_server w) = [Chdir dir]
  \/ fst (run_server w) = [Chdir dir; Bind "" PORT; ServerClose]
  \/ exists tail,
       fst (run_server w)
       = ([Chdir dir; Bind "" PORT; Stdout (banner url); WebbrowserOpen url;
           ServeForever]
          ++ fst (serve_forever dir (accepted w)) ++ tail)%list
       /\ (tail = [] \/ tail = [ServerClose]
           \/ tail = [Stdout farewell; ServerClose]).
Proof.
  cbn zeta. unfold run_server.
  change ("http://localhost:" ++ Py.str PORT ++ "/web/")
    with "http://localhost:8090/web/".
  destruct (os_chdir w _); cbn [negb]; [|left; reflexivity].
  destruct (server_bind w _ _); cbn [negb]; [|right; left; reflexivity].
  destruct (stdout_accepts w (banner _)); cbn [negb];
    [|right; left; reflexivity].
  right. right.
  destruct (serve_forever (DIRECTORY w) (accepted w)) as [served raised].
  cbn [fst].
  destruct raised as [[]|]; [| | | |destruct (interrupt w)];
    try destruct (stdout_accepts w farewell); cbn [fst];
    rewrite <- ?app_assoc;
    first [ exists [Stdout farewell; ServerClose]; split; [reflexivity|auto]
          | exists [ServerClose]; split; [reflexivity|auto]
          | exists (@nil event); split; [rewrite app_nil_r; reflexivity|auto] ].
Qed.

(** What a run serves is what [serve_forever] serves, if it gets there. *)
Lemma responses_of_run w :
  responses_of (fst (run_server w)) = []
  \/ responses_of (fst (run_server w))
     = responses_of (fst (serve_forever (DIRECTORY w) (accepted w))).
Proof.
  destruct (run_server_trace w) as [->|[->|(tail & -> & T)]];
    [left; reflexivity ..|].
  right. rewrite !responses_of_app.
  destruct T as [->|[->| ->]]; cbn [responses_of flat_map app];
    rewrite app_nil_r; reflexivity.
Qed.

(** Every response of a run is what [handle] wrote for one of the
    connections, on a handler made for the root. *)
Lemma served_response_is_handled w r :
  In r (responses_of (fst (run_server w))) ->
  exists env rfile,
    In (env, rfile) (accepted w)
    /\ r = wfile (CORSHTTPRequestHandler.handle env rfile
                    (new_handler (DIRECTORY w))).
Proof.
  destruct (responses_of_run w) as [-> | ->]; [intros []|].
  apply responses_of_serve_forever.
Qed.

(** The loop opens no browser, binds nothing and prints nothing. *)
Lemma serve_forever_quiet dir conns (f : event -> bool) :
  (forall r, f (Serve r) = false) -> (forall e, f (HandleError e) = false) ->
  List.filter f (fst (serve_forever dir conns)) = [].
Proof.
  intros S H. induction conns as [|[env rfile] conns IH]; [reflexivity|].
  cbn [serve_forever].
  assert (P : List.filter f (fst (process_request dir (env, rfile))) = []).
  { unfold process_request. destruct (uncaught _) as [e|];
      [destruct (is_Exception e)|]; cbn [fst filter]; rewrite ?S, ?H;
      reflexivity. }
  destruct (process_request dir (env, rfile)) as [events [e|]];
    cbn [fst] in *; [exact P|].
  destruct (serve_forever dir conns) as [more raised]. cbn [fst] in *.
  rewrite filter_app, P, IH. reflexivity.
Qed.



(** *** What a path within the root looks like *)

Lemma append_nil_r s : s ++ "" = s.
Proof. induction s; simpl; congruence. Qed.

Lemma append_assoc a b c : (a ++ b) ++ c = a ++ b ++ c.
Proof. induction a; simpl; congruence. Qed.

Lemma rev_append a b : Py.rev (a ++ b) = Py.rev b ++ Py.rev a.
Proof.
  induction a as [|x a IH]; simpl.
  - rewrite append_nil_r. reflexivity.
  - rewrite IH, append_assoc. reflexivity.
Qed.

Lemma rev_involutive s : Py.rev (Py.rev s) = s.
Proof.
  induction s as [|x s IH]; simpl; [reflexivity|].
  rewrite rev_append, IH. reflexivity.
Qed.

(** [s.endswith("/")] says what it should. *)
Lemma endswith_sep s :
  Py.endswith s "/" = true -> exists s0, s = s0 ++ "/".
Proof.
  unfold Py.endswith. change (Py.rev "/") with "/".
  destruct (Py.rev s) as [|c t] eqn:E; cbn [String.prefix]; [discriminate|].
  destruct (ascii_dec _ c) as [<-|N]; [|intros X; discriminate X].
  intros _. exists (Py.rev t).
  rewrite <- (rev_involutive s), E. reflexivity.
Qed.

Lemma split_nonempty s c : Py.split s c <> [].
Proof.
  destruct s as [|d r]; simpl; [discriminate|].
  destruct (Ascii.eqb d c); [discriminate|].
  destruct (Py.split r c); discriminate.
Qed.

(** Splitting at a separator splits each side. *)
Lemma split_append a b c :
  Py.split (a ++ String c b) c = (Py.split a c ++ Py.split b c)%list.
Proof.
  induction a as [|d a IH]; simpl.
  - rewrite Ascii.eqb_refl. reflexivity.
  - destruct (Ascii.eqb d c); [rewrite IH; reflexivity|].
    rewrite IH. pose proof (split_nonempty a c) as N.
    destruct (Py.split a c); [contradiction|reflexivity].
Qed.

Lemma split_no_sep_single w c :
  ~ In c (list_ascii_of_string w) -> Py.split w c = [w].
Proof.
  induction w as [|d w IH]; simpl; intros N; [reflexivity|].
  destruct (Ascii.eqb d c) eqn:E.
  - apply Ascii.eqb_eq in E. tauto.
  - rewrite IH by tauto. reflexivity.
Qed.

Lemma append_last_char a b s c :
  a ++ b = s ++ String c "" -> b <> "" -> exists b0, b = b0 ++ String c "".
Proof.
  revert s. induction a as [|x a IH]; simpl; intros s E N.
  - eauto.
  - destruct s as [|y s]; simpl in E.
    + inversion E as [[X A]]. destruct a; [simpl in A; contradiction|discriminate].
    + inversion E as [[X A]]. eapply IH; eauto.
Qed.

Lemma startswith_no_sep w :
  w <> "" -> ~ In posixpath.sep (list_ascii_of_string w) ->
  Py.startswith w (String posixpath.sep "") = false.
Proof.
  destruct w as [|c w]; [contradiction|]. cbn [list_ascii_of_string].
  intros _ N. unfold Py.startswith. cbn [String.prefix].
  destruct (ascii_dec _ c) as [<-|]; [|reflexivity].
  exfalso. apply N. left. reflexivity.
Qed.

Lemma startswith_append a b :
  Py.startswith a "/" = true -> Py.startswith (a ++ b) "/" = true.
Proof.
  unfold Py.startswith. destruct a as [|c a]; [discriminate|].
  cbn [String.prefix append]. destruct (ascii_dec _ c); [|discriminate].
  intros _. destruct (a ++ b); reflexivity.
Qed.

Lemma startswith_sep_cons w : Py.startswith (String "/" w) "/" = true.
Proof.
  unfold Py.startswith. cbn [String.prefix].
  destruct (ascii_dec _ _) as [_|N]; [destruct w; reflexivity|].
  exfalso. apply N. reflexivity.
Qed.

(** Spelled out: a path within the root is the root followed by a rest
    none of whose segments is [..]; and the rest starts a new segment,
    unless the root ends with the separator (or is empty). *)
Lemma within_spelled root p :
  within root p ->
  exists rest,
    p = root ++ rest
    /\ ~ In ".." (Py.split rest "/")
    /\ (rest = "" \/ Py.startswith rest "/" = true
        \/ root = "" \/ Py.endswith root "/" = true).
Proof.
  induction 1 as [|p w W (rest & -> & IH & B) (N & N1 & N2 & S)
                 |p W (rest & -> & IH & B)].
  - exists "". rewrite append_nil_r. split; [reflexivity|]. split; [|auto].
    simpl. intros [E|[]]. discriminate E.
  - unfold posixpath.join. rewrite (startswith_no_sep N S).
    unfold posixpath.sep in *.
    assert (A : ~ In ".." (Py.split (rest ++ "/" ++ w) "/")).
    { change (rest ++ "/" ++ w) with (rest ++ String "/" w).
      rewrite split_append, (@split_no_sep_single w "/" S).
      intros I. apply in_app_or in I. destruct I as [I|[I|[]]]; auto. }
    destruct (String.eqb (root ++ rest) ""
              || Py.endswith (root ++ rest) "/") eqn:J.
    + destruct rest as [|r0 rest'] eqn:R.
      * exists w. rewrite append_nil_r in *. split; [reflexivity|]. split.
        { rewrite (@split_no_sep_single w "/" S). intros [I|[]]. auto. }
        apply orb_true_iff in J. destruct J as [J|J]; auto.
        apply String.eqb_eq in J. auto.
      * rewrite <- R in *. apply orb_true_iff in J. destruct J as [J|J].
        { apply String.eqb_eq in J. destruct root; subst; discriminate J. }
        apply endswith_sep in J. destruct J as [s0 J].
        apply append_last_char in J; [|subst; discriminate].
        destruct J as [b0 J]. exists (rest ++ w). rewrite append_assoc.
        split; [reflexivity|]. split.
        { rewrite J in *. rewrite append_assoc.
          change ("/" ++ w) with (String "/" w).
          rewrite split_append, (@split_no_sep_single w "/" S).
          change (b0 ++ "/") with (b0 ++ String "/" "") in IH.
          rewrite split_append in IH.
          intros I. apply in_app_or in I. destruct I as [I|[I|[]]]; auto.
          apply IH, in_or_app. left. exact I. }
        destruct B as [B|[B|B]]; [subst; discriminate| |auto].
        right. left. apply startswith_append, B.
    + exists (rest ++ "/" ++ w). rewrite !append_assoc.
      split; [reflexivity|]. split; [exact A|].
      destruct B as [->|[B|B]]; [right; left; apply startswith_sep_cons| |auto].
      right. left. apply startswith_append, B.
  - exists (rest ++ "/"). rewrite append_assoc. split; [reflexivity|]. split.
    + change (rest ++ "/") with (rest ++ String "/" "").
      rewrite split_append. intros I. apply in_app_or in I.
      destruct I as [I|[I|[]]]; auto. discriminate I.
    + destruct B as [->|[B|B]]; [right; left; reflexivity| |auto].
      right. left. apply startswith_append, B.
Qed.

Local Abbreviation eh := CORSHTTPRequestHandler.end_headers.

(** ** More of the handler and of the start-up *)

Local Abbreviation emap := CORSHTTPRequestHandler.extensions_map.

(** The hypotheses of a witness, on a concrete request. *)
Ltac accepted :=
  split; [vm_compute; discriminate | vm_compute; reflexivity].

Ltac absent :=
  cbn; intros J; repeat (destruct J as [J|J]; [discriminate J|]); exact J.

(** *** Strings: searching and slicing *)

Lemma length_append a b :
  String.length (a ++ b) = (String.length a + String.length b)%nat.
Proof. induction a as [|x a IH]; simpl; congruence. Qed.

Lemma substring_all s : String.substring 0 (String.length s) s = s.
Proof. induction s as [|x s IH]; simpl; congruence. Qed.

Lemma substring_prefix a b :
  String.substring 0 (String.length a) (a ++ b) = a.
Proof.
  induction a as [|x a IH]; simpl.
  - destruct b; reflexivity.
  - rewrite IH. reflexivity.
Qed.

Lemma substring_suffix a b :
  String.substring (String.length a) (String.length b) (a ++ b) = b.
Proof. induction a as [|x a IH]; simpl; [apply substring_all|exact IH]. Qed.

Lemma slice_to_append a b : Py.slice_to (a ++ b) (Py.len a) = a.
Proof.
  unfold Py.slice_to, Py.len. rewrite Nat2Z.id. apply substring_prefix.
Qed.

Lemma slice_from_append a b : Py.slice_from (a ++ b) (Py.len a) = b.
Proof.
  unfold Py.slice_from, Py.len. rewrite Nat2Z.id, length_append.
  replace (String.length a + String.length b - String.length a)%nat
    with (String.length b) by lia.
  apply substring_suffix.
Qed.

Lemma get_append a x b :
  String.get (String.length a) (a ++ String x b) = Some x.
Proof. induction a as [|y a IH]; simpl; [reflexivity|exact IH]. Qed.

Lemma slice1_append a x b :
  Py.slice1 (a ++ String x b) (Py.len a) = String x "".
Proof.
  unfold Py.slice1, Py.len. rewrite Nat2Z.id, get_append. reflexivity.
Qed.

Lemma len_append a b : Py.len (a ++ b) = Py.len a + Py.len b.
Proof. unfold Py.len. rewrite length_append. lia. Qed.

Lemma len_nonneg s : 0 <= Py.len s.
Proof. unfold Py.len. lia. Qed.

Lemma lacks_cons c x s : lacks c (String x s) <-> x <> c /\ lacks c s.
Proof.
  unfold lacks. cbn [list_ascii_of_string In]. split.
  - intros H. split; [intros E|intros I]; apply H; auto.
  - intros [N H] [E|I]; auto.
Qed.

Lemma lacks_append c a b : lacks c (a ++ b) <-> lacks c a /\ lacks c b.
Proof.
  induction a as [|x a IH]; cbn [append].
  - split; [intros H; split; [intros []|exact H]|intros [_ H]; exact H].
  - rewrite !lacks_cons, IH. tauto.
Qed.

Lemma rfind_from_append c a b i last :
  Py.rfind_from c (a ++ b) i last
  = Py.rfind_from c b (i + Py.len a) (Py.rfind_from c a i last).
Proof.
  revert i last. induction a as [|x a IH]; intros i last; cbn [append].
  - cbn [Py.rfind_from]. f_equal. unfold Py.len. simpl. lia.
  - cbn [Py.rfind_from]. rewrite IH. f_equal.
    unfold Py.len. simpl String.length. lia.
Qed.

Lemma rfind_from_lacks c s i last :
  lacks c s -> Py.rfind_from c s i last = last.
Proof.
  revert i last. induction s as [|x s IH]; intros i last H; [reflexivity|].
  apply lacks_cons in H. destruct H as [N H]. cbn [Py.rfind_from].
  apply Ascii.eqb_neq in N. rewrite N. apply IH, H.
Qed.

(** [rfind] finds the last place, and -1 when there is none. *)
Lemma rfind_last c a b :
  lacks c b -> Py.rfind (a ++ String c b) c = Py.len a.
Proof.
  intros H. unfold Py.rfind. rewrite rfind_from_append.
  cbn [Py.rfind_from]. rewrite Ascii.eqb_refl.
  rewrite rfind_from_lacks by exact H. lia.
Qed.

Lemma rfind_lacks c s : lacks c s -> Py.rfind s c = -1.
Proof. apply rfind_from_lacks. Qed.

Lemma rfind_append_lacks c a b :
  lacks c b -> Py.rfind (a ++ b) c = Py.rfind a c.
Proof.
  intros H. unfold Py.rfind. rewrite rfind_from_append.
  apply rfind_from_lacks, H.
Qed.

(** Where the last [c] of a string is. *)
Lemma last_occurrence c s :
  lacks c s
  \/ exists a b, s = a ++ String c b /\ lacks c b.
Proof.
  induction s as [|x s [IH|(a & b & -> & IH)]].
  - left. intros [].
  - destruct (ascii_dec x c) as [->|N].
    + right. exists "", s. split; [reflexivity|exact IH].
    + left. apply lacks_cons. split; assumption.
  - right. exists (String x a), b. split; [reflexivity|exact IH].
Qed.

(** The part of a string after its last [c]: [rfind] points just before
    it. *)
Lemma rfind_cut c s :
  exists pre tail,
    s = pre ++ tail /\ lacks c tail /\ Py.rfind s c + 1 = Py.len pre.
Proof.
  destruct (last_occurrence c s) as [H|(a & b & -> & H)].
  - exists "", s. repeat split; [exact H|]. rewrite rfind_lacks by exact H.
    reflexivity.
  - exists (a ++ String c ""), b. rewrite append_assoc. repeat split.
    + exact H.
    + rewrite rfind_last by exact H. rewrite len_append. reflexivity.
Qed.

Lemma find_from_first c a b i :
  lacks c a -> Py.find_from c (a ++ String c b) i = i + Py.len a.
Proof.
  revert i. induction a as [|x a IH]; intros i H; cbn [append Py.find_from].
  - rewrite Ascii.eqb_refl. unfold Py.len. simpl. lia.
  - apply lacks_cons in H. destruct H as [N H].
    apply Ascii.eqb_neq in N. rewrite N, IH by exact H.
    unfold Py.len. simpl String.length. lia.
Qed.

Lemma find_from_lacks c s i : lacks c s -> Py.find_from c s i = -1.
Proof.
  revert i. induction s as [|x s IH]; intros i H; [reflexivity|].
  apply lacks_cons in H. destruct H as [N H]. cbn [Py.find_from].
  apply Ascii.eqb_neq in N. rewrite N. apply IH, H.
Qed.

(** [s.split(c, 1)] cuts at the first [c], and leaves a string without
    [c] whole. *)
Lemma split1_first c a b :
  lacks c a -> Py.split1 (a ++ String c b) c = [a; b].
Proof.
  intros H. unfold Py.split1, Py.find. rewrite find_from_first by exact H.
  pose proof (len_nonneg a) as L.
  destruct (0 + Py.len a <? 0) eqn:T; [apply Z.ltb_lt in T; lia|].
  f_equal; [|f_equal].
  - replace (0 + Py.len a) with (Py.len a) by lia. apply slice_to_append.
  - change (a ++ String c b) with (a ++ String c "" ++ b).
    rewrite <- append_assoc.
    replace (0 + Py.len a + 1) with (Py.len (a ++ String c ""))
      by (rewrite len_append; reflexivity).
    apply slice_from_append.
Qed.

Lemma split1_lacks c s : lacks c s -> Py.split1 s c = [s].
Proof.
  intros H. unfold Py.split1, Py.find. rewrite find_from_lacks by exact H.
  reflexivity.
Qed.

(** *** [splitext] *)

Lemma first_non_dot s :
  all_dots s = false ->
  exists dots x rest,
    s = dots ++ String x rest /\ all_dots dots = true /\ x <> "."%char.
Proof.
  induction s as [|c s IH]; cbn [all_dots]; [discriminate|].
  destruct (Ascii.eqb c ".") eqn:E; cbn [andb].
  - intros H. destruct (IH H) as (dots & x & rest & -> & D & N).
    exists (String c dots), x, rest. repeat split; [|exact N].
    cbn [all_dots]. rewrite E, D. reflexivity.
  - intros _. exists "", c, s. repeat split. apply Ascii.eqb_neq, E.
Qed.

Lemma skip_leading_dots_found fuel pre dots x rest dotIndex :
  all_dots dots = true -> x <> "."%char ->
  Py.len pre + Py.len dots < dotIndex ->
  (String.length dots < fuel)%nat ->
  let p := pre ++ dots ++ String x rest in
  posixpath.skip_leading_dots fuel p (Py.len pre) dotIndex
  = (Py.slice_to p dotIndex, Py.slice_from p dotIndex).
Proof.
  revert pre fuel. induction dots as [|d dots IH]; intros pre fuel D N L F p.
  - destruct fuel as [|fuel]; [simpl in F; lia|].
    cbn [posixpath.skip_leading_dots]. unfold p. cbn [append].
    change (Py.len "") with 0 in L.
    destruct (Py.len pre <? dotIndex) eqn:T;
      [|apply Z.ltb_ge in T; lia].
    rewrite slice1_append. unfold posixpath.extsep.
    cbn [String.eqb]. apply Ascii.eqb_neq in N. rewrite N. reflexivity.
  - destruct fuel as [|fuel]; [simpl in F; lia|].
    cbn [all_dots] in D. apply andb_true_iff in D. destruct D as [D0 D].
    apply Ascii.eqb_eq in D0. subst d.
    cbn [posixpath.skip_leading_dots]. unfold p. cbn [append].
    assert (L' : Py.len (String "." dots) = 1 + Py.len dots)
      by (unfold Py.len; simpl String.length; lia).
    destruct (Py.len pre <? dotIndex) eqn:T;
      [|apply Z.ltb_ge in T; pose proof (len_nonneg dots); lia].
    rewrite slice1_append. unfold posixpath.extsep.
    cbn [String.eqb Ascii.eqb Bool.eqb negb].
    change (pre ++ String "." (dots ++ String x rest))
      with (pre ++ String "." "" ++ dots ++ String x rest).
    rewrite <- (append_assoc pre (String "." "")).
    replace (Py.len pre + 1) with (Py.len (pre ++ String "." ""))
      by (rewrite len_append; reflexivity).
    apply IH; try assumption.
    + rewrite len_append. change (Py.len ".") with 1. lia.
    + simpl in F. lia.
Qed.

(** The extension is what follows the last dot of the last component,
    when something other than dots stands before that dot in the
    component. *)
Lemma splitext_name d stem e :
  lacks "/" stem -> all_dots stem = false ->
  lacks "/" e -> lacks "." e ->
  posixpath.splitext (d ++ stem ++ String "." e)
  = (d ++ stem, String "." e).
Proof.
  intros S1 S2 E1 E2. unfold posixpath.splitext, posixpath._splitext.
  unfold posixpath.sep, posixpath.extsep.
  destruct (rfind_cut "/" d) as (pre & tail & -> & T & R).
  assert (RS : Py.rfind ((pre ++ tail) ++ stem ++ String "." e) "/" + 1
               = Py.len pre).
  { rewrite <- R. f_equal. apply rfind_append_lacks.
    apply lacks_append. split; [exact S1|].
    apply lacks_cons. split; [discriminate|exact E1]. }
  assert (RD : Py.rfind ((pre ++ tail) ++ stem ++ String "." e) "."
               = Py.len ((pre ++ tail) ++ stem)).
  { rewrite <- append_assoc. apply rfind_last, E2. }
  rewrite RD.
  replace (Py.rfind ((pre ++ tail) ++ stem ++ String "." e) "/")
    with (Py.len pre - 1) by lia.
  pose proof (len_nonneg tail) as L1. pose proof (len_nonneg stem) as L2.
  rewrite !len_append.
  destruct (Py.len pre + Py.len tail + Py.len stem >? Py.len pre - 1) eqn:G;
    [|rewrite Z.gtb_ltb in G; apply Z.ltb_ge in G; lia].
  replace (Py.len pre - 1 + 1) with (Py.len pre) by lia.
  assert (A : all_dots (tail ++ stem) = false).
  { clear - S2. induction tail as [|c t IH]; [exact S2|].
    cbn [append all_dots]. rewrite IH. apply andb_false_r. }
  destruct (first_non_dot _ A) as (dots & x & rest & Q & D & N).
  assert (LQ : Py.len tail + Py.len stem = Py.len dots + Py.len (String x rest))
    by (rewrite <- !len_append, Q; reflexivity).
  assert (LX : Py.len (String x rest) = 1 + Py.len rest)
    by (unfold Py.len; simpl String.length; lia).
  pose proof (len_nonneg rest) as L3. pose proof (len_nonneg dots) as L4.
  assert (P : (pre ++ tail) ++ stem ++ String "." e
              = pre ++ dots ++ String x (rest ++ String "." e)).
  { rewrite (append_assoc pre tail), <- (append_assoc tail stem), Q.
    rewrite !append_assoc. reflexivity. }
  rewrite P.
  rewrite skip_leading_dots_found; try assumption.
  - rewrite <- P.
    replace (Py.len pre + Py.len tail + Py.len stem)
      with (Py.len ((pre ++ tail) ++ stem))
      by (rewrite !len_append; reflexivity).
    rewrite <- (append_assoc ((pre ++ tail)) stem).
    rewrite slice_to_append, slice_from_append. reflexivity.
  - lia.
  - unfold Py.len in *. lia.
Qed.

(** *** The table, by name *)

Section TableByName.

Variable env : Env.

Lemma lower_char_dot c : Py.lower_char c = "."%char -> c = "."%char.
Proof.
  destruct c as [[] [] [] [] [] [] [] []]; vm_compute; intros H;
    congruence.
Qed.

Lemma lower_lacks x s :
  Py.lower_char x = x -> lacks x (Py.lower s) -> lacks x s.
Proof.
  intros X. induction s as [|c s IH]; cbn [Py.lower]; [auto|].
  rewrite !lacks_cons. intros [N H]. split; [|exact (IH H)].
  intros ->. apply N, X.
Qed.

(** The keys of the table are in lower case, and each has one value. *)
Lemma emap_keys_lower k : Py.contains emap k = true -> Py.lower k = k.
Proof.
  unfold Py.contains, emap. cbn [Py.get].
  repeat match goal with
         | |- context [String.eqb ?a k] =>
             destruct (String.eqb a k) eqn:E;
             [apply String.eqb_eq in E; subst k; reflexivity|clear E]
         end.
  discriminate.
Qed.

Lemma emap_get E M : In (E, M) emap -> Py.get emap E = Some M.
Proof.
  unfold emap. cbn [In]. intros I.
  repeat (destruct I as [I|I]; [inversion I; subst; reflexivity|]).
  destruct I.
Qed.

Lemma guess_type_lowered q E M :
  In (E, M) emap -> Py.lower (snd (posixpath.splitext q)) = E ->
  CORSHTTPRequestHandler.guess_type env q = M.
Proof.
  unfold CORSHTTPRequestHandler.guess_type,
    SimpleHTTPRequestHandler.guess_type.
  destruct (posixpath.splitext q) as [base ext]. cbn [snd]. intros I L.
  destruct (Py.contains emap ext) eqn:K.
  - apply emap_keys_lower in K. rewrite K in L. subst ext.
    rewrite (emap_get I). reflexivity.
  - rewrite L. unfold Py.contains. rewrite (emap_get I). reflexivity.
Qed.

(** An extension that lower-cases to a key of the table other than the
    empty one is a dot followed by neither dot nor slash. *)
Lemma listed_extension_shape E' E M :
  In (E, M) emap -> E <> "" -> Py.lower E' = E ->
  exists e, E' = String "." e /\ lacks "/" e /\ lacks "." e.
Proof.
  intros I N L. destruct E' as [|c e]; [subst E; contradiction|].
  cbn [Py.lower] in L. unfold emap in I. cbn [In] in I.
  assert (X : Py.lower_char c = "."%char
              /\ lacks "/" (Py.lower e) /\ lacks "." (Py.lower e)).
  { subst E.
    repeat (destruct I as [I|I];
            [inversion I;
             (split; [reflexivity|]);
             split; cbn; intros J;
             repeat (destruct J as [J|J]; [discriminate J|]);
             exact J|]).
    destruct I. }
  destruct X as (X1 & X2 & X3). apply lower_char_dot in X1. subst c.
  exists e. split; [reflexivity|].
  split; apply lower_lacks; try assumption; reflexivity.
Qed.

End TableByName.

(** *** [dirname] and the root *)

Lemma not_endswith_sep d :
  d <> "" -> Py.endswith d "/" = false ->
  exists t c, d = t ++ String c "" /\ c <> "/"%char.
Proof.
  intros N E. unfold Py.endswith in E. change (Py.rev "/") with "/" in E.
  destruct (Py.rev d) as [|c t] eqn:R.
  - exfalso. apply N. rewrite <- (rev_involutive d), R. reflexivity.
  - exists (Py.rev t), c. split.
    + rewrite <- (rev_involutive d), R. reflexivity.
    + cbn [String.prefix] in E.
      destruct (ascii_dec "/" c) as [<-|X]; [|congruence].
      destruct t; discriminate E.
Qed.

Lemma endswith_last_char a c :
  c <> "/"%char -> Py.endswith (a ++ String c "") "/" = false.
Proof.
  intros N. unfold Py.endswith. rewrite rev_append.
  change (Py.rev "/") with "/". cbn [Py.rev append String.prefix].
  destruct (ascii_dec "/" c) as [E|_]; [congruence|reflexivity].
Qed.

Lemma last_char s : s <> "" -> exists t c, s = t ++ String c "".
Proof.
  intros N. destruct (Py.rev s) as [|c t] eqn:R.
  - exfalso. apply N. rewrite <- (rev_involutive s), R. reflexivity.
  - exists (Py.rev t), c. rewrite <- (rev_involutive s), R. reflexivity.
Qed.

(** A path that ends with a name does not end with the separator. *)
Lemma endswith_name a w :
  w <> "" -> lacks "/" w -> Py.endswith (a ++ w) "/" = false.
Proof.
  intros N L. destruct (last_char N) as (t & c & ->).
  rewrite <- append_assoc. apply endswith_last_char.
  apply lacks_append in L. destruct L as [_ L].
  apply lacks_cons in L. tauto.
Qed.

Lemma repeat_lacks c x n : x <> c -> lacks x (Py.repeat c n).
Proof.
  intros N. induction n as [|n IH]; cbn [Py.repeat]; [intros []|].
  apply lacks_cons. split; [congruence|exact IH].
Qed.

Lemma rstrip_sep t c :
  c <> "/"%char ->
  Py.rstrip ((t ++ String c "") ++ "/") "/" = t ++ String c "".
Proof.
  intros N. unfold Py.rstrip, Py.rstrip_by. rewrite !rev_append.
  cbn [Py.rev append Py.lstrip_by Py.among list_ascii_of_string existsb].
  rewrite Ascii.eqb_refl. cbn [orb].
  apply Ascii.eqb_neq in N. rewrite N. cbn [orb].
  change (String c (Py.rev t)) with (Py.rev (String c "") ++ Py.rev t).
  rewrite <- rev_append. apply rev_involutive.
Qed.

(** The directory of a name in a directory. *)
Lemma dirname_child d name :
  d <> "" -> Py.endswith d "/" = false -> lacks "/" name ->
  posixpath.dirname (d ++ String "/" name) = d.
Proof.
  intros N E L. destruct (not_endswith_sep N E) as (t & c & -> & C).
  unfold posixpath.dirname, posixpath.sep.
  rewrite rfind_last by exact L.
  change ((t ++ String c "") ++ String "/" name)
    with ((t ++ String c "") ++ "/" ++ name).
  rewrite <- (append_assoc (t ++ String c "") "/" name).
  replace (Py.len (t ++ String c "") + 1)
    with (Py.len ((t ++ String c "") ++ "/"))
    by (rewrite (len_append _ "/"); reflexivity).
  rewrite slice_to_append.
  assert (H1 : String.eqb ((t ++ String c "") ++ "/") "" = false)
    by (destruct t; reflexivity).
  assert (H2 : String.eqb ((t ++ String c "") ++ "/")
                 (Py.repeat "/"
                    (String.length ((t ++ String c "") ++ "/"))) = false).
  { apply String.eqb_neq. intros X.
    pose proof (@repeat_lacks "/" c
                  (String.length ((t ++ String c "") ++ "/")) C) as R.
    rewrite <- X in R. apply lacks_append in R. destruct R as [R _].
    apply lacks_append in R. destruct R as [_ R].
    apply lacks_cons in R. tauto. }
  rewrite H1, H2. cbn [negb andb]. apply rstrip_sep, C.
Qed.

(** *** [translate_path] *)

Section TranslatePath.

Variable env : Env.

Lemma first_occurrence c s :
  lacks c s \/ exists a b, s = a ++ String c b /\ lacks c a.
Proof.
  induction s as [|x s [IH|(a & b & -> & IH)]].
  - left. intros [].
  - destruct (ascii_dec x c) as [->|N].
    + right. exists "", s. split; [reflexivity|intros []].
    + left. apply lacks_cons. split; assumption.
  - destruct (ascii_dec x c) as [->|N].
    + right. exists "", (a ++ String c b). split; [reflexivity|intros []].
    + right. exists (String x a), b. split; [reflexivity|].
      apply lacks_cons. split; assumption.
Qed.

(** What [translate_path] keeps of the request path: the part before the
    first [?], and of that the part before the first [#]. *)
Lemma path_before_query_and_fragment p c q :
  c = "?"%char \/ c = "#"%char -> lacks "?" p -> lacks "#" p ->
  List.nth 0
    (Py.split1 (List.nth 0 (Py.split1 (p ++ String c q) "?") "") "#") ""
  = p.
Proof.
  intros [->| ->] Q F.
  - rewrite (@split1_first "?" p q) by exact Q. cbn [nth].
    rewrite split1_lacks by exact F. reflexivity.
  - destruct (first_occurrence "?" q) as [L|(a & b & -> & L)].
    + rewrite (@split1_lacks "?" (p ++ String "#" q)).
      * cbn [nth]. rewrite split1_first by exact F. reflexivity.
      * apply lacks_append. split; [exact Q|].
        apply lacks_cons. split; [discriminate|exact L].
    + change (p ++ String "#" (a ++ String "?" b))
        with (p ++ (String "#" a) ++ String "?" b).
      rewrite <- (append_assoc p (String "#" a)).
      rewrite (@split1_first "?" (p ++ String "#" a) b).
      * cbn [nth]. rewrite split1_first by exact F. reflexivity.
      * apply lacks_append. split; [exact Q|].
        apply lacks_cons. split; [discriminate|exact L].
Qed.

Lemma path_without_query_or_fragment p :
  lacks "?" p -> lacks "#" p ->
  List.nth 0 (Py.split1 (List.nth 0 (Py.split1 p "?") "") "#") "" = p.
Proof.
  intros Q F. rewrite (@split1_lacks "?" p) by exact Q. cbn [nth].
  rewrite split1_lacks by exact F. reflexivity.
Qed.

Lemma split_join ws :
  ws <> [] -> Forall (lacks "/") ws -> Py.split (Py.join "/" ws) "/" = ws.
Proof.
  intros N F. induction F as [|w ws L F IH]; [contradiction|].
  unfold Py.join in *. cbn [String.concat]. destruct ws as [|w2 ws].
  - apply split_no_sep_single, L.
  - change (w ++ "/" ++ String.concat "/" (w2 :: ws))
      with (w ++ String "/" (String.concat "/" (w2 :: ws))).
    rewrite split_append, IH by discriminate.
    rewrite (@split_no_sep_single w "/" L). reflexivity.
Qed.

Lemma simple_name_lacks w : simple_name w -> lacks "/" w.
Proof. intros (_ & _ & _ & L). exact L. Qed.

(** [normpath] keeps the plain names and drops the empty components. *)
Lemma normpath_comps_simple i comps acc :
  Forall (fun w => w = "" \/ simple_name w) comps ->
  posixpath.normpath_comps i comps acc
  = (List.rev acc
     ++ List.filter (fun w => negb (String.eqb w "")) comps)%list.
Proof.
  intros F. revert acc. induction F as [|w ws [->|(N & N1 & N2 & L)] F IH];
    intros acc; cbn [posixpath.normpath_comps List.filter].
  - rewrite app_nil_r. reflexivity.
  - cbn [String.eqb orb negb]. apply IH.
  - apply String.eqb_neq in N, N1, N2.
    unfold posixpath.curdir, posixpath.pardir. rewrite N, N1, N2.
    cbn [orb negb]. rewrite IH. cbn [List.rev]. rewrite <- app_assoc.
    reflexivity.
Qed.

Lemma filter_simple ws :
  Forall simple_name ws ->
  List.filter (fun w => negb (String.eqb w "")) ws = ws.
Proof.
  induction 1 as [|w ws (N & _) F IH]; [reflexivity|].
  cbn [List.filter]. apply String.eqb_neq in N. rewrite N, IH. reflexivity.
Qed.

Lemma startswith_double_sep s :
  Py.startswith (String "/" s) "//" = Py.startswith s "/".
Proof.
  unfold Py.startswith. cbn [String.prefix].
  destruct (ascii_dec "/" "/") as [_|N]; [reflexivity|congruence].
Qed.

Lemma dirname_name w : lacks "/" w -> posixpath.dirname w = "".
Proof.
  intros L. unfold posixpath.dirname, posixpath.sep.
  rewrite rfind_lacks by exact L. change (-1 + 1) with 0.
  assert (E : Py.slice_to w 0 = "") by (destruct w; reflexivity).
  rewrite E. reflexivity.
Qed.

Lemma join_name path w :
  path <> "" -> Py.endswith path "/" = false -> simple_name w ->
  posixpath.join path w = path ++ "/" ++ w.
Proof.
  intros N E (W & _ & _ & L). unfold posixpath.join.
  rewrite (startswith_no_sep W L). apply String.eqb_neq in N.
  unfold posixpath.sep. rewrite N, E. reflexivity.
Qed.

Lemma append_not_empty a b : a <> "" -> a ++ b <> "".
Proof. destruct a; [contradiction|discriminate]. Qed.

Lemma translate_words_simple ws path :
  ws <> [] -> Forall simple_name ws ->
  path <> "" -> Py.endswith path "/" = false ->
  SimpleHTTPRequestHandler.translate_words ws path
  = path ++ "/" ++ Py.join "/" ws.
Proof.
  intros N F. revert path.
  induction F as [|w ws S F IH]; [contradiction|]. intros path P E.
  cbn [SimpleHTTPRequestHandler.translate_words].
  pose proof S as (W & W1 & W2 & L).
  rewrite (dirname_name L). apply String.eqb_neq in W1, W2.
  unfold posixpath.curdir, posixpath.pardir. rewrite W1, W2.
  cbn [String.eqb negb orb]. rewrite (join_name P E S).
  destruct ws as [|w2 ws]; [reflexivity|].
  rewrite IH.
  - unfold Py.join. cbn [String.concat]. rewrite !append_assoc. reflexivity.
  - discriminate.
  - apply append_not_empty, P.
  - rewrite <- (append_assoc path "/" w). apply endswith_name; assumption.
Qed.

Lemma rstrip_ws_sep s : Py.rstrip_ws (s ++ "/") = s ++ "/".
Proof.
  unfold Py.rstrip_ws, Py.rstrip_by. rewrite rev_append.
  cbn [Py.rev append Py.lstrip_by].
  change (Py.isspace "/") with false. cbn iota.
  change (String "/" (Py.rev s)) with (Py.rev "/" ++ Py.rev s).
  rewrite <- rev_append. apply rev_involutive.
Qed.

Lemma endswith_sep_appended s : Py.endswith (s ++ "/") "/" = true.
Proof.
  unfold Py.endswith. rewrite rev_append. cbn [Py.rev append String.prefix].
  destruct (ascii_dec "/" "/") as [_|N]; [|congruence].
  destruct (Py.rev s); reflexivity.
Qed.

(** X19. A request path made of plain names ([/a/b/c], possibly with a
    slash at its end) that needs no unquoting translates to the root
    followed by that very path. *)
Theorem plain_path_translation dir ws (slash : bool) :
  dir <> "" -> Py.endswith dir "/" = false ->
  ws <> [] -> Forall simple_name ws ->
  let p := "/" ++ Py.join "/" ws ++ (if slash then "/" else "") in
  lacks "?" p -> lacks "#" p -> unquote env p = p ->
  (slash = false -> Py.endswith (Py.rstrip_ws p) "/" = false) ->
  CORSHTTPRequestHandler.translate_path env dir p = dir ++ p.
Proof.
  intros D1 D2 N F p Q H U T.
  unfold CORSHTTPRequestHandler.translate_path,
    SimpleHTTPRequestHandler.translate_path.
  rewrite (path_without_query_or_fragment Q H), U.
  assert (FL : Forall (lacks "/") ws)
    by (eapply Forall_impl; [|exact F]; exact simple_name_lacks).
  assert (C : Py.split p "/"
              = ("" :: ws ++ (if slash then [""] else []))%list).
  { unfold p. cbn [append Py.split]. cbn [Ascii.eqb Bool.eqb]. f_equal.
    destruct slash.
    - change (Py.join "/" ws ++ "/") with (Py.join "/" ws ++ String "/" "").
      rewrite split_append, (split_join N FL). reflexivity.
    - rewrite append_nil_r, app_nil_r. apply split_join; assumption. }
  assert (G : Forall (fun w => w = "" \/ simple_name w) (Py.split p "/")).
  { rewrite C. constructor; [left; reflexivity|]. apply Forall_app. split.
    - eapply Forall_impl; [|exact F]. intros w S. right. exact S.
    - destruct slash; repeat constructor. }
  assert (K : List.filter (fun w => negb (String.eqb w "")) (Py.split p "/")
              = ws).
  { rewrite C. cbn [List.filter String.eqb negb]. rewrite filter_app.
    rewrite (filter_simple F). destruct slash; apply app_nil_r. }
  assert (NP : posixpath.normpath p = "/" ++ Py.join "/" ws).
  { assert (P0 : String.eqb p "" = false) by reflexivity.
    assert (P1 : Py.startswith p "/" = true) by apply startswith_sep_cons.
    assert (P2 : Py.startswith p "//" = false).
    { unfold p. change ("/" ++ ?x) with (String "/" x).
      rewrite startswith_double_sep.
      destruct ws as [|w ws']; [contradiction|].
      inversion F as [|? ? (W & _ & _ & L) _]; subst.
      unfold Py.join. cbn [String.concat].
      destruct w as [|c w]; [contradiction|].
      apply lacks_cons in L. destruct L as [L _].
      unfold posixpath.sep in L. unfold Py.startswith.
      destruct ws'; cbn [append String.prefix];
        destruct (ascii_dec "/" c); congruence. }
    unfold posixpath.normpath. rewrite P0, P1, P2. cbn [andb].
    unfold posixpath.sep.
    rewrite (normpath_comps_simple 1 [] G), K. cbn [List.rev app].
    change (Z.to_nat 1) with 1%nat. cbn [Py.repeat append String.eqb].
    reflexivity. }
  rewrite NP.
  assert (C' : List.filter (fun w => negb (String.eqb w ""))
                 (Py.split ("/" ++ Py.join "/" ws) "/") = ws).
  { cbn [append Py.split]. cbn [Ascii.eqb Bool.eqb].
    cbn [List.filter String.eqb negb]. rewrite (split_join N FL).
    apply filter_simple, F. }
  rewrite C', (translate_words_simple N F D1 D2).
  destruct slash.
  - unfold p.
    replace ("/" ++ Py.join "/" ws ++ "/")
      with (("/" ++ Py.join "/" ws) ++ "/") by apply append_assoc.
    rewrite rstrip_ws_sep, endswith_sep_appended.
    rewrite !append_assoc. reflexivity.
  - rewrite (T eq_refl). unfold p. rewrite !append_nil_r. reflexivity.
Qed.

End TranslatePath.

Lemma plain_path_translation_witness :
  CORSHTTPRequestHandler.translate_path Sample.env Sample.root
    "/web/index.html"
  = "/srv/ebookta/web/index.html".
Proof.
  apply (@plain_path_translation Sample.env Sample.root
           ["web"; "index.html"] false).
  - discriminate.
  - reflexivity.
  - discriminate.
  - repeat constructor; try discriminate; absent.
  - absent.
  - absent.
  - reflexivity.
  - intros _. vm_compute; reflexivity.
Defined.

Section Replies.

Variable env : Env.

Lemma getattr_other c :
  c <> "GET" -> c <> "HEAD" -> c <> "OPTIONS" ->
  CORSHTTPRequestHandler.getattr env ("do_" ++ c) = None.
Proof.
  intros G H O. unfold CORSHTTPRequestHandler.getattr.
  cbn [append String.eqb Ascii.eqb Bool.eqb].
  apply String.eqb_neq in G, H, O. rewrite G, H, O. reflexivity.
Qed.


Lemma send_head_file_304 p st f :
  v09 st = false -> Py.endswith p "/" = false ->
  open_rb env p = Opened f -> not_modified env st f = true ->
  SimpleHTTPRequestHandler.send_head_file env eh emap p st
  = (None,
     set_headers_buffer []
       (wfile_write
          (Head (_headers_buffer st ++ response_start env 304 "Not Modified"
                 ++ cors_headers ++ [BlankLine])%list)
          (log_message (LogRequest 304) (fs_call (FsOpen p) st)))).
Proof.
  intros V S O N. unfold SimpleHTTPRequestHandler.send_head_file.
  rewrite S, O. unfold not_modified in N. fields. rewrite N.
  rewrite (@send_response_default env 304 "Not Modified"
             "Document has not changed since given time")
    by (exact V || reflexivity).
  rewrite end_headers_eq by exact V.
  fields. rewrite <- !app_assoc. reflexivity.
Qed.

Lemma answer_of_send_head dir req st c r st' :
  accepts env dir req st -> command st = Some c ->
  c = "GET" \/ c = "HEAD" ->
  SimpleHTTPRequestHandler.send_head env eh emap st = (r, st') ->
  CORSHTTPRequestHandler.handle_one_request env req (new_handler dir)
  = match r with
    | Some s =>
        if String.eqb c "GET" then wfile_write (Body (read s)) st' else st'
    | None => st'
    end.
Proof.
  intros A C [->| ->] S; rewrite (handle_one_request_accepted A C).
  - change (CORSHTTPRequestHandler.getattr env ("do_" ++ "GET"))
      with (Some (CORSHTTPRequestHandler.do_GET env)).
    cbn beta iota. unfold CORSHTTPRequestHandler.do_GET,
      SimpleHTTPRequestHandler.do_GET, SimpleHTTPRequestHandler.copyfile.
    rewrite S. destruct r; reflexivity.
  - change (CORSHTTPRequestHandler.getattr env ("do_" ++ "HEAD"))
      with (Some (CORSHTTPRequestHandler.do_HEAD env)).
    cbn beta iota. unfold CORSHTTPRequestHandler.do_HEAD,
      SimpleHTTPRequestHandler.do_HEAD.
    rewrite S. destruct r; reflexivity.
Qed.


(** X2. A GET or HEAD request as in X1, but with an If-Modified-Since
    header whose date is not before the file's last change and without an
    If-None-Match header: the reply is status 304 with the three CORS
    headers, no Content-type, no Content-Length and no body; the file is
    opened all the same. *)
Theorem not_modified_304 dir req st c f :
  accepts env dir req st ->
  command st = Some c -> c = "GET" \/ c = "HEAD" ->
  v09 st = false ->
  let p := CORSHTTPRequestHandler.translate_path env dir (path st) in
  os_path_isdir env p = false ->
  Py.endswith p "/" = false ->
  open_rb env p = Opened f ->
  not_modified env st f = true ->
  let out :=
    CORSHTTPRequestHandler.handle_one_request env req (new_handler dir) in
  wfile out
  = [Head (response_start env 304 "Not Modified" ++ cors_headers
           ++ [BlankLine])]
  /\ fs_trace out = [FsIsdir p; FsOpen p].
Proof.
  intros A C M V p D S O N out.
  destruct (accepts_clean A) as (W & B & F & Dir & _).
  assert (E : SimpleHTTPRequestHandler.send_head env eh emap st
              = (None,
                 set_headers_buffer []
                   (wfile_write
                      (Head (response_start env 304 "Not Modified"
                             ++ cors_headers ++ [BlankLine]))
                      (log_message (LogRequest 304)
                         (fs_call (FsOpen p) (fs_call (FsIsdir p) st)))))).
  { unfold SimpleHTTPRequestHandler.send_head, handler_path.
    rewrite Dir.
    change (SimpleHTTPRequestHandler.translate_path env dir (path st)) with p.
    rewrite D. rewrite (@send_head_file_304 p _ f) by assumption.
    fields. rewrite B. reflexivity. }
  unfold out. rewrite (answer_of_send_head A C M E).
  fields; rewrite W, F; split; reflexivity.
Qed.

(** X3. A GET or HEAD request, read with a version other than HTTP/0.9,
    whose path translates to a directory while the path part of the URL
    does not end with a slash: the reply is status 301 with a Location
    header (the URL with the slash added to its path part), Content-Length
    0 and the three CORS headers, without a body; the only file system
    call asks whether the path is a directory. *)
Theorem directory_without_slash_redirects dir req st c parts_path :
  accepts env dir req st ->
  command st = Some c -> c = "GET" \/ c = "HEAD" ->
  v09 st = false ->
  let p := CORSHTTPRequestHandler.translate_path env dir (path st) in
  os_path_isdir env p = true ->
  urlsplit_path env (path st) = Some parts_path ->
  Py.endswith parts_path "/" = false ->
  let out :=
    CORSHTTPRequestHandler.handle_one_request env req (new_handler dir) in
  wfile out
  = [Head (response_start env 301 "Moved Permanently"
           ++ [ HeaderLine "Location" (redirect_url env (path st));
                HeaderLine "Content-Length" "0" ]
           ++ cors_headers ++ [BlankLine])]
  /\ fs_trace out = [FsIsdir p].
Proof.
  intros A C M V p D U S out.
  destruct (accepts_clean A) as (W & B & F & Dir & _).
  assert (E : SimpleHTTPRequestHandler.send_head env eh emap st
              = (None,
                 set_headers_buffer []
                   (wfile_write
                      (Head (response_start env 301 "Moved Permanently"
                             ++ [ HeaderLine "Location"
                                    (redirect_url env (path st));
                                  HeaderLine "Content-Length" "0" ]
                             ++ cors_headers ++ [BlankLine]))
                      (log_message (LogRequest 301)
                         (fs_call (FsIsdir p) st))))).
  { unfold SimpleHTTPRequestHandler.send_head, handler_path.
    rewrite Dir.
    change (SimpleHTTPRequestHandler.translate_path env dir (path st)) with p.
    rewrite D. fields. rewrite U, S. cbn [negb].
    rewrite (@send_response_default env 301 "Moved Permanently"
               "Object moved permanently -- see URI list")
      by (exact V || reflexivity).
    rewrite !send_header_eq by v09_side V.
    rewrite end_headers_eq by exact V.
    fields. rewrite B. rewrite <- !app_assoc. reflexivity. }
  unfold out. rewrite (answer_of_send_head A C M E).
  fields; rewrite W, F; split; reflexivity.
Qed.

(** X8. A request accepted with a command other than GET, HEAD and
    OPTIONS (POST included, which the Access-Control-Allow-Methods header
    names) and a version other than HTTP/0.9 is answered with status 501
    and the error page; the head carries the three CORS headers, no file
    system call is made, and the connection is closed. *)
Theorem unsupported_method_501 dir req st c :
  accepts env dir req st ->
  command st = Some c ->
  c <> "GET" -> c <> "HEAD" -> c <> "OPTIONS" ->
  v09 st = false ->
  let out :=
    CORSHTTPRequestHandler.handle_one_request env req (new_handler dir) in
  let message := "Unsupported method (" ++ repr env c ++ ")" in
  let page :=
    error_page env 501 message "Server does not support this operation" in
  wfile out = Head (error_head env 501 message page) :: body_of page
  /\ header_value (error_head env 501 message page)
       "Access-Control-Allow-Methods" = Some "GET, POST, OPTIONS"
  /\ fs_trace out = []
  /\ close_connection out = true.
Proof.
  intros A C G H O V out message page.
  destruct (accepts_clean A) as (W & B & F & _).
  unfold out. rewrite (handle_one_request_accepted A C).
  rewrite (getattr_other G H O).
  rewrite (@send_error_eq env 501 "Not Implemented"
             "Server does not support this operation")
    by (reflexivity || exact V).
  cbn zeta. rewrite C. fold message. fold page.
  apply String.eqb_neq in H. rewrite H. cbn [negb andb].
  unfold body_of.
  destruct (String.eqb page ""); cbn [negb]; fields; rewrite W, B, F;
    repeat split; reflexivity.
Qed.

Lemma send_error_default code short long st :
  BaseHTTPRequestHandler.responses code = Some (short, long) ->
  BaseHTTPRequestHandler.send_error env eh code None None st
  = BaseHTTPRequestHandler.send_error env eh code (Some short) None st.
Proof.
  intros R. unfold BaseHTTPRequestHandler.send_error. rewrite R. reflexivity.
Qed.

Lemma send_response_09 code message st :
  v09 st = true ->
  BaseHTTPRequestHandler.send_response env code message st
  = log_message (LogRequest code) st.
Proof.
  intros V. unfold BaseHTTPRequestHandler.send_response,
    BaseHTTPRequestHandler.log_request.
  assert (E : BaseHTTPRequestHandler.send_response_only code message
                (log_message (LogRequest code) st)
              = log_message (LogRequest code) st).
  { unfold BaseHTTPRequestHandler.send_response_only. unfold v09 in V.
    fields. rewrite V. reflexivity. }
  rewrite E. rewrite !send_header_09 by v09_side V. reflexivity.
Qed.

(** What [send_error] comes to for a request read as HTTP/0.9: the page
    and nothing else. *)
Lemma send_error_09 code short long m st :
  BaseHTTPRequestHandler.responses code = Some (short, long) ->
  (200 <=? code) && negb ((code =? 204) || (code =? 205) || (code =? 304))
  = true ->
  v09 st = true ->
  BaseHTTPRequestHandler.send_error env eh code (Some m) None st
  = let page := error_page env code m long in
    let st' :=
      set_close_connection true
        (log_message (LogRequest code) (log_message (LogError code m) st)) in
    if negb (match command st with
             | Some c => String.eqb c "HEAD"
             | None => false
             end) && negb (String.eqb page "")
    then wfile_write (Body page) st' else st'.
Proof.
  intros R C V. unfold BaseHTTPRequestHandler.send_error.
  rewrite R, C. cbn beta iota zeta. unfold BaseHTTPRequestHandler.log_error.
  rewrite send_response_09 by exact V.
  assert (E : forall s, v09 s = true ->
                BaseHTTPRequestHandler.send_header "Connection" "close" s
                = set_close_connection true s).
  { intros s Vs. unfold BaseHTTPRequestHandler.send_header. unfold v09 in Vs.
    rewrite Vs. reflexivity. }
  rewrite E by exact V.
  rewrite !send_header_09 by v09_side V.
  rewrite end_headers_09 by exact V.
  reflexivity.
Qed.

(** X9. A request line of more than 65536 characters is answered with
    status 414 and the error page, with the three CORS headers in the
    head; nothing is asked of the file system and the connection is
    closed. *)
Theorem request_line_too_long_414 dir req :
  65536 < Py.len (raw_requestline req) ->
  let out :=
    CORSHTTPRequestHandler.handle_one_request env req (new_handler dir) in
  let page := error_page env 414 "Request-URI Too Long" "URI is too long" in
  wfile out
  = Head (error_head env 414 "Request-URI Too Long" page) :: body_of page
  /\ fs_trace out = []
  /\ close_connection out = true.
Proof.
  intros L out page. unfold out.
  unfold CORSHTTPRequestHandler.handle_one_request,
    BaseHTTPRequestHandler.handle_one_request.
  apply Z.ltb_lt in L. rewrite L.
  rewrite (@send_error_default 414 "Request-URI Too Long" "URI is too long")
    by reflexivity.
  rewrite (@send_error_eq env 414 "Request-URI Too Long" "URI is too long")
    by reflexivity.
  cbn zeta. fold page. fields. cbn [String.eqb negb andb].
  unfold body_of. destruct (String.eqb page ""); cbn [negb]; fields;
    repeat split; reflexivity.
Qed.

(** X12. When [open] raises [ValueError] (a path with a NUL character)
    for a GET or HEAD request, the exception leaves the handler: nothing
    is written to the client; the server reports the error and goes on
    with the connections that follow (in a loop that none of the
    connections before has ended). *)
Theorem open_error_escapes dir req rest st c :
  accepts env dir req st ->
  command st = Some c -> c = "GET" \/ c = "HEAD" ->
  let p := CORSHTTPRequestHandler.translate_path env dir (path st) in
  os_path_isdir env p = false ->
  Py.endswith p "/" = false ->
  open_rb env p = OpenRaises ValueError ->
  let out :=
    CORSHTTPRequestHandler.handle_one_request env req (new_handler dir) in
  wfile out = [] /\ uncaught out = Some ValueError
  /\ fs_trace out = [FsIsdir p; FsOpen p]
  /\ forall before after,
      snd (serve_forever dir before) = None ->
      serve_forever dir (before ++ (env, req :: rest) :: after)
      = ((fst (serve_forever dir before)
          ++ [Serve []; HandleError ValueError]
          ++ fst (serve_forever dir after))%list,
         snd (serve_forever dir after)).
Proof.
  intros A C M p D S O out.
  destruct (accepts_clean A) as (W & B & F & Dir & _).
  assert (E : SimpleHTTPRequestHandler.send_head env eh emap st
              = (None,
                 raise_uncaught ValueError
                   (fs_call (FsOpen p) (fs_call (FsIsdir p) st)))).
  { unfold SimpleHTTPRequestHandler.send_head, handler_path.
    rewrite Dir.
    change (SimpleHTTPRequestHandler.translate_path env dir (path st)) with p.
    rewrite D. unfold SimpleHTTPRequestHandler.send_head_file.
    rewrite S, O. reflexivity. }
  assert (R : out = raise_uncaught ValueError
                      (fs_call (FsOpen p) (fs_call (FsIsdir p) st)))
    by (unfold out; rewrite (answer_of_send_head A C M E); reflexivity).
  rewrite R. fields. rewrite W, F. repeat split.
  intros before after Q. rewrite (serve_forever_app dir before _ Q).
  rewrite (@serve_forever_cons dir (env, req :: rest) after
             [Serve []; HandleError ValueError]); [reflexivity|].
  unfold process_request, CORSHTTPRequestHandler.handle.
  change (set_close_connection true (new_handler dir)) with (new_handler dir).
  cbn [CORSHTTPRequestHandler.handle_loop]. fold out. rewrite R.
  fields. rewrite W. reflexivity.
Qed.

(** X10. A request line of three words or more whose last word is not a
    well-formed HTTP version (error 400) or names version 2.0 or above
    (error 505) is answered with the error page alone: no status line and
    no header is sent, the CORS headers included, because the request
    version is still the default HTTP/0.9 at that point. *)
Theorem rejected_version_bare_page dir req code message short long :
  Py.len (raw_requestline req) <= 65536 ->
  let words := Py.split_ws (Py.rstrip (raw_requestline req) CRLF) in
  (3 <= List.length words)%nat ->
  version_error env (List.last words "") = Some (code, message) ->
  BaseHTTPRequestHandler.responses code = Some (short, long) ->
  let out :=
    CORSHTTPRequestHandler.handle_one_request env req (new_handler dir) in
  wfile out = body_of (error_page env code message long)
  /\ fs_trace out = []
  /\ close_connection out = true.
Proof.
  intros L words N E R out. unfold out.
  unfold CORSHTTPRequestHandler.handle_one_request,
    BaseHTTPRequestHandler.handle_one_request.
  destruct (65536 <? _) eqn:T; [apply Z.ltb_lt in T; lia|].
  destruct (String.eqb (raw_requestline req) "") eqn:Q.
  { apply String.eqb_eq in Q. unfold words in N. rewrite Q in N.
    cbn in N. lia. }
  unfold BaseHTTPRequestHandler.parse_request. cbn beta iota zeta.
  fold words.
  destruct (List.length words =? 0)%nat eqn:Z0;
    [apply Nat.eqb_eq in Z0; lia|].
  unfold BaseHTTPRequestHandler.parse_request_version.
  apply Nat.leb_le in N. rewrite N.
  unfold version_error in E.
  destruct (BaseHTTPRequestHandler.parse_version env (last words ""))
    as [[base vn]|].
  - destruct (BaseHTTPRequestHandler.tuple_ge vn (2, 0)); [|discriminate E].
    inversion E; subst code message. rewrite protocol_below_11.
    rewrite andb_false_r.
    rewrite (@send_error_09 505 short long) by (exact R || reflexivity).
    cbn zeta. fields. inversion R; subst.
    unfold body_of. cbn [negb andb].
    destruct (String.eqb (error_page env _ _ _) ""); cbn [negb]; fields;
      repeat split.
  - inversion E; subst code message.
    rewrite (@send_error_09 400 short long) by (exact R || reflexivity).
    cbn zeta. fields. inversion R; subst.
    unfold body_of. cbn [negb andb].
    destruct (String.eqb (error_page env _ _ _) ""); cbn [negb]; fields;
      repeat split.
Qed.

Lemma probe_entries_eq p names st :
  SimpleHTTPRequestHandler.probe_entries env p names st
  = (entries_of env p names,
     fs_calls
       (List.flat_map
          (fun n => [FsIsdir (posixpath.join p n);
                     FsIslink (posixpath.join p n)]) names) st).
Proof.
  revert st. induction names as [|n names IH]; intros st; [reflexivity|].
  cbn [SimpleHTTPRequestHandler.probe_entries]. rewrite IH. reflexivity.
Qed.









(** Names that differ in case only stay as [os.listdir] gave them. *)
Lemma sort_by_lower_example :
  SimpleHTTPRequestHandler.sort_by_lower ["b.txt"; "B.TXT"; "a"; "B.txt"]
  = ["a"; "b.txt"; "B.TXT"; "B.txt"].
Proof. reflexivity. Qed.

Lemma find_index_none p st :
  os_path_isfile env (posixpath.join p "index.html") = false ->
  os_path_isfile env (posixpath.join p "index.htm") = false ->
  SimpleHTTPRequestHandler.find_index env ["index.html"; "index.htm"] p st
  = (None,
     fs_call (FsIsfile (posixpath.join p "index.htm"))
       (fs_call (FsIsfile (posixpath.join p "index.html")) st)).
Proof.
  intros H1 H2. cbn [SimpleHTTPRequestHandler.find_index].
  rewrite H1, H2. reflexivity.
Qed.

Lemma fs_calls_path evs st : path (fs_calls evs st) = path st.
Proof.
  revert st. induction evs as [|e evs IH]; intros st; [reflexivity|].
  exact (IH (fs_call e st)).
Qed.

Lemma existsb_is_open_probes p names :
  existsb is_open
    (List.flat_map
       (fun n => [FsIsdir (posixpath.join p n);
                  FsIslink (posixpath.join p n)]) names) = false.
Proof. induction names as [|n names IH]; [reflexivity|exact IH]. Qed.


(** X23. A GET or HEAD request for a directory (the URL path ends with
    a slash) without an index file, whose listing page cannot be encoded
    (the request path holds, once unquoted, a character the file system's
    encoding has no code for): the [UnicodeEncodeError] leaves the
    handler after the entries were probed; nothing is written to the
    client and no file is opened; the server reports the error and goes on
    with the connections that follow. *)
Theorem unencodable_listing_escapes dir req rest st c parts_path names :
  accepts env dir req st ->
  command st = Some c -> c = "GET" \/ c = "HEAD" ->
  let p := CORSHTTPRequestHandler.translate_path env dir (path st) in
  os_path_isdir env p = true ->
  urlsplit_path env (path st) = Some parts_path ->
  Py.endswith parts_path "/" = true ->
  os_path_isfile env (posixpath.join p "index.html") = false ->
  os_path_isfile env (posixpath.join p "index.htm") = false ->
  os_listdir env p = Some names ->
  listing_page env (path st) p
    (entries_of env p (SimpleHTTPRequestHandler.sort_by_lower names))
  = None ->
  let out :=
    CORSHTTPRequestHandler.handle_one_request env req (new_handler dir) in
  wfile out = [] /\ uncaught out = Some UnicodeEncodeError
  /\ existsb is_open (fs_trace out) = false
  /\ process_request dir (env, req :: rest)
     = ([Serve []; HandleError UnicodeEncodeError], None).
Proof.
  intros A C M p D U S I1 I2 L P out.
  destruct (accepts_clean A) as (W & B & F & Dir & _).
  set (probes :=
         flat_map (fun n => [FsIsdir (posixpath.join p n);
                             FsIslink (posixpath.join p n)])
           (SimpleHTTPRequestHandler.sort_by_lower names)).
  set (s0 := fs_calls [FsIsdir p; FsIsfile (posixpath.join p "index.html");
                       FsIsfile (posixpath.join p "index.htm");
                       FsListdir p] st).
  assert (E : SimpleHTTPRequestHandler.send_head env eh emap st
              = (None, raise_uncaught UnicodeEncodeError
                         (fs_calls probes s0))).
  { unfold SimpleHTTPRequestHandler.send_head, handler_path.
    rewrite Dir.
    change (SimpleHTTPRequestHandler.translate_path env dir (path st)) with p.
    rewrite D. fields. rewrite U, S. cbn [negb].
    rewrite (@find_index_none p _ I1 I2).
    unfold SimpleHTTPRequestHandler.list_directory. rewrite L.
    rewrite probe_entries_eq. fold probes.
    change (fs_call (FsListdir p)
              (fs_call (FsIsfile (posixpath.join p "index.htm"))
                 (fs_call (FsIsfile (posixpath.join p "index.html"))
                    (fs_call (FsIsdir p) st)))) with s0.
    assert (Q : handler_path (fs_calls probes s0) = path st)
      by (unfold s0, handler_path; rewrite !fs_calls_path; reflexivity).
    rewrite Q, P. reflexivity. }
  assert (R : out = raise_uncaught UnicodeEncodeError (fs_calls probes s0))
    by (unfold out; rewrite (answer_of_send_head A C M E); reflexivity).
  destruct (fs_calls_frame probes s0) as (F1 & _ & _ & _ & _ & _ & F7 & _).
  assert (F0 : fs_trace s0
               = [FsIsdir p; FsIsfile (posixpath.join p "index.html");
                  FsIsfile (posixpath.join p "index.htm"); FsListdir p])
    by (unfold s0; cbn; rewrite F; reflexivity).
  assert (W0 : wfile s0 = []) by exact W.
  assert (W1 : wfile out = []) by (rewrite R; fields; rewrite F1; exact W0).
  split; [exact W1|]. split; [rewrite R; reflexivity|]. split.
  - rewrite R. fields. rewrite F7, F0, existsb_app.
    apply existsb_is_open_probes.
  - unfold process_request, CORSHTTPRequestHandler.handle.
    change (set_close_connection true (new_handler dir))
      with (new_handler dir).
    cbn [CORSHTTPRequestHandler.handle_loop]. fold out. rewrite R.
    fields. rewrite F1, W0. reflexivity.
Qed.

(** X24. A GET or HEAD request whose path translates to a directory and
    is such that [urlsplit] raises [ValueError] on it: the exception
    leaves the handler after the one test whether the path is a
    directory; nothing is written to the client; the server reports the
    error and goes on with the connections that follow. *)
Theorem malformed_url_escapes dir req rest st c :
  accepts env dir req st ->
  command st = Some c -> c = "GET" \/ c = "HEAD" ->
  let p := CORSHTTPRequestHandler.translate_path env dir (path st) in
  os_path_isdir env p = true ->
  urlsplit_path env (path st) = None ->
  let out :=
    CORSHTTPRequestHandler.handle_one_request env req (new_handler dir) in
  wfile out = [] /\ uncaught out = Some ValueError
  /\ fs_trace out = [FsIsdir p]
  /\ process_request dir (env, req :: rest)
     = ([Serve []; HandleError ValueError], None).
Proof.
  intros A C M p D U out.
  destruct (accepts_clean A) as (W & B & F & Dir & _).
  assert (E : SimpleHTTPRequestHandler.send_head env eh emap st
              = (None, raise_uncaught ValueError (fs_call (FsIsdir p) st))).
  { unfold SimpleHTTPRequestHandler.send_head, handler_path.
    rewrite Dir.
    change (SimpleHTTPRequestHandler.translate_path env dir (path st)) with p.
    rewrite D. fields. rewrite U. reflexivity. }
  assert (R : out = raise_uncaught ValueError (fs_call (FsIsdir p) st))
    by (unfold out; rewrite (answer_of_send_head A C M E); reflexivity).
  assert (W1 : wfile out = []) by (rewrite R; exact W).
  split; [exact W1|]. split; [rewrite R; reflexivity|]. split.
  - rewrite R. fields. rewrite F. reflexivity.
  - unfold process_request, CORSHTTPRequestHandler.handle.
    change (set_close_connection true (new_handler dir))
      with (new_handler dir).
    cbn [CORSHTTPRequestHandler.handle_loop]. fold out. rewrite R.
    fields. rewrite W. reflexivity.
Qed.

End Replies.


Lemma not_modified_304_witness :
  let out :=
    CORSHTTPRequestHandler.handle_one_request Cases.env_validating
      Cases.revalidation (new_handler Sample.root) in
  wfile out
  = [Head (response_start Cases.env_validating 304 "Not Modified"
           ++ cors_headers ++ [BlankLine])]
  /\ fs_trace out
     = [FsIsdir "/srv/ebookta/web/app.js"; FsOpen "/srv/ebookta/web/app.js"].
Proof.
  apply (@not_modified_304 Cases.env_validating Sample.root
           Cases.revalidation
           (Cases.parsed_in Cases.env_validating Cases.revalidation)
           "GET" Sample.app_js).
  - accepted.
  - vm_compute; reflexivity.
  - left; reflexivity.
  - vm_compute; reflexivity.
  - vm_compute; reflexivity.
  - vm_compute; reflexivity.
  - vm_compute; reflexivity.
  - vm_compute; reflexivity.
Defined.

Lemma directory_without_slash_redirects_witness :
  let out :=
    CORSHTTPRequestHandler.handle_one_request Sample.env
      (Sample.request_of "GET /web HTTP/1.1") (new_handler Sample.root) in
  wfile out
  = [Head (response_start Sample.env 301 "Moved Permanently"
           ++ [ HeaderLine "Location" "/web/";
                HeaderLine "Content-Length" "0" ]
           ++ cors_headers ++ [BlankLine])]
  /\ fs_trace out = [FsIsdir "/srv/ebookta/web"].
Proof.
  apply (@directory_without_slash_redirects Sample.env Sample.root
           (Sample.request_of "GET /web HTTP/1.1")
           (Sample.parsed "GET /web HTTP/1.1") "GET" "/web").
  - accepted.
  - vm_compute; reflexivity.
  - left; reflexivity.
  - vm_compute; reflexivity.
  - vm_compute; reflexivity.
  - vm_compute; reflexivity.
  - vm_compute; reflexivity.
Defined.

Lemma unsupported_method_501_witness :
  let out :=
    CORSHTTPRequestHandler.handle_one_request Sample.env
      (Sample.request_of "POST /upload HTTP/1.1")
      (new_handler Sample.root) in
  let message := "Unsupported method ('POST')" in
  let page := "Error code: 501, message: Unsupported method ('POST')" in
  wfile out = [Head (error_head Sample.env 501 message page); Body page]
  /\ header_value (error_head Sample.env 501 message page)
       "Access-Control-Allow-Methods" = Some "GET, POST, OPTIONS"
  /\ fs_trace out = []
  /\ close_connection out = true.
Proof.
  apply (@unsupported_method_501 Sample.env Sample.root
           (Sample.request_of "POST /upload HTTP/1.1")
           (Sample.parsed "POST /upload HTTP/1.1") "POST").
  - accepted.
  - vm_compute; reflexivity.
  - discriminate.
  - discriminate.
  - discriminate.
  - vm_compute; reflexivity.
Defined.

Lemma request_line_too_long_414_witness :
  let out :=
    CORSHTTPRequestHandler.handle_one_request Sample.env
      Cases.long_request (new_handler Sample.root) in
  let page :=
    error_page Sample.env 414 "Request-URI Too Long" "URI is too long" in
  wfile out
  = Head (error_head Sample.env 414 "Request-URI Too Long" page)
    :: body_of page
  /\ fs_trace out = []
  /\ close_connection out = true.
Proof.
  apply (@request_line_too_long_414 Sample.env Sample.root
           Cases.long_request).
  vm_compute; reflexivity.
Defined.

Lemma open_error_escapes_witness :
  let out :=
    CORSHTTPRequestHandler.handle_one_request Sample.env
      Sample.nul_request (new_handler Sample.root) in
  wfile out = [] /\ uncaught out = Some ValueError
  /\ fs_trace out
     = [FsIsdir ("/srv/ebookta/" ++ String NUL "");
        FsOpen ("/srv/ebookta/" ++ String NUL "")]
  /\ forall before after,
      snd (serve_forever Sample.root before) = None ->
      serve_forever Sample.root
        (before ++ (Sample.env, [Sample.nul_request]) :: after)
      = ((fst (serve_forever Sample.root before)
          ++ [Serve []; HandleError ValueError]
          ++ fst (serve_forever Sample.root after))%list,
         snd (serve_forever Sample.root after)).
Proof.
  apply (@open_error_escapes Sample.env Sample.root Sample.nul_request []
           (Cases.parsed_in Sample.env Sample.nul_request) "GET").
  - accepted.
  - vm_compute; reflexivity.
  - left; reflexivity.
  - vm_compute; reflexivity.
  - vm_compute; reflexivity.
  - vm_compute; reflexivity.
Defined.

Lemma rejected_version_bare_page_witness :
  let out :=
    CORSHTTPRequestHandler.handle_one_request Sample.env
      (Sample.request_of "GET /web/index.html HTTP/2.0")
      (new_handler Sample.root) in
  wfile out = [Body "Error code: 505, message: Invalid HTTP version (2.0)"]
  /\ fs_trace out = []
  /\ close_connection out = true.
Proof.
  apply (@rejected_version_bare_page Sample.env Sample.root
           (Sample.request_of "GET /web/index.html HTTP/2.0")
           505 "Invalid HTTP version (2.0)"
           "HTTP Version Not Supported" "Cannot fulfill request").
  - vm_compute; discriminate.
  - vm_compute; lia.
  - vm_compute; reflexivity.
  - reflexivity.
Defined.


Lemma unencodable_listing_escapes_witness :
  let out :=
    CORSHTTPRequestHandler.handle_one_request Cases.env_strict
      (Sample.request_of "GET /?%ED%A0%80 HTTP/1.1")
      (new_handler Sample.root) in
  wfile out = [] /\ uncaught out = Some UnicodeEncodeError
  /\ existsb is_open (fs_trace out) = false
  /\ process_request Sample.root
       (Cases.env_strict, [Sample.request_of "GET /?%ED%A0%80 HTTP/1.1"])
     = ([Serve []; HandleError UnicodeEncodeError], None).
Proof.
  apply (@unencodable_listing_escapes Cases.env_strict Sample.root
           (Sample.request_of "GET /?%ED%A0%80 HTTP/1.1") []
           (Cases.parsed_in Cases.env_strict
              (Sample.request_of "GET /?%ED%A0%80 HTTP/1.1"))
           "GET" "/" ["web"; "notes.txt"; "LICENSE"]).
  - accepted.
  - vm_compute; reflexivity.
  - left; reflexivity.
  - vm_compute; reflexivity.
  - vm_compute; reflexivity.
  - vm_compute; reflexivity.
  - vm_compute; reflexivity.
  - vm_compute; reflexivity.
  - vm_compute; reflexivity.
  - vm_compute; reflexivity.
Defined.

Lemma malformed_url_escapes_witness :
  let out :=
    CORSHTTPRequestHandler.handle_one_request Cases.env_strict
      (Sample.request_of "GET a://[/../.. HTTP/1.1")
      (new_handler Sample.root) in
  wfile out = [] /\ uncaught out = Some ValueError
  /\ fs_trace out = [FsIsdir "/srv/ebookta"]
  /\ process_request Sample.root
       (Cases.env_strict, [Sample.request_of "GET a://[/../.. HTTP/1.1"])
     = ([Serve []; HandleError ValueError], None).
Proof.
  apply (@malformed_url_escapes Cases.env_strict Sample.root
           (Sample.request_of "GET a://[/../.. HTTP/1.1") []
           (Cases.parsed_in Cases.env_strict
              (Sample.request_of "GET a://[/../.. HTTP/1.1"))
           "GET").
  - accepted.
  - vm_compute; reflexivity.
  - left; reflexivity.
  - vm_compute; reflexivity.
  - vm_compute; reflexivity.
Defined.

(** *** Invariants of the response methods *)

Section Invariant.

Variable env : Env.

(** A property of the handler that the primitives keep: logging, file
    system calls, the status line, the headers the methods send, the flush
    of the head, and the body of an error page, which is not written for
    HEAD. *)
Variable P : handler -> Prop.

Hypothesis P_log : forall e st, P st -> P (log_message e st).
Hypothesis P_fs : forall e st, P st -> P (fs_call e st).
Hypothesis P_raise : forall e st, P st -> P (raise_uncaught e st).
Hypothesis P_status :
  forall c m st, P st -> P (BaseHTTPRequestHandler.send_response_only c m st).
Hypothesis P_header :
  forall k v st,
    String.eqb (Py.lower k) "connection" = false
    \/ (k = "Connection" /\ v = "close") ->
    P st -> P (BaseHTTPRequestHandler.send_header k v st).
Hypothesis P_flush :
  forall st, P st -> P (BaseHTTPRequestHandler.end_headers st).
Hypothesis P_page :
  forall d st,
    match command st with
    | Some c => String.eqb c "HEAD"
    | None => false
    end = false ->
    P st -> P (wfile_write (Body d) st).

Ltac inv_steps :=
  repeat match goal with
         | |- P (log_message _ _) => apply P_log
         | |- P (fs_call _ _) => apply P_fs
         | |- P (raise_uncaught _ _) => apply P_raise
         | |- P (BaseHTTPRequestHandler.send_response_only _ _ _) =>
             apply P_status
         | |- P (BaseHTTPRequestHandler.send_header _ _ _) =>
             apply P_header;
             [first [left; reflexivity | right; split; reflexivity]|]
         | |- P (BaseHTTPRequestHandler.end_headers _) => apply P_flush
         | |- P (BaseHTTPRequestHandler.send_response _ _ _ _) =>
             unfold BaseHTTPRequestHandler.send_response,
               BaseHTTPRequestHandler.log_request
         | |- P (CORSHTTPRequestHandler.end_headers _) =>
             unfold CORSHTTPRequestHandler.end_headers
         end.

Lemma kept_by_send_error code message explain st :
  P st ->
  P (BaseHTTPRequestHandler.send_error env eh code message explain st).
Proof.
  intros H. unfold BaseHTTPRequestHandler.send_error,
    BaseHTTPRequestHandler.log_error.
  destruct (match BaseHTTPRequestHandler.responses code with
            | Some p => p
            | None => ("???", "???")
            end) as [shortmsg longmsg].
  destruct ((200 <=? code)
            && negb ((code =? 204) || (code =? 205) || (code =? 304))).
  - match goal with
    | |- P (if negb ?h && negb ?e then _ else _) =>
        destruct h eqn:G; destruct e
    end; cbn [negb andb]; try (apply P_page; [exact G|]);
      inv_steps; exact H.
  - inv_steps. exact H.
Qed.

Lemma kept_by_probe_entries p names st :
  P st -> P (snd (SimpleHTTPRequestHandler.probe_entries env p names st)).
Proof.
  revert st. induction names as [|n names IH]; intros st H; [exact H|].
  cbn [SimpleHTTPRequestHandler.probe_entries].
  destruct (SimpleHTTPRequestHandler.probe_entries env p names _)
    as [es s1] eqn:E.
  cbn [snd]. change s1 with (snd (es, s1)). rewrite <- E.
  apply IH. inv_steps. exact H.
Qed.

Lemma kept_by_list_directory p st :
  P st -> P (snd (SimpleHTTPRequestHandler.list_directory env eh p st)).
Proof.
  intros H. unfold SimpleHTTPRequestHandler.list_directory.
  destruct (os_listdir env p) as [names|]; cbn [snd].
  - pose proof (@kept_by_probe_entries p
                  (SimpleHTTPRequestHandler.sort_by_lower names)
                  (fs_call (FsListdir p) st)) as K.
    destruct (SimpleHTTPRequestHandler.probe_entries env p _ _)
      as [es s1]. cbn [snd] in *.
    destruct (listing_page env _ _ es); cbn [snd];
      inv_steps; apply K; inv_steps; exact H.
  - apply kept_by_send_error. inv_steps. exact H.
Qed.

Lemma kept_by_find_index names p st :
  P st -> P (snd (SimpleHTTPRequestHandler.find_index env names p st)).
Proof.
  revert st. induction names as [|n names IH]; intros st H; [exact H|].
  cbn [SimpleHTTPRequestHandler.find_index].
  destruct (os_path_isfile env _); [cbn [snd]|apply IH]; inv_steps; exact H.
Qed.

Lemma kept_by_send_head_file p st :
  P st ->
  P (snd (SimpleHTTPRequestHandler.send_head_file env eh emap p st)).
Proof.
  intros H. unfold SimpleHTTPRequestHandler.send_head_file.
  destruct (Py.endswith p "/"); cbn [snd];
    [apply kept_by_send_error, H|].
  destruct (open_rb env p) as [f|[]]; cbn [snd].
  - destruct (_ && _); cbn [snd]; inv_steps; exact H.
  - apply kept_by_send_error. inv_steps. exact H.
  - inv_steps. exact H.
  - inv_steps. exact H.
  - inv_steps. exact H.
Qed.

Lemma kept_by_send_head st :
  P st -> P (snd (SimpleHTTPRequestHandler.send_head env eh emap st)).
Proof.
  intros H. unfold SimpleHTTPRequestHandler.send_head.
  destruct (os_path_isdir env _).
  - destruct (urlsplit_path env _) as [parts_path|];
      [|cbn [snd]; inv_steps; exact H].
    destruct (negb _); [cbn [snd]; inv_steps; exact H|].
    pose proof (@kept_by_find_index ["index.html"; "index.htm"]
                  (SimpleHTTPRequestHandler.translate_path env (directory st)
                     (handler_path st))
                  (fs_call
                     (FsIsdir
                        (SimpleHTTPRequestHandler.translate_path env
                           (directory st) (handler_path st))) st)) as K.
    destruct (SimpleHTTPRequestHandler.find_index env _ _ _)
      as [[index|] s1]; cbn [snd] in K.
    + apply kept_by_send_head_file, K. inv_steps. exact H.
    + apply kept_by_list_directory, K. inv_steps. exact H.
  - apply kept_by_send_head_file. inv_steps. exact H.
Qed.

Lemma kept_by_do_HEAD st :
  P st -> P (CORSHTTPRequestHandler.do_HEAD env st).
Proof.
  intros H. unfold CORSHTTPRequestHandler.do_HEAD,
    SimpleHTTPRequestHandler.do_HEAD.
  pose proof (kept_by_send_head H) as K.
  destruct (SimpleHTTPRequestHandler.send_head env eh emap st) as [[f|] s1];
    exact K.
Qed.

Lemma kept_by_do_OPTIONS st :
  P st -> P (CORSHTTPRequestHandler.do_OPTIONS env st).
Proof.
  intros H. unfold CORSHTTPRequestHandler.do_OPTIONS,
    CORSHTTPRequestHandler.send_response.
  inv_steps. exact H.
Qed.

(** [do_GET] writes the body whatever the command. *)
Hypothesis P_copy : forall d st, P st -> P (wfile_write (Body d) st).

Lemma kept_by_do_GET st :
  P st -> P (CORSHTTPRequestHandler.do_GET env st).
Proof.
  intros H. unfold CORSHTTPRequestHandler.do_GET,
    SimpleHTTPRequestHandler.do_GET, SimpleHTTPRequestHandler.copyfile.
  pose proof (kept_by_send_head H) as K.
  destruct (SimpleHTTPRequestHandler.send_head env eh emap st) as [[f|] s1];
    cbn [snd] in K; [apply P_copy|]; exact K.
Qed.

(** Whatever method an accepted request is dispatched to. *)
Lemma kept_by_dispatch dir req st :
  accepts env dir req st -> P st ->
  P (CORSHTTPRequestHandler.handle_one_request env req (new_handler dir)).
Proof.
  intros A H. pose proof A as [_ E].
  apply parse_request_frame in E. destruct E as (_ & _ & c & C).
  rewrite (handle_one_request_accepted A C).
  unfold CORSHTTPRequestHandler.getattr.
  destruct (String.eqb _ "do_GET"); [apply kept_by_do_GET, H|].
  destruct (String.eqb _ "do_HEAD"); [apply kept_by_do_HEAD, H|].
  destruct (String.eqb _ "do_OPTIONS"); [apply kept_by_do_OPTIONS, H|].
  apply kept_by_send_error, H.
Qed.

End Invariant.

(** *** One request for each connection *)

Section Closing.

Variable env : Env.

Lemma closing_header k v st :
  String.eqb (Py.lower k) "connection" = false
  \/ (k = "Connection" /\ v = "close") ->
  closing st -> closing (BaseHTTPRequestHandler.send_header k v st).
Proof.
  unfold closing, BaseHTTPRequestHandler.send_header.
  intros [E|[-> ->]] H.
  - rewrite E. destruct (negb _); exact H.
  - destruct (negb _); reflexivity.
Qed.

Lemma closing_status c m st :
  closing st -> closing (BaseHTTPRequestHandler.send_response_only c m st).
Proof.
  unfold closing, BaseHTTPRequestHandler.send_response_only.
  destruct (negb _); auto.
Qed.

Lemma closing_flush st :
  closing st -> closing (BaseHTTPRequestHandler.end_headers st).
Proof.
  unfold closing, BaseHTTPRequestHandler.end_headers.
  destruct (negb _); auto.
Qed.

Ltac closing_side :=
  first [ exact closing_header | exact closing_status | exact closing_flush
        | exact (fun _ _ H => H) | exact (fun _ _ _ H => H) ].

Lemma closing_send_error code message explain st :
  closing st ->
  closing (BaseHTTPRequestHandler.send_error env eh code message explain st).
Proof. apply (@kept_by_send_error env closing); closing_side. Qed.

Lemma parse_request_version_closes words st ok st' :
  BaseHTTPRequestHandler.parse_request_version env eh words st = (ok, st') ->
  closing st -> closing st'.
Proof.
  unfold BaseHTTPRequestHandler.parse_request_version.
  rewrite protocol_below_11.
  destruct (3 <=? length words)%nat;
    [|intros E H; inversion E; subst; exact H].
  destruct (BaseHTTPRequestHandler.parse_version env _) as [[base vn]|];
    [|intros E H; inversion E; subst; apply closing_send_error, H].
  rewrite andb_false_r.
  destruct (BaseHTTPRequestHandler.tuple_ge vn (2, 0));
    intros E H; inversion E; subst;
    [apply closing_send_error, H|exact H].
Qed.

Lemma parse_request_headers_closes fields st ok st' :
  BaseHTTPRequestHandler.parse_request_headers env eh fields st = (ok, st') ->
  closing st -> closing st'.
Proof.
  unfold BaseHTTPRequestHandler.parse_request_headers.
  rewrite protocol_below_11.
  destruct fields as [fields|err|err];
    [|intros E H; inversion E; subst; apply closing_send_error, H ..].
  rewrite !andb_false_r. cbn beta iota zeta.
  intros E H. inversion E; subst.
  destruct (String.eqb (Py.lower _) "close"); [reflexivity|exact H].
Qed.

Lemma parse_request_closes req st ok st' :
  BaseHTTPRequestHandler.parse_request env eh req st = (ok, st') ->
  closing st'.
Proof.
  unfold BaseHTTPRequestHandler.parse_request. cbn beta iota zeta.
  destruct (_ =? 0)%nat; [intros E; inversion E; reflexivity|].
  destruct (BaseHTTPRequestHandler.parse_request_version _ _ _ _)
    as [ok1 s1] eqn:V.
  apply parse_request_version_closes in V; [|reflexivity].
  destruct ok1; cbn [negb]; [|intros E; inversion E; subst; exact V].
  destruct (negb _);
    [intros E; inversion E; apply closing_send_error, V|].
  destruct (_ && _);
    [intros E; inversion E; apply closing_send_error;
     destruct (_ =? 2)%nat; [reflexivity|exact V]|].
  intros E. apply parse_request_headers_closes in E; [exact E|].
  destruct (Py.startswith _ _); destruct (_ =? 2)%nat;
    first [exact V | reflexivity].
Qed.

Lemma handle_one_request_closes req st :
  closing st ->
  closing (CORSHTTPRequestHandler.handle_one_request env req st).
Proof.
  intros H. unfold CORSHTTPRequestHandler.handle_one_request,
    BaseHTTPRequestHandler.handle_one_request.
  destruct (65536 <? _); [apply closing_send_error, H|].
  destruct (String.eqb _ ""); [reflexivity|].
  destruct (BaseHTTPRequestHandler.parse_request env eh req st)
    as [ok s1] eqn:E.
  apply parse_request_closes in E.
  destruct ok; cbn [negb]; [|exact E].
  destruct (command s1) as [c|]; [|exact E].
  unfold CORSHTTPRequestHandler.getattr.
  destruct (String.eqb _ "do_GET");
    [apply (@kept_by_do_GET env closing); solve [closing_side | exact E]|].
  destruct (String.eqb _ "do_HEAD");
    [apply (@kept_by_do_HEAD env closing); solve [closing_side | exact E]|].
  destruct (String.eqb _ "do_OPTIONS");
    [apply (@kept_by_do_OPTIONS env closing);
     solve [closing_side | exact E]|].
  apply closing_send_error, E.
Qed.

(** X13. The handler answers one request for each connection: whatever the
    first request is (an HTTP/1.1 request with [Connection: keep-alive]
    included), [handle] ends after it with the connection to be closed,
    and the requests that follow on the connection are not read. *)
Theorem one_request_per_connection req rest st :
  CORSHTTPRequestHandler.handle env (req :: rest) st
  = CORSHTTPRequestHandler.handle_one_request env req
      (set_close_connection true st)
  /\ close_connection (CORSHTTPRequestHandler.handle env (req :: rest) st)
     = true.
Proof.
  assert (H : closing (CORSHTTPRequestHandler.handle_one_request env req
                         (set_close_connection true st)))
    by (apply handle_one_request_closes; reflexivity).
  assert (E : CORSHTTPRequestHandler.handle env (req :: rest) st
              = CORSHTTPRequestHandler.handle_one_request env req
                  (set_close_connection true st)).
  { unfold CORSHTTPRequestHandler.handle.
    cbn [CORSHTTPRequestHandler.handle_loop].
    unfold closing in H. rewrite H. destruct (uncaught _); reflexivity. }
  split; [exact E|]. rewrite E. exact H.
Qed.

End Closing.

(** *** Requests read as HTTP/0.9, and HEAD requests *)

Section HeadlessAndBodiless.

Variable env : Env.

Lemma send_response_only_version c m st :
  request_version (BaseHTTPRequestHandler.send_response_only c m st)
  = request_version st.
Proof.
  unfold BaseHTTPRequestHandler.send_response_only.
  destruct (negb _); reflexivity.
Qed.

Lemma headless_header k v st :
  headless st -> headless (BaseHTTPRequestHandler.send_header k v st).
Proof.
  unfold headless. rewrite v09_send_header, send_header_wfile. auto.
Qed.

Lemma headless_status c m st :
  headless st -> headless (BaseHTTPRequestHandler.send_response_only c m st).
Proof.
  unfold headless, v09.
  rewrite send_response_only_version, send_response_only_wfile. auto.
Qed.

Lemma headless_flush st :
  headless st -> headless (BaseHTTPRequestHandler.end_headers st).
Proof.
  unfold headless, v09, BaseHTTPRequestHandler.end_headers.
  intros [V H]. rewrite V. split; assumption.
Qed.

Lemma headless_body d st : headless st -> headless (wfile_write (Body d) st).
Proof.
  unfold headless. intros [V H]. split; [exact V|].
  fields. rewrite heads_app, H. reflexivity.
Qed.

Ltac headless_side :=
  first [ exact (fun k v st _ => @headless_header k v st)
        | exact headless_status | exact headless_flush
        | exact headless_body
        | exact (fun d st _ => @headless_body d st)
        | exact (fun _ _ H => H) | exact (fun _ _ _ H => H) ].

(** X14. A request accepted as HTTP/0.9, whatever its command, gets no
    head at all in reply: no status line and no header, the CORS headers
    included; only body bytes, if anything. *)
Theorem http09_reply_has_no_head dir req st :
  accepts env dir req st ->
  v09 st = true ->
  heads (wfile (CORSHTTPRequestHandler.handle_one_request env req
                  (new_handler dir))) = [].
Proof.
  intros A V. destruct (accepts_clean A) as (W & _).
  assert (H : headless st) by (split; [exact V|rewrite W; reflexivity]).
  apply (@kept_by_dispatch env headless) with (dir := dir) (req := req) in H;
    [exact (proj2 H)|headless_side ..|exact A].
Qed.

Lemma send_header_command k v st :
  command (BaseHTTPRequestHandler.send_header k v st) = command st.
Proof. unfold BaseHTTPRequestHandler.send_header. destr; reflexivity. Qed.

Lemma send_response_only_command c m st :
  command (BaseHTTPRequestHandler.send_response_only c m st) = command st.
Proof.
  unfold BaseHTTPRequestHandler.send_response_only.
  destruct (negb _); reflexivity.
Qed.

Lemma bodiless_header k v st :
  bodiless st -> bodiless (BaseHTTPRequestHandler.send_header k v st).
Proof.
  unfold bodiless. rewrite send_header_command, send_header_wfile. auto.
Qed.

Lemma bodiless_status c m st :
  bodiless st -> bodiless (BaseHTTPRequestHandler.send_response_only c m st).
Proof.
  unfold bodiless.
  rewrite send_response_only_command, send_response_only_wfile. auto.
Qed.

Lemma bodiless_flush st :
  bodiless st -> bodiless (BaseHTTPRequestHandler.end_headers st).
Proof.
  unfold bodiless, BaseHTTPRequestHandler.end_headers,
    BaseHTTPRequestHandler.flush_headers.
  intros [C H]. destruct (negb _); [|split; assumption].
  fields. split; [exact C|]. rewrite existsb_app, H. reflexivity.
Qed.

Lemma bodiless_page d st :
  match command st with
  | Some c => String.eqb c "HEAD"
  | None => false
  end = false ->
  bodiless st -> bodiless (wfile_write (Body d) st).
Proof. intros G [C _]. rewrite C in G. discriminate G. Qed.

Ltac bodiless_side :=
  first [ exact (fun k v st _ => @bodiless_header k v st)
        | exact bodiless_status | exact bodiless_flush
        | exact bodiless_page
        | exact (fun _ _ H => H) | exact (fun _ _ _ H => H) ].

(** X15. An accepted HEAD request gets no body in reply, whatever the
    path comes to: a file, a directory listing, a redirection or an
    error. *)
Theorem head_request_gets_no_body dir req st :
  accepts env dir req st ->
  command st = Some "HEAD" ->
  existsb is_body
    (wfile (CORSHTTPRequestHandler.handle_one_request env req
              (new_handler dir))) = false.
Proof.
  intros A C. destruct (accepts_clean A) as (W & _).
  rewrite (handle_one_request_accepted A C).
  change (CORSHTTPRequestHandler.getattr env ("do_" ++ "HEAD"))
    with (Some (CORSHTTPRequestHandler.do_HEAD env)).
  cbn beta iota.
  assert (H : bodiless st) by (split; [exact C|rewrite W; reflexivity]).
  apply (@kept_by_do_HEAD env bodiless) in H;
    [exact (proj2 H)|bodiless_side ..].
Qed.

End HeadlessAndBodiless.

(** *** One head for each reply *)

Section OneHead.

Variable env : Env.

Lemma send_header_uncaught k v st :
  uncaught (BaseHTTPRequestHandler.send_header k v st) = uncaught st.
Proof. unfold BaseHTTPRequestHandler.send_header. destr; reflexivity. Qed.

Lemma started_header k v st :
  Py.startswith (Py.lower k) "access-control-" = false ->
  started st -> started (BaseHTTPRequestHandler.send_header k v st).
Proof.
  intros K (V & W & U & c & m & hs & B & N). unfold started.
  rewrite v09_send_header, send_header_wfile, send_header_uncaught,
    send_header_buffer, V, B.
  repeat split; try assumption.
  exists c, m, (hs ++ [HeaderLine k v])%list. split; [reflexivity|].
  rewrite existsb_app, N. cbn [existsb is_cors_header]. rewrite K.
  reflexivity.
Qed.

Ltac headers_on :=
  repeat match goal with
         | |- started (BaseHTTPRequestHandler.send_header _ _ _) =>
             apply started_header; [reflexivity|]
         end.

Lemma unanswered_send_response code m st :
  unanswered st ->
  started (BaseHTTPRequestHandler.send_response env code (Some m) st).
Proof.
  intros (V & W & B & U). rewrite send_response_eq by exact V.
  unfold started, v09 in *. fields. rewrite B.
  repeat split; try assumption. do 3 eexists. split; reflexivity.
Qed.

Lemma unanswered_send_response_default code phrase description st :
  BaseHTTPRequestHandler.responses code = Some (phrase, description) ->
  unanswered st ->
  started (BaseHTTPRequestHandler.send_response env code None st).
Proof.
  intros R (V & W & B & U).
  rewrite (@send_response_default env code phrase description)
    by assumption.
  unfold started, v09 in *. fields. rewrite B.
  repeat split; try assumption. do 3 eexists. split; reflexivity.
Qed.

Lemma started_end_headers st : started st -> answered (eh st).
Proof.
  intros (V & W & U & c & m & hs & B & N). rewrite end_headers_eq by exact V.
  unfold answered. fields. rewrite W, B. split; [exact U|].
  exists c, m, hs, []. repeat split. exact N.
Qed.

Lemma answered_body d st : answered st -> answered (wfile_write (Body d) st).
Proof.
  intros (U & c & m & hs & bodies & W & N & H). split; [exact U|].
  fields. rewrite W. exists c, m, hs, (bodies ++ [Body d])%list.
  split; [reflexivity|]. split; [exact N|].
  rewrite heads_app, H. reflexivity.
Qed.

Lemma unanswered_fs_calls evs st : unanswered st -> unanswered (fs_calls evs st).
Proof.
  intros (V & W & B & U).
  destruct (fs_calls_frame evs st) as (F1 & F2 & F3 & _ & _ & _ & _ & F8).
  unfold unanswered, v09 in *. rewrite F1, F2, F3, F8. repeat split; assumption.
Qed.

Lemma unanswered_send_error code message explain st :
  unanswered st ->
  answered
    (BaseHTTPRequestHandler.send_error env eh code message explain st).
Proof.
  intros H. unfold BaseHTTPRequestHandler.send_error,
    BaseHTTPRequestHandler.log_error.
  destruct (match BaseHTTPRequestHandler.responses code with
            | Some p => p
            | None => ("???", "???")
            end) as [shortmsg longmsg].
  destruct ((200 <=? code) && _).
  - match goal with
    | |- answered (if ?b then _ else _) => destruct b
    end; [apply answered_body|];
      apply started_end_headers; headers_on;
      apply unanswered_send_response; exact H.
  - apply started_end_headers. headers_on.
    apply unanswered_send_response. exact H.
Qed.

Lemma unanswered_list_directory p st :
  unanswered st ->
  let r := SimpleHTTPRequestHandler.list_directory env eh p st in
  (answered (snd r))
  \/ (fst r = None /\ wfile (snd r) = [] /\ uncaught (snd r) <> None).
Proof.
  intros H. unfold SimpleHTTPRequestHandler.list_directory.
  destruct (os_listdir env p) as [names|]; cbn zeta; cbn [snd];
    [|left; apply unanswered_send_error; exact H].
  rewrite probe_entries_eq.
  pose proof (@unanswered_fs_calls
                (List.flat_map
                   (fun n => [FsIsdir (posixpath.join p n);
                              FsIslink (posixpath.join p n)])
                   (SimpleHTTPRequestHandler.sort_by_lower names))
                (fs_call (FsListdir p) st) H) as K.
  destruct (listing_page env _ _ _) as [encoded|]; cbn [fst snd].
  - left. apply started_end_headers. headers_on.
    apply (@unanswered_send_response_default 200 "OK"
             "Request fulfilled, document follows"); [reflexivity|exact K].
  - right. destruct K as (_ & W & _).
    repeat split; [exact W|discriminate].
Qed.

Lemma unanswered_send_head_file p st :
  unanswered st ->
  let r := SimpleHTTPRequestHandler.send_head_file env eh emap p st in
  (answered (snd r))
  \/ (fst r = None /\ wfile (snd r) = [] /\ uncaught (snd r) <> None).
Proof.
  intros H. unfold SimpleHTTPRequestHandler.send_head_file.
  destruct (Py.endswith p "/"); cbn zeta;
    [left; apply unanswered_send_error; exact H|].
  destruct (open_rb env p) as [f|e]; cbn [fst snd].
  - left. destruct (_ && _); cbn [snd].
    + apply started_end_headers.
      apply (@unanswered_send_response_default 304 "Not Modified"
               "Document has not changed since given time");
        [reflexivity|exact H].
    + apply started_end_headers. headers_on.
      apply (@unanswered_send_response_default 200 "OK"
               "Request fulfilled, document follows");
        [reflexivity|exact H].
  - destruct e; cbn [fst snd];
      [left; apply unanswered_send_error; exact H|right ..];
      destruct H as (_ & W & _); (repeat split; [exact W|discriminate]).
Qed.

Lemma unanswered_send_head st :
  unanswered st ->
  let r := SimpleHTTPRequestHandler.send_head env eh emap st in
  (answered (snd r))
  \/ (fst r = None /\ wfile (snd r) = [] /\ uncaught (snd r) <> None).
Proof.
  intros H. unfold SimpleHTTPRequestHandler.send_head.
  destruct (os_path_isdir env _).
  - destruct (urlsplit_path env _) as [parts_path|]; cbn zeta.
    + destruct (negb _).
      * left. cbn [snd]. apply started_end_headers.
        headers_on.
        apply (@unanswered_send_response_default 301 "Moved Permanently"
                 "Object moved permanently -- see URI list");
          [reflexivity|exact H].
      * destruct (SimpleHTTPRequestHandler.find_index env _ _ _)
          as [[index|] s1] eqn:F;
          apply find_index_calls in F; destruct F as (evs & -> & _).
        -- apply unanswered_send_head_file, unanswered_fs_calls. exact H.
        -- apply unanswered_list_directory, unanswered_fs_calls. exact H.
    + right. cbn [fst snd]. destruct H as (_ & W & _).
      repeat split; [exact W|discriminate].
  - apply unanswered_send_head_file. exact H.
Qed.

(** Whatever method a request is dispatched to. *)
Lemma unanswered_method c st :
  unanswered st ->
  replied
    match CORSHTTPRequestHandler.getattr env ("do_" ++ c) with
    | Some method => method st
    | None =>
        BaseHTTPRequestHandler.send_error env eh 501
          (Some ("Unsupported method (" ++ repr env c ++ ")")) None st
    end.
Proof.
  intros H. unfold CORSHTTPRequestHandler.getattr.
  pose proof (unanswered_send_head H) as K. cbn zeta in K.
  destruct (String.eqb _ "do_GET").
  { unfold CORSHTTPRequestHandler.do_GET, SimpleHTTPRequestHandler.do_GET,
      SimpleHTTPRequestHandler.copyfile.
    destruct (SimpleHTTPRequestHandler.send_head env eh emap st)
      as [[f|] s1]; cbn [fst snd] in K.
    - left. apply answered_body.
      destruct K as [K|(K & _)]; [exact K|discriminate K].
    - destruct K as [K|(_ & K)]; [left; exact K|right; exact K]. }
  destruct (String.eqb _ "do_HEAD").
  { unfold CORSHTTPRequestHandler.do_HEAD, SimpleHTTPRequestHandler.do_HEAD.
    destruct (SimpleHTTPRequestHandler.send_head env eh emap st)
      as [[f|] s1]; cbn [fst snd] in K.
    - left. destruct K as [K|(K & _)]; [exact K|discriminate K].
    - destruct K as [K|(_ & K)]; [left; exact K|right; exact K]. }
  destruct (String.eqb _ "do_OPTIONS").
  { left. unfold CORSHTTPRequestHandler.do_OPTIONS,
      CORSHTTPRequestHandler.send_response.
    apply started_end_headers.
    apply (@unanswered_send_response_default 200 "OK"
             "Request fulfilled, document follows"); [reflexivity|exact H]. }
  left. apply unanswered_send_error. exact H.
Qed.


(** The version of the request stays as it was read. *)
Lemma end_headers_version st :
  request_version (BaseHTTPRequestHandler.end_headers st)
  = request_version st.
Proof.
  unfold BaseHTTPRequestHandler.end_headers,
    BaseHTTPRequestHandler.flush_headers.
  destruct (negb _); reflexivity.
Qed.

Ltac version_side :=
  first [ intros ? ? ? _ <-; apply send_header_version
        | intros ? ? ? <-; apply send_response_only_version
        | intros ? <-; apply end_headers_version
        | intros ? ? ? <-; reflexivity
        | intros ? ? <-; reflexivity ].

Lemma send_error_version code message explain st :
  request_version
    (BaseHTTPRequestHandler.send_error env eh code message explain st)
  = request_version st.
Proof.
  pose (P := fun s => request_version s = request_version st).
  change (P (BaseHTTPRequestHandler.send_error env eh code message explain
               st)).
  apply (@kept_by_send_error env P); unfold P;
    solve [version_side | reflexivity].
Qed.

Lemma dispatch_version dir req st :
  accepts env dir req st ->
  request_version
    (CORSHTTPRequestHandler.handle_one_request env req (new_handler dir))
  = request_version st.
Proof.
  intros A.
  pose (P := fun s => request_version s = request_version st).
  change (P (CORSHTTPRequestHandler.handle_one_request env req
               (new_handler dir))).
  apply (@kept_by_dispatch env P) with (st := st); unfold P;
    solve [version_side | reflexivity | exact A].
Qed.

(** An error sent before anything else: a bare page for HTTP/0.9, one
    response otherwise. *)
Lemma pristine_send_error code message explain st :
  pristine st ->
  let s := BaseHTTPRequestHandler.send_error env eh code message explain st in
  v09 s = true \/ answered s.
Proof.
  intros (W & B & U). cbn zeta. destruct (v09 st) eqn:V.
  - left. unfold v09 in *. rewrite send_error_version. exact V.
  - right. apply unanswered_send_error. repeat split; assumption.
Qed.

Lemma parse_request_version_rejected words st s :
  BaseHTTPRequestHandler.parse_request_version env eh words st = (false, s) ->
  v09 st = true -> v09 s = true.
Proof.
  unfold BaseHTTPRequestHandler.parse_request_version.
  rewrite protocol_below_11.
  destruct (3 <=? length words)%nat; [|intros E; discriminate E].
  destruct (BaseHTTPRequestHandler.parse_version env _) as [[base vn]|].
  - rewrite andb_false_r.
    destruct (BaseHTTPRequestHandler.tuple_ge vn (2, 0));
      intros E V; inversion E; subst.
    unfold v09 in *. rewrite send_error_version. exact V.
  - intros E V; inversion E; subst.
    unfold v09 in *. rewrite send_error_version. exact V.
Qed.

Lemma parse_request_headers_rejected fields st s :
  BaseHTTPRequestHandler.parse_request_headers env eh fields st = (false, s) ->
  pristine st -> v09 s = true \/ answered s.
Proof.
  unfold BaseHTTPRequestHandler.parse_request_headers.
  rewrite protocol_below_11.
  destruct fields as [fields|err|err];
    [|intros E H; inversion E; subst; apply pristine_send_error, H ..].
  rewrite !andb_false_r. cbn beta iota zeta. intros E; discriminate E.
Qed.

(** A request [parse_request] rejects is not answered, or is answered
    with a bare page, or with one response. *)
Lemma parse_request_rejected req st s :
  pristine st ->
  BaseHTTPRequestHandler.parse_request env eh req st = (false, s) ->
  v09 s = true \/ answered s.
Proof.
  intros H. unfold BaseHTTPRequestHandler.parse_request.
  cbn beta iota zeta.
  destruct (_ =? 0)%nat; [intros E; inversion E; left; reflexivity|].
  destruct (BaseHTTPRequestHandler.parse_request_version _ _ _ _)
    as [ok1 s1] eqn:V.
  destruct ok1; cbn [negb].
  - apply parse_request_version_ok in V.
    destruct V as ((V1 & V2 & _ & _ & _ & V3) & _).
    assert (H1 : pristine s1).
    { destruct H as (W & B & U). fields. repeat split; congruence. }
    destruct (negb _);
      [intros E; inversion E; apply pristine_send_error, H1|].
    destruct (_ && _).
    + intros E; inversion E. apply pristine_send_error.
      destruct (_ =? 2)%nat; exact H1.
    + intros E. apply parse_request_headers_rejected in E; [exact E|].
      destruct (Py.startswith _ _); destruct (_ =? 2)%nat; exact H1.
  - intros E; inversion E; subst. left.
    apply (parse_request_version_rejected _ _ V). reflexivity.
Qed.

(** Every request that leaves the handler with a version other than
    HTTP/0.9 is answered with one response, unless an exception leaves the
    handler: accepted or not, and whatever the method, the path and the
    status. *)
Lemma versioned_request_replied dir req :
  raw_requestline req <> "" ->
  let out :=
    CORSHTTPRequestHandler.handle_one_request env req (new_handler dir) in
  v09 out = false -> replied out.
Proof.
  intros Q out V.
  destruct (65536 <? Py.len (raw_requestline req)) eqn:T.
  { left. unfold out, CORSHTTPRequestHandler.handle_one_request,
      BaseHTTPRequestHandler.handle_one_request. rewrite T.
    apply unanswered_send_error. repeat split. }
  destruct (CORSHTTPRequestHandler.parse_request env req (new_handler dir))
    as [[] s1] eqn:E.
  - assert (A : accepts env dir req s1)
      by (split; [apply Z.ltb_ge in T; exact T|exact E]).
    destruct (accepts_clean A) as (W & B & _ & _ & _ & U).
    assert (H : unanswered s1).
    { repeat split; try assumption.
      unfold v09 in *. unfold out in V. rewrite (dispatch_version A) in V.
      exact V. }
    pose proof E as F. apply parse_request_frame in F.
    destruct F as (_ & _ & c & C).
    unfold out. rewrite (handle_one_request_accepted A C).
    exact (unanswered_method c H).
  - assert (O : out = s1).
    { unfold out, CORSHTTPRequestHandler.handle_one_request,
        BaseHTTPRequestHandler.handle_one_request. rewrite T.
      apply String.eqb_neq in Q. rewrite Q.
      unfold CORSHTTPRequestHandler.parse_request in E. rewrite E.
      reflexivity. }
    apply parse_request_rejected in E; [|repeat split].
    rewrite O in *. destruct E as [E|E]; [congruence|left; exact E].
Qed.

End OneHead.

Lemma http09_reply_has_no_head_witness :
  heads (wfile (CORSHTTPRequestHandler.handle_one_request Sample.env
                  (Sample.request_of "GET /web/index.html")
                  (new_handler Sample.root))) = [].
Proof.
  apply (@http09_reply_has_no_head Sample.env Sample.root
           (Sample.request_of "GET /web/index.html")
           (Sample.parsed "GET /web/index.html")).
  - accepted.
  - vm_compute; reflexivity.
Defined.

Lemma head_request_gets_no_body_witness :
  existsb is_body
    (wfile (CORSHTTPRequestHandler.handle_one_request Sample.env
              (Sample.request_of "HEAD /web/missing.xyz HTTP/1.1")
              (new_handler Sample.root))) = false.
Proof.
  apply (@head_request_gets_no_body Sample.env Sample.root
           (Sample.request_of "HEAD /web/missing.xyz HTTP/1.1")
           (Sample.parsed "HEAD /web/missing.xyz HTTP/1.1")).
  - accepted.
  - vm_compute; reflexivity.
Defined.


Section NamesAndRoot.

Variable env : Env.

(** X17. A file name that is a stem (no slash, not made of dots only)
    followed by an extension that, in lower case, is a non-empty key of
    the table: [splitext] splits the name at that extension, and
    [guess_type] gives the table's type for it, whatever the case of the
    extension, the directory part and the system's [mimetypes]
    database. *)
Theorem content_type_by_file_name d stem ext E M :
  In (E, M) CORSHTTPRequestHandler.extensions_map ->
  E <> "" ->
  Py.lower ext = E ->
  lacks "/" stem -> all_dots stem = false ->
  posixpath.splitext (d ++ stem ++ ext) = (d ++ stem, ext)
  /\ CORSHTTPRequestHandler.guess_type env (d ++ stem ++ ext) = M.
Proof.
  intros I N L S1 S2.
  destruct (listed_extension_shape ext I N L) as (e & -> & E1 & E2).
  pose proof (splitext_name d S1 S2 E1 E2) as X.
  split; [exact X|].
  apply (guess_type_lowered env _ I). rewrite X. exact L.
Qed.

(** X18. [translate_path] looks at the part of the request path before
    the first [?] or [#] only: a query string or a fragment does not change
    the file a request is mapped to. *)
Theorem query_and_fragment_ignored dir p c q :
  c = "?"%char \/ c = "#"%char ->
  lacks "?" p -> lacks "#" p ->
  CORSHTTPRequestHandler.translate_path env dir (p ++ String c q)
  = CORSHTTPRequestHandler.translate_path env dir p.
Proof.
  intros C Q F. unfold CORSHTTPRequestHandler.translate_path,
    SimpleHTTPRequestHandler.translate_path.
  rewrite (path_before_query_and_fragment q C Q F).
  rewrite (path_without_query_or_fragment Q F). reflexivity.
Qed.

Lemma lstrip_by_head f s :
  match Py.lstrip_by f s with
  | String c _ => f c = false
  | EmptyString => True
  end.
Proof.
  induction s as [|c s IH]; cbn [Py.lstrip_by]; [exact I|].
  destruct (f c) eqn:E; [exact IH|exact E].
Qed.

Lemma parse_request_version_path words st st' ok :
  BaseHTTPRequestHandler.parse_request_version env eh words st = (ok, st') ->
  ok = true -> path st' = path st.
Proof.
  unfold BaseHTTPRequestHandler.parse_request_version.
  rewrite protocol_below_11.
  destruct (3 <=? length words)%nat;
    [|intros E _; inversion E; reflexivity].
  destruct (BaseHTTPRequestHandler.parse_version env _) as [[base vn]|];
    [|intros E O; inversion E; congruence].
  rewrite andb_false_r.
  destruct (BaseHTTPRequestHandler.tuple_ge vn (2, 0));
    intros E O; inversion E; [congruence|reflexivity].
Qed.

Lemma parse_request_headers_path fields st st' :
  BaseHTTPRequestHandler.parse_request_headers env eh fields st = (true, st') ->
  path st' = path st.
Proof.
  unfold BaseHTTPRequestHandler.parse_request_headers.
  rewrite protocol_below_11.
  destruct fields as [fields|err|err]; [|intros E; discriminate E ..].
  rewrite !andb_false_r. cbn beta iota zeta.
  intros E. inversion E; subst.
  destruct (String.eqb (Py.lower _) "close"); reflexivity.
Qed.

(** X20. The path of an accepted request never starts with two slashes:
    it is the second word of the request line, but that when the word
    starts with two slashes, [parse_request] replaces its leading slashes
    by a single one. *)
Theorem leading_slashes_collapsed dir req st :
  accepts env dir req st ->
  let target :=
    List.nth 1 (Py.split_ws (Py.rstrip (raw_requestline req) CRLF)) "" in
  path st
  = (if Py.startswith target "//" then "/" ++ Py.lstrip target "/"
     else target)
  /\ Py.startswith (path st) "//" = false.
Proof.
  intros [_ E] target.
  assert (P : path st
              = if Py.startswith target "//"
                then "/" ++ Py.lstrip target "/" else target).
  { revert E. unfold CORSHTTPRequestHandler.parse_request,
      BaseHTTPRequestHandler.parse_request. cbn beta iota zeta.
    fold target.
    destruct (_ =? 0)%nat; [discriminate|].
    destruct (BaseHTTPRequestHandler.parse_request_version _ _ _ _)
      as [ok s1] eqn:V.
    destruct ok; cbn [negb]; [|discriminate].
    destruct (negb _); [discriminate|].
    destruct (_ && _); [discriminate|].
    intros E. apply parse_request_headers_path in E. rewrite E.
    destruct (Py.startswith target "//"); reflexivity. }
  split; [exact P|]. rewrite P.
  destruct (Py.startswith target "//") eqn:T; [|exact T].
  change ("/" ++ Py.lstrip target "/") with (String "/" (Py.lstrip target "/")).
  rewrite startswith_double_sep. unfold Py.lstrip.
  pose proof (lstrip_by_head (Py.among "/") target) as X.
  destruct (Py.lstrip_by (Py.among "/") target) as [|c r]; [reflexivity|].
  unfold Py.startswith. cbn [String.prefix].
  destruct (ascii_dec "/" c) as [<-|_]; [discriminate X|reflexivity].
Qed.

(** X21. When the script is [d/sub/name], the directory served is [d],
    the parent of the directory that holds the script, wherever the
    process was started from: [run_server] changes to [d] first, and each
    connection is handled by a handler made for [d]. *)
Theorem served_root_is_grandparent w d sub name :
  abspath_file w = d ++ "/" ++ sub ++ "/" ++ name ->
  d <> "" -> Py.endswith d "/" = false ->
  sub <> "" -> lacks "/" sub -> lacks "/" name ->
  DIRECTORY w = d
  /\ (exists rest, fst (run_server w) = Chdir d :: rest)
  /\ forall r,
      In r (responses_of (fst (run_server w))) ->
      exists e rfile,
        In (e, rfile) (accepted w)
        /\ r = wfile (CORSHTTPRequestHandler.handle e rfile (new_handler d)).
Proof.
  intros A D1 D2 S1 S2 N.
  assert (E : DIRECTORY w = d).
  { unfold DIRECTORY. rewrite A.
    change (d ++ "/" ++ sub ++ "/" ++ name)
      with (d ++ "/" ++ sub ++ String "/" name).
    rewrite <- !append_assoc.
    rewrite (@dirname_child ((d ++ "/") ++ sub) name).
    - rewrite append_assoc. apply dirname_child; assumption.
    - rewrite append_assoc. apply append_not_empty, D1.
    - apply endswith_name; assumption.
    - exact N. }
  split; [exact E|]. split.
  - rewrite <- E.
    destruct (run_server_trace w) as [->|[->|(tail & -> & _)]];
      eexists; reflexivity.
  - intros r I. rewrite <- E. apply served_response_is_handled, I.
Qed.





End NamesAndRoot.

Lemma content_type_by_file_name_witness :
  posixpath.splitext "/srv/ebookta/web/Guide.HTML"
  = ("/srv/ebookta/web/Guide", ".HTML")
  /\ CORSHTTPRequestHandler.guess_type Sample.env
       "/srv/ebookta/web/Guide.HTML" = "text/html".
Proof.
  apply (@content_type_by_file_name Sample.env "/srv/ebookta/web/" "Guide"
           ".HTML" ".html" "text/html").
  - right; left; reflexivity.
  - discriminate.
  - reflexivity.
  - absent.
  - reflexivity.
Defined.

Lemma query_and_fragment_ignored_witness :
  CORSHTTPRequestHandler.translate_path Sample.env Sample.root
    "/web/app.js?v=2"
  = CORSHTTPRequestHandler.translate_path Sample.env Sample.root
      "/web/app.js".
Proof.
  apply (@query_and_fragment_ignored Sample.env Sample.root "/web/app.js"
           "?" "v=2").
  - left; reflexivity.
  - absent.
  - absent.
Defined.

Lemma leading_slashes_collapsed_witness :
  path (Sample.parsed "GET //evil.example/x HTTP/1.1") = "/evil.example/x"
  /\ Py.startswith (path (Sample.parsed "GET //evil.example/x HTTP/1.1"))
       "//" = false.
Proof.
  apply (@leading_slashes_collapsed Sample.env Sample.root
           (Sample.request_of "GET //evil.example/x HTTP/1.1")
           (Sample.parsed "GET //evil.example/x HTTP/1.1")).
  accepted.
Defined.

Lemma served_root_is_grandparent_witness :
  DIRECTORY Sample.world = "/srv/ebookta"
  /\ (exists rest,
         fst (run_server Sample.world) = Chdir "/srv/ebookta" :: rest)
  /\ forall r,
      In r (responses_of (fst (run_server Sample.world))) ->
      exists e rfile,
        In (e, rfile) (accepted Sample.world)
        /\ r = wfile (CORSHTTPRequestHandler.handle e rfile
                        (new_handler "/srv/ebookta")).
Proof.
  apply (@served_root_is_grandparent Sample.world "/srv/ebookta" "web"
           "server.py").
  - reflexivity.
  - discriminate.
  - reflexivity.
  - discriminate.
  - absent.
  - absent.
Defined.


Section EdgeCases.

Variable env : Env.

(** X6. A GET or HEAD request, read with a version other than HTTP/0.9,
    for a directory (the URL path ends with a slash) that holds neither
    [index.html] nor [index.htm] and on which [os.listdir] fails: the
    reply is status 404 with the message [No permission to list
    directory], and no file is opened. *)
Theorem unlistable_directory_404 dir req st c parts_path :
  accepts env dir req st ->
  command st = Some c -> c = "GET" \/ c = "HEAD" ->
  v09 st = false ->
  let p := CORSHTTPRequestHandler.translate_path env dir (path st) in
  os_path_isdir env p = true ->
  urlsplit_path env (path st) = Some parts_path ->
  Py.endswith parts_path "/" = true ->
  os_path_isfile env (posixpath.join p "index.html") = false ->
  os_path_isfile env (posixpath.join p "index.htm") = false ->
  os_listdir env p = None ->
  let out :=
    CORSHTTPRequestHandler.handle_one_request env req (new_handler dir) in
  let message := "No permission to list directory" in
  let page := error_page env 404 message "Nothing matches the given URI" in
  wfile out
  = Head (error_head env 404 message page)
    :: (if String.eqb c "GET" then body_of page else [])
  /\ existsb is_open (fs_trace out) = false.
Proof.
  intros A C M V p D U S I1 I2 L out message page.
  destruct (accepts_clean A) as (W & B & F & Dir & _).
  set (s0 := fs_calls [FsIsdir p; FsIsfile (posixpath.join p "index.html");
                       FsIsfile (posixpath.join p "index.htm");
                       FsListdir p] st).
  assert (E : SimpleHTTPRequestHandler.send_head env eh emap st
              = (None,
                 BaseHTTPRequestHandler.send_error env eh 404
                   (Some message) None s0)).
  { unfold SimpleHTTPRequestHandler.send_head, handler_path.
    rewrite Dir.
    change (SimpleHTTPRequestHandler.translate_path env dir (path st)) with p.
    rewrite D. fields. rewrite U, S. cbn [negb].
    rewrite (@find_index_none env p _ I1 I2).
    unfold SimpleHTTPRequestHandler.list_directory. rewrite L.
    reflexivity. }
  unfold out. rewrite (answer_of_send_head A C M E).
  rewrite (@send_error_eq env 404 "Not Found" "Nothing matches the given URI")
    by (reflexivity || exact V).
  cbn zeta. fold page.
  change (command s0) with (command st). rewrite C. unfold body_of.
  destruct M as [-> | ->]; cbn [String.eqb Ascii.eqb Bool.eqb negb andb];
    destruct (String.eqb page ""); cbn [negb]; unfold s0;
    cbn [fs_calls fold_left]; fields; rewrite W, B, F; split; reflexivity.
Qed.

(** X7. A GET or HEAD request, read with a version other than HTTP/0.9,
    whose path translates, with a trailing slash, to something that is no
    directory: the reply is status 404 [File not found], and the file is
    not even opened. *)
Theorem file_path_with_trailing_slash_404 dir req st c :
  accepts env dir req st ->
  command st = Some c -> c = "GET" \/ c = "HEAD" ->
  v09 st = false ->
  let p := CORSHTTPRequestHandler.translate_path env dir (path st) in
  os_path_isdir env p = false ->
  Py.endswith p "/" = true ->
  let out :=
    CORSHTTPRequestHandler.handle_one_request env req (new_handler dir) in
  let page :=
    error_page env 404 "File not found" "Nothing matches the given URI" in
  wfile out
  = Head (error_head env 404 "File not found" page)
    :: (if String.eqb c "GET" then body_of page else [])
  /\ fs_trace out = [FsIsdir p].
Proof.
  intros A C M V p D S out page.
  destruct (accepts_clean A) as (W & B & F & Dir & _).
  assert (E : SimpleHTTPRequestHandler.send_head env eh emap st
              = (None,
                 BaseHTTPRequestHandler.send_error env eh 404
                   (Some "File not found") None (fs_call (FsIsdir p) st))).
  { unfold SimpleHTTPRequestHandler.send_head, handler_path.
    rewrite Dir.
    change (SimpleHTTPRequestHandler.translate_path env dir (path st)) with p.
    rewrite D. unfold SimpleHTTPRequestHandler.send_head_file. rewrite S.
    reflexivity. }
  unfold out. rewrite (answer_of_send_head A C M E).
  rewrite (@send_error_eq env 404 "Not Found" "Nothing matches the given URI")
    by (reflexivity || exact V).
  cbn zeta. fold page. fields. rewrite C. unfold body_of.
  destruct M as [-> | ->]; cbn [String.eqb Ascii.eqb Bool.eqb negb andb];
    destruct (String.eqb page ""); cbn [negb]; fields;
    rewrite W, B, F; split; reflexivity.
Qed.

(** X11. A request line that holds nothing but white space is not
    answered: nothing is written, logged or asked of the file system, and
    the connection is closed. *)
Theorem blank_request_line_ignored dir req :
  Py.len (raw_requestline req) <= 65536 ->
  Py.split_ws (Py.rstrip (raw_requestline req) CRLF) = [] ->
  let out :=
    CORSHTTPRequestHandler.handle_one_request env req (new_handler dir) in
  wfile out = [] /\ fs_trace out = [] /\ log out = []
  /\ close_connection out = true.
Proof.
  intros L E out. unfold out.
  unfold CORSHTTPRequestHandler.handle_one_request,
    BaseHTTPRequestHandler.handle_one_request.
  destruct (65536 <? _) eqn:T; [apply Z.ltb_lt in T; lia|].
  destruct (String.eqb (raw_requestline req) ""); [repeat split|].
  unfold BaseHTTPRequestHandler.parse_request. cbn beta iota zeta.
  rewrite E. cbn [length Nat.eqb negb]. repeat split.
Qed.

End EdgeCases.

Lemma unlistable_directory_404_witness :
  let out :=
    CORSHTTPRequestHandler.handle_one_request Cases.env_unlistable
      (Sample.request_of "GET / HTTP/1.1") (new_handler Sample.root) in
  let page :=
    "Error code: 404, message: No permission to list directory" in
  wfile out
  = [Head (error_head Cases.env_unlistable 404
             "No permission to list directory" page);
     Body page]
  /\ existsb is_open (fs_trace out) = false.
Proof.
  apply (@unlistable_directory_404 Cases.env_unlistable Sample.root
           (Sample.request_of "GET / HTTP/1.1")
           (Cases.parsed_in Cases.env_unlistable
              (Sample.request_of "GET / HTTP/1.1")) "GET" "/").
  - accepted.
  - vm_compute; reflexivity.
  - left; reflexivity.
  - vm_compute; reflexivity.
  - vm_compute; reflexivity.
  - vm_compute; reflexivity.
  - vm_compute; reflexivity.
  - vm_compute; reflexivity.
  - vm_compute; reflexivity.
  - vm_compute; reflexivity.
Defined.

Lemma file_path_with_trailing_slash_404_witness :
  let out :=
    CORSHTTPRequestHandler.handle_one_request Sample.env
      (Sample.request_of "GET /web/app.js/ HTTP/1.1")
      (new_handler Sample.root) in
  let page := "Error code: 404, message: File not found" in
  wfile out
  = [Head (error_head Sample.env 404 "File not found" page); Body page]
  /\ fs_trace out = [FsIsdir "/srv/ebookta/web/app.js/"].
Proof.
  apply (@file_path_with_trailing_slash_404 Sample.env Sample.root
           (Sample.request_of "GET /web/app.js/ HTTP/1.1")
           (Sample.parsed "GET /web/app.js/ HTTP/1.1") "GET").
  - accepted.
  - vm_compute; reflexivity.
  - left; reflexivity.
  - vm_compute; reflexivity.
  - vm_compute; reflexivity.
  - vm_compute; reflexivity.
Defined.

Lemma blank_request_line_ignored_witness :
  let out :=
    CORSHTTPRequestHandler.handle_one_request Sample.env
      Cases.blank_request (new_handler Sample.root) in
  wfile out = [] /\ fs_trace out = [] /\ log out = []
  /\ close_connection out = true.
Proof.
  apply (@blank_request_line_ignored Sample.env Sample.root
           Cases.blank_request).
  - vm_compute; discriminate.
  - vm_compute; reflexivity.
Defined.

(** *** The listening socket *)

Lemma serve_forever_no_bind dir conns :
  List.filter is_bind (fst (serve_forever dir conns)) = [].
Proof. apply serve_forever_quiet; reflexivity. Qed.

(** X22. A run of [run_server] binds the server socket once, to port
    8090 on every interface of the host (the empty host name, though the
    banner speaks of localhost), and only after the change of directory
    succeeded; no connection's handling binds anything. *)
Theorem binds_once_on_every_interface w :
  List.filter is_bind (fst (run_server w))
  = if os_chdir w (DIRECTORY w) then [Bind "" 8090] else [].
Proof.
  unfold run_server.
  destruct (os_chdir w _); cbn [negb]; [|reflexivity].
  destruct (server_bind w _ _); cbn [negb]; [|reflexivity].
  destruct (stdout_accepts w (banner _)); cbn [negb]; [|reflexivity].
  pose proof (serve_forever_no_bind (DIRECTORY w) (accepted w)) as Q.
  destruct (serve_forever (DIRECTORY w) (accepted w)) as [served raised].
  cbn [fst] in Q.
  destruct raised as [[]|]; [| | | |destruct (interrupt w)];
    try destruct (stdout_accepts w farewell); cbn [fst];
    cbn [app filter is_bind]; rewrite ?filter_app, Q; reflexivity.
Qed.

(** *** An interrupt while a connection is handled *)

(** X25. When a [KeyboardInterrupt] leaves the handler of a connection
    (the interrupt arrives while the request is handled), the server does
    not report it and serves no further connection: the loop ends there,
    the farewell is printed, the server is closed and [run_server]
    returns, as for an interrupt between two connections. *)
Theorem interrupt_in_handler_ends_serving w before env rfile after :
  os_chdir w (DIRECTORY w) = true ->
  server_bind w "" PORT = true ->
  stdout_accepts w (banner "http://localhost:8090/web/") = true ->
  stdout_accepts w farewell = true ->
  accepted w = (before ++ (env, rfile) :: after)%list ->
  snd (serve_forever (DIRECTORY w) before) = None ->
  let st :=
    CORSHTTPRequestHandler.handle env rfile (new_handler (DIRECTORY w)) in
  uncaught st = Some KeyboardInterrupt ->
  run_server w
  = (([Chdir (DIRECTORY w); Bind "" 8090;
       Stdout (banner "http://localhost:8090/web/");
       WebbrowserOpen "http://localhost:8090/web/"; ServeForever]
      ++ fst (serve_forever (DIRECTORY w) before)
      ++ [Serve (wfile st); Stdout farewell; ServerClose])%list,
     Returned).
Proof.
  intros C B P G A Q st U. unfold run_server. rewrite C, B. cbn [negb].
  change ("http://localhost:" ++ Py.str PORT ++ "/web/")
    with "http://localhost:8090/web/".
  rewrite P, G, A. cbn [negb].
  rewrite (serve_forever_app (DIRECTORY w) before _ Q).
  cbn [serve_forever]. unfold process_request. fold st. rewrite U.
  cbn [is_Exception fst snd]. rewrite <- !app_assoc. reflexivity.
Qed.

Lemma interrupt_in_handler_ends_serving_witness :
  run_server Cases.world_interrupted
  = ([Chdir "/srv/ebookta"; Bind "" 8090;
      Stdout (banner "http://localhost:8090/web/");
      WebbrowserOpen "http://localhost:8090/web/"; ServeForever;
      Serve [Head (file_head Sample.env "text/html" Sample.index_html);
             Body "<html></html>"];
      Serve []; Stdout farewell; ServerClose],
     Returned).
Proof.
  apply (@interrupt_in_handler_ends_serving Cases.world_interrupted
           [(Sample.env, [Sample.request_of "GET /web/index.html HTTP/1.1"])]
           Cases.env_interrupted
           [Sample.request_of "GET /web/app.js HTTP/1.1"]
           [(Sample.env, [Sample.request_of "GET /LICENSE HTTP/1.1"])]);
    vm_compute; reflexivity.
Defined.

(** ** The claims of the specification *)

Lemma spec_mime_table_is_extensions_map :
  spec_mime_table = CORSHTTPRequestHandler.extensions_map.
Proof. reflexivity. Qed.

(** C1, as amended. For every row (E, M) of the specification's table: a
    GET request that was read with an HTTP version other than HTTP/0.9 and
    for which [send_head] serves a file whose extension, as
    [posixpath.splitext] splits it off, is E, is answered with status 200,
    a Content-type header that is exactly M, and the file's bytes. *)
Theorem listed_extension_content_type env dir req st E M q f st' :
  In (E, M) spec_mime_table ->
  accepts env dir req st ->
  command st = Some "GET" ->
  v09 st = false ->
  CORSHTTPRequestHandler.send_head env st = (Some (FileStream q f), st') ->
  snd (posixpath.splitext q) = E ->
  wfile (CORSHTTPRequestHandler.handle_one_request env req (new_handler dir))
  = [Head (file_head env M f); Body (f_data f)]
  /\ header_value (file_head env M f) "Content-Type" = Some M.
Proof.
  intros I A C V S X. split; [|reflexivity].
  rewrite spec_mime_table_is_extensions_map in I.
  rewrite (handle_one_request_accepted A C).
  change (CORSHTTPRequestHandler.getattr env ("do_" ++ "GET"))
    with (Some (CORSHTTPRequestHandler.do_GET env)).
  cbn beta iota.
  erewrite do_GET_served; [|exact S|exact V].
  destruct (accepts_clean A) as (W & B & _). rewrite W, B.
  rewrite (guess_type_listed _ _ I X). reflexivity.
Qed.

Lemma listed_extension_content_type_witness :
  wfile (CORSHTTPRequestHandler.handle_one_request Sample.env
           (Sample.request_of "GET /web/index.html HTTP/1.1")
           (new_handler Sample.root))
  = [Head (file_head Sample.env "text/html" Sample.index_html);
     Body "<html></html>"]
  /\ header_value (file_head Sample.env "text/html" Sample.index_html)
       "Content-Type" = Some "text/html".
Proof.
  apply (@listed_extension_content_type Sample.env Sample.root
           (Sample.request_of "GET /web/index.html HTTP/1.1")
           (Sample.parsed "GET /web/index.html HTTP/1.1")
           ".html" "text/html" "/srv/ebookta/web/index.html"
           Sample.index_html
           (snd (CORSHTTPRequestHandler.send_head Sample.env
                   (Sample.parsed "GET /web/index.html HTTP/1.1")))).
  - right. left. reflexivity.
  - split; [vm_compute; discriminate | vm_compute; reflexivity].
  - vm_compute; reflexivity.
  - vm_compute; reflexivity.
  - vm_compute; reflexivity.
  - vm_compute; reflexivity.
Defined.

(** C1 as stated fails twice over. A request line without a version
    ([GET /web/index.html]) is answered with the file's bytes and no head,
    so with no Content-Type at all; and the file [web/.html], whose name
    ends in [.html], is served as application/octet-stream, because
    [splitext] takes a name of nothing but dots before the last dot to have
    no extension. *)
Lemma listed_extension_counterexample :
  In (".html", "text/html") spec_mime_table
  /\ (let out :=
        wfile (CORSHTTPRequestHandler.handle_one_request Sample.env
                 (Sample.request_of "GET /web/index.html")
                 (new_handler Sample.root)) in
      out = [Body "<html></html>"]
      /\ content_type_of out <> Some "text/html")
  /\ (let out :=
        wfile (CORSHTTPRequestHandler.handle_one_request Sample.env
                 (Sample.request_of "GET /web/.html HTTP/1.1")
                 (new_handler Sample.root)) in
      out = [Head (file_head Sample.env "application/octet-stream"
                     Sample.dot_html);
             Body "<p>hidden</p>"]
      /\ content_type_of out <> Some "text/html").
Proof.
  split; [right; left; reflexivity|].
  split; (split; [vm_compute; reflexivity|]); vm_compute; discriminate.
Qed.

(** C2, as amended. Every reply to a request that the handler has read
    with a version other than HTTP/0.9, whatever the path, the method and
    the status (the errors sent before a request is accepted included),
    starts with a head that holds the three CORS headers, and holds no
    other head; the one exception is an exception that leaves the handler,
    and then nothing is sent.  And every head (status line and headers)
    of every response of a run of the server holds the three CORS
    headers.  (What is written without a head, for a request read as
    HTTP/0.9, holds no header.) *)
Theorem every_head_has_cors :
  (forall env dir req,
     raw_requestline req <> "" ->
     let out :=
       CORSHTTPRequestHandler.handle_one_request env req (new_handler dir) in
     v09 out = false ->
     (uncaught out = None
      /\ exists ls bodies,
           wfile out = Head ls :: bodies /\ has_cors ls /\ heads bodies = [])
     \/ (wfile out = [] /\ uncaught out <> None))
  /\ (forall w,
        Forall (fun r => Forall has_cors (heads r))
               (responses_of (fst (run_server w)))).
Proof.
  split.
  - intros env dir req Q out V.
    destruct (@versioned_request_replied env dir req Q V)
      as [(U & c & m & hs & bodies & W & _ & B)|N]; [left|right; exact N].
    split; [exact U|]. fold out in W. rewrite W. do 2 eexists.
    split; [reflexivity|]. split; [|exact B].
    apply ends_with_cors_has_cors.
    exists (StatusLine "HTTP/1.0" c m :: hs). reflexivity.
  - intros w. apply Forall_forall. intros r I.
    apply served_response_is_handled in I.
    destruct I as (env & rfile & _ & ->).
    eapply Forall_impl; [|exact (heads_ok_handle env rfile (DIRECTORY w))].
    exact ends_with_cors_has_cors.
Qed.

Lemma every_head_has_cors_witness :
  let out :=
    CORSHTTPRequestHandler.handle_one_request Sample.env
      (Sample.request_of "POST /web/missing.xyz HTTP/1.1")
      (new_handler Sample.root) in
  (uncaught out = None
   /\ exists ls bodies,
        wfile out = Head ls :: bodies /\ has_cors ls /\ heads bodies = [])
  \/ (wfile out = [] /\ uncaught out <> None).
Proof.
  apply (proj1 every_head_has_cors Sample.env Sample.root
           (Sample.request_of "POST /web/missing.xyz HTTP/1.1")).
  - vm_compute; discriminate.
  - vm_compute; reflexivity.
Defined.

(** C2 as stated fails on a request line without a version: the file is
    sent back bare, and so is the error page for a request line that names
    HTTP/2.0 (the version is still the default HTTP/0.9 when the error is
    sent).  Neither response holds a CORS header. *)
Lemma every_response_has_cors_counterexample :
  (let out :=
     wfile (CORSHTTPRequestHandler.handle Sample.env
              [Sample.request_of "GET /web/index.html"]
              (new_handler Sample.root)) in
   out = [Body "<html></html>"] /\ ~ response_has_cors out)
  /\ (let out :=
        wfile (CORSHTTPRequestHandler.handle Sample.env
                 [Sample.request_of "GET /web/index.html HTTP/2.0"]
                 (new_handler Sample.root)) in
      out = [Body "Error code: 505, message: Invalid HTTP version (2.0)"]
      /\ ~ response_has_cors out).
Proof.
  split; (split; [vm_compute; reflexivity|]);
    intros (ls & I & _); vm_compute in I; exact I.
Qed.

(** C3, as amended. A request that is accepted with the command OPTIONS
    and a version other than HTTP/0.9, to any path and in any environment,
    is answered with status 200, the three CORS headers and no body, and
    handling it makes no file system call: the answer does not depend on
    the state of the root directory at the time of the request. *)
Theorem options_preflight env dir req st :
  accepts env dir req st ->
  command st = Some "OPTIONS" ->
  v09 st = false ->
  let out :=
    CORSHTTPRequestHandler.handle_one_request env req (new_handler dir) in
  wfile out
  = [Head (response_start env 200 "OK" ++ cors_headers ++ [BlankLine])]
  /\ fs_trace out = [].
Proof.
  intros A C V out. unfold out.
  rewrite (handle_one_request_accepted A C).
  change (CORSHTTPRequestHandler.getattr env ("do_" ++ "OPTIONS"))
    with (Some (CORSHTTPRequestHandler.do_OPTIONS env)).
  cbn beta iota. rewrite do_OPTIONS_eq by exact V.
  destruct (accepts_clean A) as (W & B & F & _). fields.
  rewrite W, B, F. split; reflexivity.
Qed.

Lemma options_preflight_witness :
  let out :=
    CORSHTTPRequestHandler.handle_one_request Sample.env
      (Sample.request_of "OPTIONS /anything HTTP/1.1")
      (new_handler Sample.root) in
  wfile out
  = [Head (response_start Sample.env 200 "OK" ++ cors_headers
           ++ [BlankLine])]
  /\ fs_trace out = [].
Proof.
  apply (@options_preflight Sample.env Sample.root
           (Sample.request_of "OPTIONS /anything HTTP/1.1")
           (Sample.parsed "OPTIONS /anything HTTP/1.1")).
  - split; [vm_compute; discriminate | vm_compute; reflexivity].
  - vm_compute; reflexivity.
  - vm_compute; reflexivity.
Defined.

(** C3 as stated fails twice over. The request line
    [OPTIONS /anything HTTP/0.9] is accepted with the command OPTIONS, and
    nothing at all is written in answer: no status 200, no CORS header.
    And when the root directory does not exist at start-up, no request is
    served, OPTIONS or other: [run_server] ends in [os.chdir]. *)
Lemma options_preflight_counterexample :
  (exists st,
     accepts Sample.env Sample.root
       (Sample.request_of "OPTIONS /anything HTTP/0.9") st
     /\ command st = Some "OPTIONS"
     /\ wfile (CORSHTTPRequestHandler.handle_one_request Sample.env
                 (Sample.request_of "OPTIONS /anything HTTP/0.9")
                 (new_handler Sample.root)) = [])
  /\ (In (Sample.env, [Sample.request_of "OPTIONS /anything HTTP/1.1"])
         (accepted Sample.world_no_root)
      /\ responses_of (fst (run_server Sample.world_no_root)) = []).
Proof.
  split.
  - exists (Sample.parsed "OPTIONS /anything HTTP/0.9").
    split; [split; [vm_compute; discriminate | vm_compute; reflexivity]|].
    split; vm_compute; reflexivity.
  - split; [right; left; reflexivity | vm_compute; reflexivity].
Qed.

(** C4, as amended. For every GET request whose path has a [../] in it:
    every path the handler opens is the root followed by plain names
    ([translate_path] drops the [..] segments), and every body it sends
    is the bytes of the file opened at such a path, or a page the handler
    makes up itself.  This is containment of the path as it is spelled;
    where the bytes of the file lie is up to the file system. *)
Theorem dotdot_stays_within_root env dir req st :
  accepts env dir req st ->
  command st = Some "GET" ->
  has_dotdot_segment (path st) = true ->
  let out :=
    CORSHTTPRequestHandler.handle_one_request env req (new_handler dir) in
  (forall q, In (FsOpen q) (fs_trace out) -> within dir q)
  /\ (forall data, In (Body data) (wfile out) -> served_ok env dir data).
Proof.
  intros A C _ out. unfold out.
  rewrite (handle_one_request_accepted A C).
  change (CORSHTTPRequestHandler.getattr env ("do_" ++ "GET"))
    with (Some (CORSHTTPRequestHandler.do_GET env)).
  cbn beta iota.
  destruct (accepts_clean A) as (W & B & F & D & _).
  rewrite <- D. apply safe_do_GET. split.
  - rewrite F. intros q [].
  - rewrite W. intros d [].
Qed.

(** The request of the witness, worked out: the path is translated to
    [secret.txt] in the root, where there is no such file, and the file of
    that name next to the root is not touched. *)
Lemma dotdot_request_example :
  let st :=
    CORSHTTPRequestHandler.handle_one_request Sample.env
      (Sample.request_of "GET /web/../../secret.txt HTTP/1.1")
      (new_handler Sample.root) in
  fs_trace st
  = [FsIsdir "/srv/ebookta/secret.txt"; FsOpen "/srv/ebookta/secret.txt"]
  /\ status_of_response (wfile st) = Some 404
  /\ open_rb Sample.env "/srv/secret.txt" = Opened Sample.secret_txt.
Proof. repeat split; vm_compute; reflexivity. Qed.

(** C4 as stated fails where the root holds a symbolic link that leads
    out of it: for [GET /web/../link.txt] the handler opens
    [link.txt] in the root, which is within the root as a path, and sends
    the bytes of the file the link names, [/srv/secret.txt], which lies
    outside the root. *)
Lemma dotdot_symlink_counterexample :
  let out :=
    CORSHTTPRequestHandler.handle_one_request Sample.env_linked
      (Sample.request_of "GET /web/../link.txt HTTP/1.1")
      (new_handler Sample.root) in
  has_dotdot_segment "/web/../link.txt" = true
  /\ fs_trace out
     = [FsIsdir "/srv/ebookta/link.txt"; FsOpen "/srv/ebookta/link.txt"]
  /\ Sample.realpath "/srv/ebookta/link.txt" = "/srv/secret.txt"
  /\ Py.startswith "/srv/secret.txt" (Sample.root ++ "/") = false
  /\ ~ within Sample.root "/srv/secret.txt"
  /\ wfile out
     = [Head (file_head Sample.env_linked "text/plain" Sample.secret_txt);
        Body "secret"].
Proof.
  cbn zeta. repeat split; try (vm_compute; reflexivity).
  intros W. apply within_spelled in W. destruct W as (rest & E & _).
  vm_compute in E. discriminate E.
Qed.

Lemma dotdot_stays_within_root_witness :
  let out :=
    CORSHTTPRequestHandler.handle_one_request Sample.env
      (Sample.request_of "GET /web/../../secret.txt HTTP/1.1")
      (new_handler Sample.root) in
  (forall q, In (FsOpen q) (fs_trace out) -> within Sample.root q)
  /\ (forall data,
        In (Body data) (wfile out) -> served_ok Sample.env Sample.root data).
Proof.
  apply (@dotdot_stays_within_root Sample.env Sample.root
           (Sample.request_of "GET /web/../../secret.txt HTTP/1.1")
           (Sample.parsed "GET /web/../../secret.txt HTTP/1.1")).
  - split; [vm_compute; discriminate | vm_compute; reflexivity].
  - vm_compute; reflexivity.
  - vm_compute; reflexivity.
Defined.

(** C5, as amended. Every reply to a request that the handler has read
    with a version other than HTTP/0.9, whatever the path, the method and
    the status, starts with a head in which the three CORS headers are
    the last headers: the status line and the other headers, none of
    them a CORS header, stand before them, and the blank line that ends
    the head follows them; no other head is written.  The one exception
    is an exception that leaves the handler, and then nothing is sent.
    And in every head of every response of a run of the server the three
    CORS headers are the last headers. *)
Theorem cors_headers_come_last :
  (forall env dir req,
     raw_requestline req <> "" ->
     let out :=
       CORSHTTPRequestHandler.handle_one_request env req (new_handler dir) in
     v09 out = false ->
     (uncaught out = None
      /\ exists code message others bodies,
           wfile out
           = Head (StatusLine "HTTP/1.0" code message
                   :: others ++ cors_headers ++ [BlankLine])%list
             :: bodies
           /\ existsb is_cors_header others = false
           /\ heads bodies = [])
     \/ (wfile out = [] /\ uncaught out <> None))
  /\ (forall w,
        Forall (fun r => Forall ends_with_cors (heads r))
               (responses_of (fst (run_server w)))).
Proof.
  split.
  - intros env dir req Q out V.
    exact (@versioned_request_replied env dir req Q V).
  - intros w. apply Forall_forall. intros r I.
    apply served_response_is_handled in I.
    destruct I as (env & rfile & _ & ->).
    exact (heads_ok_handle env rfile (DIRECTORY w)).
Qed.

Lemma cors_headers_come_last_witness :
  let out :=
    CORSHTTPRequestHandler.handle_one_request Sample.env
      (Sample.request_of "GET /web/index.html HTTP/1.1")
      (new_handler Sample.root) in
  (uncaught out = None
   /\ exists code message others bodies,
        wfile out
        = Head (StatusLine "HTTP/1.0" code message
                :: others ++ cors_headers ++ [BlankLine])%list
          :: bodies
        /\ existsb is_cors_header others = false
        /\ heads bodies = [])
  \/ (wfile out = [] /\ uncaught out <> None).
Proof.
  apply (proj1 cors_headers_come_last Sample.env Sample.root
           (Sample.request_of "GET /web/index.html HTTP/1.1")).
  - vm_compute; discriminate.
  - vm_compute; reflexivity.
Defined.

(** C5 as stated fails on the plainest request: in the answer to
    [OPTIONS /anything HTTP/1.1] the Server and Date headers that
    [send_response] writes stand before the three CORS headers. *)
Lemma cors_headers_first_counterexample :
  exists ls,
    wfile (CORSHTTPRequestHandler.handle Sample.env
             [Sample.request_of "OPTIONS /anything HTTP/1.1"]
             (new_handler Sample.root)) = [Head ls]
    /\ ls = (response_start Sample.env 200 "OK" ++ cors_headers
             ++ [BlankLine])%list
    /\ ~ starts_with_cors ls.
Proof.
  eexists. split; [vm_compute; reflexivity|]. split; [reflexivity|].
  intros (status & rest & [->|(p & c & m & ->)] & E); discriminate E.
Qed.







(** An exception that leaves the handler does not stop the server: it is
    reported, and the next connection is served. *)
Lemma server_outlives_handler_error :
  serve_forever Sample.root
    [ (Sample.env, [Sample.nul_request]);
      (Sample.env, [Sample.request_of "GET /web/index.html HTTP/1.1"]) ]
  = ([ Serve []; HandleError ValueError;
       Serve [Head (file_head Sample.env "text/html" Sample.index_html);
              Body "<html></html>"] ],
     None).
Proof. vm_compute. reflexivity. Qed.








(** C10. The first thing [run_server] does, before the socket is bound,
    is to change to the root directory; when that directory does not
    exist, the run ends there with the error, nothing is bound and no
    request is served, OPTIONS or other. *)
Theorem chdir_before_bind w :
  (exists rest,
     fst (run_server w) = Chdir (DIRECTORY w) :: rest)
  /\ (os_chdir w (DIRECTORY w) = false ->
      run_server w = ([Chdir (DIRECTORY w)], Raised OSError)
      /\ responses_of (fst (run_server w)) = []
      /\ snd (main w) = Some 1).
Proof.
  split.
  - destruct (run_server_trace w) as [->|[->|(tail & -> & _)]];
      eexists; reflexivity.
  - unfold main, run_server. intros ->. cbn [negb]. repeat split.
Qed.

Lemma chdir_before_bind_witness :
  In (Sample.env, [Sample.request_of "OPTIONS /anything HTTP/1.1"])
     (accepted Sample.world_no_root)
  /\ run_server Sample.world_no_root = ([Chdir "/srv/ebookta"], Raised OSError)
  /\ responses_of (fst (run_server Sample.world_no_root)) = []
  /\ snd (main Sample.world_no_root) = Some 1.
Proof.
  split; [right; left; reflexivity|].
  apply (@chdir_before_bind Sample.world_no_root). vm_compute; reflexivity.
Defined.
